(** * YouTube content analyzer: the background service worker, embedded in Rocq

    The development follows [src/background.js].  Pure helpers become
    functions; the asynchronous functions, which talk to the popup and to the
    network and may throw, become computations in a small monad that logs
    every message and request and carries the thrown error.  The answers of
    the outside world (storage, the injected script, the HTTP endpoints) are
    read from a [World] record, and [JSON.parse], a built-in of the host, is
    a parameter of a section. *)

From Stdlib Require Import String Ascii List Bool Arith Lia DecimalString.
Import ListNotations.
Local Open Scope string_scope.
Local Open Scope list_scope.
Local Open Scope nat_scope.
#[local] Set Warnings "-register-all".

(** ** JavaScript strings and their truthiness *)

Module Js.

(** A string is truthy exactly when it is not empty. *)
Definition truthy_str (s : string) : bool := negb (String.eqb s EmptyString).

(** [x || d] on a value that is either a string or undefined/null. *)
Definition or_str (x : option string) (d : string) : string :=
  match x with
  | Some s => if truthy_str s then s else d
  | None => d
  end.

(** Truthiness of a value that is either a string or null/undefined. *)
Definition truthy_opt (x : option string) : bool :=
  match x with
  | Some s => truthy_str s
  | None => false
  end.

(** [x === 'lit'] for a value that is a string or undefined. *)
Definition opt_is (x : option string) (lit : string) : bool :=
  match x with
  | Some s => String.eqb s lit
  | None => false
  end.

(** A text is held as a string of one-byte characters.  When every
    character is an ASCII one (below 128) a character is one code unit of
    the host, so that [String.length] is its [length], and the white space
    and the capital letters among them are the six characters and the 26
    letters that [trim] and [toLowerCase] are defined on below.  Outside
    ASCII the host also trims and lowers characters that take more than
    one byte here; statements on the length, the trimming or the lowering
    of a text that comes from outside are therefore made for ASCII
    text. *)
Fixpoint isAscii (s : string) : bool :=
  match s with
  | EmptyString => true
  | String c r => (nat_of_ascii c <? 128) && isAscii r
  end.

End Js.

(** ** Caption tracks and the track selection of [fetchTranscriptFromPage] *)

Module Tracks.

(** An entry of [captionTracks]: [kind] is absent on a human-authored
    track and ["asr"] on an auto-generated one. *)
Record CaptionTrack : Type := mkTrack {
  languageCode : string;
  kind : option string;
  baseUrl : string
}.

(** [t => t.languageCode === lang && !t.kind] *)
Definition isHuman (lang : string) (t : CaptionTrack) : bool :=
  String.eqb (languageCode t) lang && negb (Js.truthy_opt (kind t)).

(** [t => t.languageCode === lang && t.kind === 'asr'] *)
Definition isAsr (lang : string) (t : CaptionTrack) : bool :=
  String.eqb (languageCode t) lang && Js.opt_is (kind t) "asr".

(** The pair of mutable locals [bestTrackUrl], [foundLang]
    ([None] is [null]). *)
Definition choice : Type := (option string * option string)%type.

(** The [for (const lang of langPrefs)] loop, lines 110-123. *)
Fixpoint selectLoop (tracks : list CaptionTrack) (langPrefs : list string)
    (cur : choice) : choice :=
  match langPrefs with
  | [] => cur
  | lang :: rest =>
      match find (isHuman lang) tracks with
      | Some track => (Some (baseUrl track), Some lang)   (* break *)
      | None =>
          match find (isAsr lang) tracks with
          | Some asrTrack =>
              if negb (Js.truthy_opt (fst cur))
              then selectLoop tracks rest
                     (Some (baseUrl asrTrack), Some (lang ++ " (auto)")%string)
              else selectLoop tracks rest cur
          | None => selectLoop tracks rest cur
          end
      end
  end.

(** Lines 106-129: the loop, then the first track as a last resort. *)
Definition selectTrack (tracks : list CaptionTrack) (langPrefs : list string)
    : choice :=
  let cur := selectLoop tracks langPrefs (None, None) in
  if negb (Js.truthy_opt (fst cur)) then
    match tracks with
    | t0 :: _ =>
        (Some (baseUrl t0),
         Some (languageCode t0
               ++ (if Js.opt_is (kind t0) "asr" then " (auto)" else EmptyString))%string)
    | [] => cur
    end
  else cur.

(** The default preference order of the source. *)
Definition defaultLangPrefs : list string := ["ta"; "en"].

End Tracks.

(** ** JSON values, as [JSON.parse] and [response.json()] deliver them *)

Module Json.

(** A number is kept as its JSON literal: the code only tests numbers for
    truthiness and passes them on.  An object is the list of its own
    properties, keys distinct, first binding read. *)
Inductive json : Type :=
| JNull
| JBool (b : bool)
| JNum (literal : string)
| JStr (s : string)
| JArr (elements : list json)
| JObj (fields : list (string * json)).

(** A JavaScript value read out of JSON data: [None] is [undefined]. *)
Definition jsval : Type := option json.

Definition isDigit (c : ascii) : bool :=
  let n := nat_of_ascii c in (48 <=? n) && (n <=? 57).

(** A number literal denotes zero when its mantissa has no digit but 0
    (a literal so small that it rounds to zero is not told apart). *)
Fixpoint zeroMantissa (s : string) : bool :=
  match s with
  | EmptyString => true
  | String c r =>
      if (Ascii.eqb c "e" || Ascii.eqb c "E")%bool then true
      else if isDigit c && negb (Ascii.eqb c "0") then false
      else zeroMantissa r
  end.

(** ToBoolean: [null], [false], [0], [-0] and the empty string are falsy,
    as is [undefined]. *)
Definition truthy (v : jsval) : bool :=
  match v with
  | None => false
  | Some JNull => false
  | Some (JBool b) => b
  | Some (JNum l) => negb (zeroMantissa l)
  | Some (JStr s) => Js.truthy_str s
  | Some (JArr _) => true
  | Some (JObj _) => true
  end.

Fixpoint lookup (k : string) (fs : list (string * json)) : jsval :=
  match fs with
  | [] => None
  | (k', v) :: r => if String.eqb k' k then Some v else lookup k r
  end.

(** [v?.k], for the property names the code reads (none of them is a
    property of a built-in prototype): only an object has them. *)
Definition optProp (v : jsval) (k : string) : jsval :=
  match v with
  | Some (JObj fs) => lookup k fs
  | _ => None
  end.

(** [v?.[0]]: the first element of an array, the first character of a
    string, the property ["0"] of an object. *)
Definition optFirst (v : jsval) : jsval :=
  match v with
  | Some (JArr (x :: _)) => Some x
  | Some (JStr (String c _)) => Some (JStr (String c EmptyString))
  | Some (JObj fs) => lookup "0" fs
  | _ => None
  end.


(** [Array.isArray(v)] *)
Definition isArray (v : jsval) : bool :=
  match v with
  | Some (JArr _) => true
  | _ => false
  end.

(** ToString, as a template literal or [JSON.parse] applies it to its
    argument.  Inside an array [null] prints as the empty string. *)
Fixpoint toString (v : json) : string :=
  match v with
  | JNull => "null"
  | JBool true => "true"
  | JBool false => "false"
  | JNum l => l
  | JStr s => s
  | JArr l =>
      String.concat ","
        (map (fun x => match x with JNull => EmptyString | _ => toString x end) l)
  | JObj _ => "[object Object]"
  end.

Definition toStringVal (v : jsval) : string :=
  match v with
  | None => "undefined"
  | Some x => toString x
  end.

(** *** A reader for JSON text

    [parse] follows the JSON grammar (RFC 8259) except that the escape
    [\u] is not read.  It serves to run the worker on concrete replies;
    the statements about the worker are made for any [JSON.parse]. *)

Definition dquote : ascii := "034"%char.
Definition backslash : ascii := "092"%char.

Definition isWs (c : ascii) : bool :=
  let n := nat_of_ascii c in
  (n =? 32) || (n =? 9) || (n =? 10) || (n =? 13).

Fixpoint skipWs (s : string) : string :=
  match s with
  | String c r => if isWs c then skipWs r else s
  | EmptyString => s
  end.

(** The longest prefix of digits, and what follows it. *)
Fixpoint spanDigits (s : string) : string * string :=
  match s with
  | String c r =>
      if isDigit c
      then let '(d, t) := spanDigits r in (String c d, t)
      else (EmptyString, s)
  | EmptyString => (EmptyString, s)
  end.

Definition parseInt (s : string) : option (string * string) :=
  match s with
  | String "0" r => Some ("0", r)
  | String c _ =>
      if isDigit c then Some (spanDigits s) else None
  | EmptyString => None
  end.

Definition parseFrac (s : string) : option (string * string) :=
  match s with
  | String "." r =>
      match spanDigits r with
      | (EmptyString, _) => None
      | (d, t) => Some (String "." d, t)
      end
  | _ => Some (EmptyString, s)
  end.

Definition parseExp (s : string) : option (string * string) :=
  match s with
  | String c r =>
      if (Ascii.eqb c "e" || Ascii.eqb c "E")%bool then
        let '(sign, r') :=
          match r with
          | String "+" t => ("+", t)
          | String "-" t => ("-", t)
          | _ => (EmptyString, r)
          end in
        match spanDigits r' with
        | (EmptyString, _) => None
        | (d, t) => Some ((String c sign ++ d)%string, t)
        end
      else Some (EmptyString, s)
  | EmptyString => Some (EmptyString, s)
  end.

Definition parseNumber (s : string) : option (string * string) :=
  let '(sign, s1) :=
    match s with
    | String "-" t => ("-", t)
    | _ => (EmptyString, s)
    end in
  match parseInt s1 with
  | None => None
  | Some (i, s2) =>
      match parseFrac s2 with
      | None => None
      | Some (f, s3) =>
          match parseExp s3 with
          | None => None
          | Some (e, s4) => Some ((sign ++ i ++ f ++ e)%string, s4)
          end
      end
  end.

Definition unescape (c : ascii) : option ascii :=
  if Ascii.eqb c dquote then Some dquote
  else if Ascii.eqb c backslash then Some backslash
  else if Ascii.eqb c "/" then Some "/"%char
  else if Ascii.eqb c "b" then Some "008"%char
  else if Ascii.eqb c "f" then Some "012"%char
  else if Ascii.eqb c "n" then Some "010"%char
  else if Ascii.eqb c "r" then Some "013"%char
  else if Ascii.eqb c "t" then Some "009"%char
  else None.

(** The characters of a string literal after its opening quote, up to the
    closing one. *)
Fixpoint parseChars (s : string) : option (string * string) :=
  match s with
  | EmptyString => None
  | String c r =>
      if Ascii.eqb c dquote then Some (EmptyString, r)
      else if Ascii.eqb c backslash then
        match r with
        | String e r' =>
            match unescape e, parseChars r' with
            | Some x, Some (t, rest) => Some (String x t, rest)
            | _, _ => None
            end
        | EmptyString => None
        end
      else if nat_of_ascii c <? 32 then None
      else
        match parseChars r with
        | Some (t, rest) => Some (String c t, rest)
        | None => None
        end
  end.

(** Assignment to a property: a repeated key keeps its place and takes the
    later value. *)
Fixpoint setField (k : string) (v : json) (fs : list (string * json))
    : list (string * json) :=
  match fs with
  | [] => [(k, v)]
  | (k', v') :: r =>
      if String.eqb k' k then (k', v) :: r else (k', v') :: setField k v r
  end.

Definition startsWith (p s : string) : option string :=
  if String.prefix p s
  then Some (substring (String.length p) (String.length s - String.length p) s)
  else None.

Fixpoint parseValue (fuel : nat) (s : string) : option (json * string) :=
  match fuel with
  | O => None
  | S fuel' =>
      match skipWs s with
      | String "[" r =>
          match skipWs r with
          | String "]" r' => Some (JArr [], r')
          | _ => parseElements fuel' r []
          end
      | String "{" r =>
          match skipWs r with
          | String "}" r' => Some (JObj [], r')
          | _ => parseMembers fuel' r []
          end
      | String c r as s' =>
          if Ascii.eqb c dquote then
            match parseChars r with
            | Some (t, rest) => Some (JStr t, rest)
            | None => None
            end
          else
            match startsWith "null" s', startsWith "true" s',
                  startsWith "false" s' with
            | Some rest, _, _ => Some (JNull, rest)
            | _, Some rest, _ => Some (JBool true, rest)
            | _, _, Some rest => Some (JBool false, rest)
            | _, _, _ =>
                match parseNumber s' with
                | Some (l, rest) => Some (JNum l, rest)
                | None => None
                end
            end
      | EmptyString => None
      end
  end
with parseElements (fuel : nat) (s : string) (acc : list json)
    : option (json * string) :=
  match fuel with
  | O => None
  | S fuel' =>
      match parseValue fuel' s with
      | Some (v, r) =>
          match skipWs r with
          | String "," r' => parseElements fuel' r' (acc ++ [v])
          | String "]" r' => Some (JArr (acc ++ [v]), r')
          | _ => None
          end
      | None => None
      end
  end
with parseMembers (fuel : nat) (s : string) (acc : list (string * json))
    : option (json * string) :=
  match fuel with
  | O => None
  | S fuel' =>
      match skipWs s with
      | String c r =>
          if Ascii.eqb c dquote then
            match parseChars r with
            | Some (k, r1) =>
                match skipWs r1 with
                | String ":" r2 =>
                    match parseValue fuel' r2 with
                    | Some (v, r3) =>
                        match skipWs r3 with
                        | String "," r4 => parseMembers fuel' r4 (setField k v acc)
                        | String "}" r4 => Some (JObj (setField k v acc), r4)
                        | _ => None
                        end
                    | None => None
                    end
                | _ => None
                end
            | None => None
            end
          else None
      | EmptyString => None
      end
  end.

(** [JSON.parse(text)]: one value, then nothing but white space; [None]
    when the host would throw a [SyntaxError]. *)
Definition parse (text : string) : option json :=
  match parseValue (2 * String.length text + 2) text with
  | Some (v, r) =>
      match skipWs r with
      | EmptyString => Some v
      | _ => None
      end
  | None => None
  end.

End Json.

(** ** Timed text: lines 145-160 of [fetchTranscriptFromPage] *)

Module TimedText.

Definition lt : ascii := "<"%char.
Definition gt : ascii := ">"%char.
Definition newline : string := String "010"%char EmptyString.

(** [transcriptXML.match(/<text.*?>(.*?)<\/text>/gs)].  With the [s] flag
    a dot crosses line ends, and both stars are lazy: a match starts at
    the next ["<text"], runs to the first [">"] after it and ends with the
    first ["</text>"] after that.  When one of the three is missing no
    later start can match either.  [pos] is the regex's [lastIndex]. *)
Fixpoint matchTextFrom (fuel : nat) (xml : string) (pos : nat) : list string :=
  match fuel with
  | O => []
  | S fuel' =>
      match String.index pos "<text" xml with
      | None => []
      | Some i =>
          match String.index (i + 5) ">" xml with
          | None => []
          | Some j =>
              match String.index (j + 1) "</text>" xml with
              | None => []
              | Some k =>
                  substring i (k + 7 - i) xml
                    :: matchTextFrom fuel' xml (k + 7)
              end
          end
      end
  end.

(** The array of matches ([null], here the empty list, when there is
    none).  Every match is at least 13 characters long. *)
Definition matchText (xml : string) : list string :=
  matchTextFrom (String.length xml) xml 0.

Fixpoint hasGt (s : string) : bool :=
  match s with
  | EmptyString => false
  | String c r => Ascii.eqb c gt || hasGt r
  end.

(** Whether [<[^>]+>] matches at a ["<"] followed by [r]: one character
    other than [">"] at least, and a [">"] further on. *)
Definition opensTag (r : string) : bool :=
  match r with
  | EmptyString => false
  | String c r' => negb (Ascii.eqb c gt) && hasGt r'
  end.

(** [text.replace(/<[^>]+>/g, '')]; [inTag] holds while a match is being
    skipped. *)
Fixpoint stripFrom (inTag : bool) (s : string) : string :=
  match s with
  | EmptyString => EmptyString
  | String c r =>
      if inTag then stripFrom (negb (Ascii.eqb c gt)) r
      else if Ascii.eqb c lt && opensTag r then stripFrom true r
      else String c (stripFrom false r)
  end.

Definition stripTags (s : string) : string := stripFrom false s.

(** [text.replace(/c/g, by)] for a pattern of one character. *)
Fixpoint replaceAll (c : ascii) (by_ : string) (s : string) : string :=
  match s with
  | EmptyString => EmptyString
  | String x r =>
      if Ascii.eqb x c then (by_ ++ replaceAll c by_ r)%string
      else String x (replaceAll c by_ r)
  end.

(** Line 151, as it stands in the source: each of the five patterns is a
    single character and its replacement is that same character. *)
Definition decodeEntities (text : string) : string :=
  replaceAll "'" "'"
    (replaceAll Json.dquote (String Json.dquote EmptyString)
      (replaceAll ">" ">"
        (replaceAll "<" "<"
          (replaceAll "&" "&" text)))).

(** White space for [trim] on ASCII text ([Js.isAscii]): tab, line feed,
    vertical tab, form feed, carriage return and space. *)
Definition isSpace (c : ascii) : bool :=
  let n := nat_of_ascii c in
  ((9 <=? n) && (n <=? 13)) || (n =? 32).

Fixpoint trimStart (s : string) : string :=
  match s with
  | String c r => if isSpace c then trimStart r else s
  | EmptyString => s
  end.

(** Drops trailing white space: a character is kept when it is not white
    space or when something is kept after it. *)
Fixpoint trimEnd (s : string) : string :=
  match s with
  | EmptyString => EmptyString
  | String c r =>
      match trimEnd r with
      | EmptyString => if isSpace c then EmptyString else String c EmptyString
      | r' => String c r'
      end
  end.

Definition trim (s : string) : string := trimEnd (trimStart s).

(** The body of the [forEach]: one line per match. *)
Definition lineOf (m : string) : string :=
  trim (decodeEntities (stripTags m)).

Definition linesOf (transcriptXML : string) : list string :=
  map lineOf (matchText transcriptXML).

Definition noTextMessage : string :=
  "Transcript content fetched but no text found after parsing.".

(** Lines 146-160: the transcript, or the message of the thrown error. *)
Definition extractTranscript (transcriptXML : string) : string + string :=
  match linesOf transcriptXML with
  | [] => inl noTextMessage
  | lines => inr (String.concat newline lines)
  end.

End TimedText.

(** ** What the worker sends and what the world answers *)

Module Msg.

(** [{id, text}], one per fetched comment thread. *)
Record Comment : Type := mkComment {
  id : string;
  text : string
}.

(** [{ ...originalComment, sentiment }] *)
Record AnalyzedComment : Type := mkAnalyzed {
  comment : Comment;
  sentiment : string
}.

(** The object [sentimentCounts].  Besides its three counters it can come
    to own further properties: [sentimentCounts[k]++] on a name [k] that
    it only inherits stores [NaN] under [k]; [strays] lists those names. *)
Record SentimentCounts : Type := mkCounts {
  positive : nat;
  negative : nat;
  neutral : nat;
  strays : list string
}.

(** The object sent with [displayCommentAnalysis]. *)
Record Analysis : Type := mkAnalysis {
  totalFetched : nat;
  totalAnalyzed : nat;
  sentimentCounts : SentimentCounts;
  sampleAnalyzedComments : list AnalyzedComment
}.

(** [formattedResult] of [performFactCheck]; [confidence] is [JNull] for
    [null]. *)
Record FactCheck : Type := mkFactCheck {
  verdict : Json.json;
  confidence : Json.json;
  explanation : Json.json;
  sources : list Json.json
}.

Inductive payload : Type :=
| PText (s : string)
| PAnalysis (r : Analysis)
| PFactCheck (r : FactCheck).

(** Everything the worker does that is seen outside: the two kinds of
    message to the popup and the HTTP requests, in the order issued. *)
Inductive event : Type :=
| UpdateStatus (message : string) (isError : bool) (isProcessing : option bool)
| Display (action : string) (data : option payload) (error : option string)
| Request (url : string).

(** The answer to a [fetch] of a JSON endpoint.  [B] is the shape of a
    successful body; a body is [inl m] when reading it rejects with
    message [m]. *)
Inductive Reply (B : Type) : Type :=
| Rejected (message : string)
| Failed (status : nat) (statusText : string) (errorData : string + Json.json)
| Succeeded (data : string + B).
Arguments Rejected {B} message.
Arguments Failed {B} status statusText errorData.
Arguments Succeeded {B} data.

(** One entry of [commentsData.items]. *)
Record ThreadItem : Type := mkItem {
  itemId : string;
  textOriginal : option string
}.

Record CommentsPage : Type := mkPage {
  items : option (list ThreadItem);
  nextPageToken : option string
}.

(** One entry of [captionsData.items]: [snippet.language] and
    [snippet.trackKind]. *)
Record CaptionItem : Type := mkCaption {
  language : string;
  trackKind : string
}.

(** Lines 70-102 by their outcome: an error that reaches the [catch]
    (the page did not load, or its player data did not parse), or the
    [captionTracks] found, [None] when the pattern, the captions section
    or the track list is missing. *)
Inductive Scrape : Type :=
| ScrapeThrows (message : string)
| Scraped (tracks : option (list Tracks.CaptionTrack)).

(** The answers of the outside world during one operation. *)
Record World : Type := mkWorld {
  (** [chrome.storage.local.get]: the two stored keys, [None] when the
      call rejects *)
  storedKeys : option (option string * option string);
  (** [chrome.scripting.executeScript]: the value of [params.get('v')],
      or the message of the rejection *)
  injected : string + option string;
  watchPage : Scrape;
  (** the timed text behind a track URL; a failure carries [statusText] *)
  trackContent : string -> Reply string;
  captionsList : Reply (option (list CaptionItem));
  (** the [n]-th request for a page of comments *)
  commentThreads : nat -> Reply CommentsPage;
  (** the [n]-th request to the classifier *)
  generate : nat -> Reply Json.json
}.

End Msg.

(** ** The monad of the asynchronous functions *)

Module Async.
Import Msg.

(** How an asynchronous call ends: it returns, it throws an error with a
    message, or it is still running when the fuel of a loop is spent. *)
Inductive outcome (A : Type) : Type :=
| Returned (a : A)
| Thrown (message : string)
| Pending.
Arguments Returned {A} a.
Arguments Thrown {A} message.
Arguments Pending {A}.

Definition M (A : Type) : Type := (list event * outcome A)%type.

Definition ret {A : Type} (a : A) : M A := ([], Returned a).

Definition bind {A B : Type} (m : M A) (k : A -> M B) : M B :=
  match m with
  | (l, Returned a) => let '(l', r) := k a in (l ++ l', r)
  | (l, Thrown e) => (l, Thrown e)
  | (l, Pending) => (l, Pending)
  end.

Definition throw {A : Type} (message : string) : M A := ([], Thrown message).

Definition emit (e : event) : M unit := ([e], Returned tt).

(** [try { m } catch (error) { handler(error.message) }] *)
Definition tryCatch {A : Type} (m : M A) (handler : string -> M A) : M A :=
  match m with
  | (l, Thrown e) => let '(l', r) := handler e in (l ++ l', r)
  | other => other
  end.

Definition trace {A : Type} (m : M A) : list event := fst m.
Definition result {A : Type} (m : M A) : outcome A := snd m.

End Async.

Declare Scope async_scope.
Delimit Scope async_scope with async.
Notation "x <- m ;; k" := (Async.bind m (fun x => k))
  (at level 61, m at next level, right associativity) : async_scope.
Notation "m ;; k" := (Async.bind m (fun _ => k))
  (at level 61, right associativity) : async_scope.
Local Open Scope async_scope.

(** ** The worker: [src/background.js] *)

Module Worker.
Import Msg Async Json.

Definition showNat (n : nat) : string :=
  NilEmpty.string_of_uint (Nat.to_uint n).

Definition mem (k : string) (l : list string) : bool :=
  existsb (String.eqb k) l.

(** [toLowerCase] on ASCII text ([Js.isAscii]): the letters A-Z are
    lowered, other characters are left as they are. *)
Definition lowerAscii (c : ascii) : ascii :=
  let n := nat_of_ascii c in
  if (65 <=? n) && (n <=? 90) then ascii_of_nat (n + 32) else c.

Fixpoint toLowerCase (s : string) : string :=
  match s with
  | EmptyString => EmptyString
  | String c r => String (lowerAscii c) (toLowerCase r)
  end.

(** [l.slice(i, j)] for [i <= j] *)
Definition slice {A : Type} (i j : nat) (l : list A) : list A :=
  firstn (j - i) (skipn i l).

(** *** Utility functions, lines 8-59 *)

(** [k || null] *)
Definition orNull (k : option string) : option string :=
  if Js.truthy_opt k then k else None.

(** [loadAPIKeys]: the pair [(youtubeKey, geminiKey)]; both are [null]
    when the storage call fails. *)
Definition loadAPIKeys (w : World) : option string * option string :=
  match storedKeys w with
  | Some (y, g) => (orNull y, orNull g)
  | None => (None, None)
  end.

Definition updatePopupStatus (message : string) (isError : bool)
    (isProcessing : option bool) : M unit :=
  emit (UpdateStatus message isError isProcessing).

Definition payloadTruthy (p : payload) : bool :=
  match p with
  | PText s => Js.truthy_str s
  | _ => true
  end.

(** [sendDataToPopup]: the message is sent in every case; [data] and
    [error] are attached when truthy. *)
Definition sendDataToPopup (action : string) (data : option payload)
    (error : option string) : M unit :=
  emit (Display action
          (match data with
           | Some p => if payloadTruthy p then Some p else None
           | None => None
           end)
          (orNull error)).

Definition getVideoIdFromTab (w : World) : M string :=
  let rethrow (m : string) : M string :=
    throw ("Failed to get video ID: " ++ m)%string in
  match injected w with
  | inl m => rethrow m
  | inr (Some videoId) =>
      if Js.truthy_str videoId then ret videoId
      else rethrow "Could not extract video ID from URL."
  | inr None => rethrow "Could not extract video ID from URL."
  end.

Definition keyNotSetYoutube : string := "YouTube API Key not set in options.".
Definition keyNotSetGemini : string := "Gemini API Key not set in options.".

(** [`API Error (${status}): ${errorData?.error?.message || statusText}`]
    after its prefix *)
Definition errorText (status : nat) (errorData : json) (statusText : string)
    : string :=
  let m := optProp (optProp (Some errorData) "error") "message" in
  ("(" ++ showNat status ++ "): "
     ++ (if truthy m then toStringVal m else statusText))%string.

(** *** [fetchAvailableTranscriptLangsAPI], lines 173-206 *)

Definition captionsListUrl (videoId youtubeKey : string) : string :=
  ("https://www.googleapis.com/youtube/v3/captions?part=snippet&videoId="
     ++ videoId ++ "&key=" ++ youtubeKey)%string.

Definition languagesMessage (l : list CaptionItem) : string :=
  ("Transcript text download requires OAuth or may be restricted."
     ++ TimedText.newline
     ++ "Available caption tracks found via API:" ++ TimedText.newline ++ "- "
     ++ String.concat (TimedText.newline ++ "- ")
          (map (fun item => language item ++ " (" ++ trackKind item ++ ")") l))%string.

Definition fetchAvailableTranscriptLangsAPI (w : World) (videoId : string)
    : M (option string) :=
  updatePopupStatus "Fetching available caption languages via API..." false None ;;
  match fst (loadAPIKeys w) with
  | None => throw keyNotSetYoutube
  | Some youtubeKey =>
      tryCatch
        (emit (Request (captionsListUrl videoId youtubeKey)) ;;
         match captionsList w with
         | Rejected m => throw m
         | Failed status statusText (inl m) => throw m
         | Failed status statusText (inr errorData) =>
             throw ("API Error " ++ errorText status errorData statusText)%string
         | Succeeded (inl m) => throw m
         | Succeeded (inr None) | Succeeded (inr (Some [])) =>
             throw "No captions found via API for this video."
         | Succeeded (inr (Some l)) =>
             let message := languagesMessage l in
             sendDataToPopup "displayTranscript" (Some (PText message)) None ;;
             ret (Some message)
         end)
        (fun m =>
           sendDataToPopup "displayTranscript" None
             (Some ("Transcript check via API failed: " ++ m)%string) ;;
           ret None)
  end.

(** *** [fetchTranscriptFromPage], lines 64-170 *)

Definition nullable (x : option string) : string :=
  match x with
  | Some s => s
  | None => "null"
  end.

(** The [try] block.  It returns the transcript, or [None] where the
    source returns the call of the API fallback: that call is made
    outside the [try], since the promise is returned without [await]. *)
Definition scrape (w : World) (videoId : string) (langPrefs : list string)
    : M (option string) :=
  emit (Request ("https://www.youtube.com/watch?v=" ++ videoId)%string) ;;
  match watchPage w with
  | ScrapeThrows m => throw m
  | Scraped None | Scraped (Some []) => ret None
  | Scraped (Some tracks) =>
      let '(bestTrackUrl, foundLang) := Tracks.selectTrack tracks langPrefs in
      match orNull bestTrackUrl with
      | None => throw "Could not find a suitable caption track URL in page data."
      | Some url =>
          updatePopupStatus
            ("Fetching transcript content for language: "
               ++ nullable foundLang ++ "...")%string false None ;;
          emit (Request url) ;;
          match trackContent w url with
          | Rejected m => throw m
          | Failed _ statusText _ =>
              throw ("Failed to fetch transcript content: " ++ statusText)%string
          | Succeeded (inl m) => throw m
          | Succeeded (inr transcriptXML) =>
              match TimedText.extractTranscript transcriptXML with
              | inl m => throw m
              | inr fullTranscript =>
                  sendDataToPopup "displayTranscript"
                    (Some (PText ("Transcript (" ++ nullable foundLang ++ "):"
                                    ++ TimedText.newline ++ "--------------------"
                                    ++ TimedText.newline ++ fullTranscript)%string))
                    None ;;
                  ret (Some fullTranscript)
              end
          end
      end
  end.

Definition fetchTranscriptFromPage (w : World) (videoId : string)
    (langPrefs : list string) : M (option string) :=
  updatePopupStatus "Attempting to fetch transcript data from page..." false
    (Some true) ;;
  r <- tryCatch (scrape w videoId langPrefs)
         (fun m =>
            updatePopupStatus
              ("Transcript fetch from page failed: " ++ m
                 ++ ". Trying API list fallback...")%string true None ;;
            ret None) ;;
  match r with
  | Some fullTranscript => ret (Some fullTranscript)
  | None => fetchAvailableTranscriptLangsAPI w videoId
  end.

(** *** Sentiment counting, lines 286-308 *)

Definition BatchState : Type := (list AnalyzedComment * SentimentCounts)%type.

(** The properties every plain object inherits from [Object.prototype]. *)
Definition objectPrototypeKeys : list string :=
  ["constructor"; "__defineGetter__"; "__defineSetter__"; "hasOwnProperty";
   "__lookupGetter__"; "__lookupSetter__"; "isPrototypeOf";
   "propertyIsEnumerable"; "toString"; "valueOf"; "__proto__";
   "toLocaleString"].

Definition counterKeys : list string := ["positive"; "negative"; "neutral"].

(** [sentimentCounts[k] !== undefined]: [k] is a counter, a property
    stored earlier, or an inherited one. *)
Definition defined (c : SentimentCounts) (k : string) : bool :=
  mem k counterKeys || mem k (strays c) || mem k objectPrototypeKeys.

(** [sentimentCounts[k]++] where the property is defined.  On a counter
    it adds one.  Elsewhere the old value is [NaN], a function or an
    object, the new one is [NaN], and it is stored under [k], except that
    the setter of [__proto__] drops it. *)
Definition increment (c : SentimentCounts) (k : string) : SentimentCounts :=
  if String.eqb k "positive"
  then mkCounts (S (positive c)) (negative c) (neutral c) (strays c)
  else if String.eqb k "negative"
  then mkCounts (positive c) (S (negative c)) (neutral c) (strays c)
  else if String.eqb k "neutral"
  then mkCounts (positive c) (negative c) (S (neutral c)) (strays c)
  else if String.eqb k "__proto__" || mem k (strays c) then c
  else mkCounts (positive c) (negative c) (neutral c) (strays c ++ [k]).

(** Lines 292-296 *)
Definition count (c : SentimentCounts) (sentiment : string) : SentimentCounts :=
  if defined c sentiment then increment c sentiment
  else mkCounts (positive c) (negative c) (S (neutral c)) (strays c).

(** [c.id === sentimentResult.id], the left side being a string *)
Definition idIs (v : jsval) (i : string) : bool :=
  match v with
  | Some (JStr s) => String.eqb i s
  | _ => false
  end.

(** The [forEach] over the parsed array, lines 287-298.  The flag tells
    that a [TypeError] stopped it: at an element that is [null], or at a
    truthy [sentiment] that is not a string. *)
Fixpoint classify (batch : list Comment) (sentiments : list json)
    (st : BatchState) : BatchState * bool :=
  match sentiments with
  | [] => (st, false)
  | JNull :: _ => (st, true)
  | sentimentResult :: rest =>
      match find (fun c => idIs (optProp (Some sentimentResult) "id") (id c))
              batch with
      | Some originalComment =>
          let s := optProp (Some sentimentResult) "sentiment" in
          match (if truthy s then s else Some (JStr "neutral")) with
          | Some (JStr x) =>
              let sentiment := toLowerCase x in
              classify batch rest
                (fst st ++ [mkAnalyzed originalComment sentiment],
                 count (snd st) sentiment)
          | _ => (st, true)
          end
      | None => classify batch rest st
      end
  end.

(** The [catch] of lines 303-308 *)
Definition allNeutral (batch : list Comment) (st : BatchState) : BatchState :=
  (fst st ++ map (fun c => mkAnalyzed c "neutral") batch,
   mkCounts (positive (snd st)) (negative (snd st))
     (neutral (snd st) + length batch) (strays (snd st))).

(** [geminiResult?.candidates?.[0]?.content] *)
Definition contentOf (geminiResult : json) : jsval :=
  optProp (optFirst (optProp (Some geminiResult) "candidates")) "content".

(** [geminiResult?.candidates?.[0]?.content?.parts?.[0]?.text] *)
Definition textOf (geminiResult : json) : jsval :=
  optProp (optFirst (optProp (contentOf geminiResult) "parts")) "text".

(** [... ?.text || ''], given to [JSON.parse], which reads its argument
    as a string. *)
Definition responseTextOf (geminiResult : json) : string :=
  let t := textOf geminiResult in
  if truthy t then toStringVal t else EmptyString.

Section Host.

(** [JSON.parse] on a string: [None] when it throws. *)
Variable JSON_parse : string -> option json.

(** The message the host gives a [TypeError]. *)
Variable typeErrorMessage : string.

(** Lines 281-308: what a decoded classifier reply does to the sample
    and the counts. *)
Definition applyReply (batch : list Comment) (geminiResult : json)
    (st : BatchState) : BatchState :=
  match JSON_parse (responseTextOf geminiResult) with
  | Some (JArr sentiments) =>
      match classify batch sentiments st with
      | (st', true) => allNeutral batch st'
      | (st', false) => st'
      end
  | Some _ => st
  | None => allNeutral batch st
  end.

Definition geminiFlashUrl (geminiKey : string) : string :=
  ("https://generativelanguage.googleapis.com/v1beta/models/"
     ++ "gemini-1.5-flash-latest:generateContent?key=" ++ geminiKey)%string.

(** One turn of the batch loop, lines 264-308, on the [n]-th reply of
    the classifier. *)
Definition analyzeBatch (w : World) (geminiKey : string) (n : nat)
    (batch : list Comment) (st : BatchState) : M BatchState :=
  emit (Request (geminiFlashUrl geminiKey)) ;;
  match generate w n with
  | Rejected m => throw m
  | Failed _ _ _ => ret st                      (* continue *)
  | Succeeded (inl m) => throw m
  | Succeeded (inr geminiResult) => ret (applyReply batch geminiResult st)
  end.

Definition batchSize : nat := 10.

(** The [for] loop of line 263; [n] counts the turns.  A turn moves [i]
    forward, so fuel equal to the number of comments is never spent. *)
Fixpoint batchLoop (fuel : nat) (w : World) (geminiKey : string)
    (comments : list Comment) (i n : nat) (st : BatchState) : M BatchState :=
  if i <? length comments then
    match fuel with
    | O => ([], Pending)
    | S fuel' =>
        st' <- analyzeBatch w geminiKey n (slice i (i + batchSize) comments) st ;;
        batchLoop fuel' w geminiKey comments (i + batchSize) (S n) st'
    end
  else ret st.

(** *** Pagination, lines 222-247 *)

Definition commentsUrl (videoId youtubeKey : string)
    (maxResults fetchedCount : nat) (pageToken : option string) : string :=
  ("https://www.googleapis.com/youtube/v3/commentThreads?part=snippet&videoId="
     ++ videoId ++ "&maxResults="
     ++ showNat (Nat.min (maxResults - fetchedCount) 100)
     ++ "&key=" ++ youtubeKey ++ "&textFormat=plainText"
     ++ (if Js.truthy_opt pageToken
         then "&pageToken=" ++ nullable pageToken else EmptyString))%string.

Definition toComment (item : ThreadItem) : Comment :=
  mkComment (itemId item) (Js.or_str (textOriginal item) EmptyString).

(** The [do ... while] loop on its [n]-th request.  Nothing bounds the
    number of pages when pages come empty, hence the fuel. *)
Fixpoint fetchPages (fuel : nat) (w : World) (videoId youtubeKey : string)
    (maxResults : nat) (n : nat) (comments : list Comment)
    (fetchedCount : nat) (pageToken : option string)
    : M (list Comment * nat) :=
  match fuel with
  | O => ([], Pending)
  | S fuel' =>
      updatePopupStatus
        ("Fetching comment page (fetched " ++ showNat fetchedCount ++ "/"
           ++ showNat maxResults ++ ")...")%string false None ;;
      emit (Request (commentsUrl videoId youtubeKey maxResults fetchedCount
                       pageToken)) ;;
      match commentThreads w n with
      | Rejected m => throw m
      | Failed status statusText (inl m) => throw m
      | Failed status statusText (inr errorData) =>
          throw ("API Error " ++ errorText status errorData statusText)%string
      | Succeeded (inl m) => throw m
      | Succeeded (inr commentsData) =>
          let '(comments', fetchedCount') :=
            match items commentsData with
            | Some l => (comments ++ map toComment l, fetchedCount + length l)
            | None => (comments, fetchedCount)
            end in
          let token := nextPageToken commentsData in
          if Js.truthy_opt token && (fetchedCount' <? maxResults)
          then fetchPages fuel' w videoId youtubeKey maxResults (S n)
                 comments' fetchedCount' token
          else ret (comments', fetchedCount')
      end
  end.

(** *** [fetchAndAnalyzeComments], lines 209-330 *)

Definition noCounts : SentimentCounts := mkCounts 0 0 0 [].

Definition emptyAnalysis : Analysis := mkAnalysis 0 0 noCounts [].

(** The function returns [undefined], here [None], when no comment was
    fetched. *)
Definition fetchAndAnalyzeComments (fuel : nat) (w : World)
    (videoId : string) (maxResults : nat) : M (option Analysis) :=
  updatePopupStatus ("Fetching comments for video: " ++ videoId ++ "...")%string
    false (Some true) ;;
  match loadAPIKeys w with
  | (None, _) => throw keyNotSetYoutube
  | (Some _, None) => throw keyNotSetGemini
  | (Some youtubeKey, Some geminiKey) =>
      tryCatch
        (fetched <- fetchPages fuel w videoId youtubeKey maxResults 0 [] 0 None ;;
         let '(comments, fetchedCount) := fetched in
         match comments with
         | [] =>
             sendDataToPopup "displayCommentAnalysis"
               (Some (PAnalysis emptyAnalysis)) None ;;
             updatePopupStatus "No comments found or fetched." false (Some false) ;;
             ret None
         | _ =>
             updatePopupStatus
               ("Analyzing " ++ showNat (length comments)
                  ++ " comments using Gemini...")%string false None ;;
             st <- batchLoop (length comments) w geminiKey comments 0 0
                     ([], noCounts) ;;
             let '(analyzedComments, counts) := st in
             let results :=
               mkAnalysis fetchedCount (length analyzedComments) counts
                 analyzedComments in
             sendDataToPopup "displayCommentAnalysis" (Some (PAnalysis results))
               None ;;
             updatePopupStatus
               ("Analyzed " ++ showNat (length analyzedComments) ++ " comments.")%string
               false (Some false) ;;
             ret (Some results)
         end)
        (fun m =>
           let errorMsg := ("Comment analysis failed: " ++ m)%string in
           sendDataToPopup "displayCommentAnalysis" None (Some errorMsg) ;;
           updatePopupStatus errorMsg true (Some false) ;;
           throw m)
  end.

(** *** [performFactCheck], lines 332-416 *)

Definition geminiProUrl (geminiKey : string) : string :=
  ("https://generativelanguage.googleapis.com/v1beta/models/"
     ++ "gemini-1.5-pro-latest:generateContent?key=" ++ geminiKey)%string.

Definition placeholder : string := "No explanation provided.".

(** [v || d] *)
Definition orElse (v : jsval) (d : json) : json :=
  match v with
  | Some x => if truthy v then x else d
  | None => d
  end.

(** Lines 398-403, for a [parsedResult] other than [null]. *)
Definition formatResult (parsedResult : json) : FactCheck :=
  let p := Some parsedResult in
  mkFactCheck
    (orElse (optProp p "verdict") (JStr "Unknown"))
    (match optProp p "confidence" with
     | Some c => c
     | None => JNull
     end)
    (orElse (optProp p "explanation") (JStr placeholder))
    (match optProp p "sources" with
     | Some (JArr l) => l
     | _ => []
     end).

Definition notValidJson : string :=
  "Fact-check response from Gemini was not valid JSON.".
Definition noParsableContent : string :=
  "Could not find parsable content in Gemini fact-check response.".

(** Lines 380-394: the text part parsed when it is truthy, else the
    content itself when [typeof] calls it an object ([null] included). *)
Definition parsedResultOf (geminiResult : json) : M json :=
  if truthy (textOf geminiResult) then
    match JSON_parse (toStringVal (textOf geminiResult)) with
    | Some v => ret v
    | None => throw notValidJson
    end
  else
    match contentOf geminiResult with
    | Some (JNull as c) | Some (JArr _ as c) | Some (JObj _ as c) => ret c
    | _ => throw noParsableContent
    end.

(** The text to check goes into the body of the request, which the
    trace does not record. *)
Definition performFactCheck (w : World) (textToFactCheck : string)
    : M FactCheck :=
  updatePopupStatus "Fact-checking selected text..." false (Some true) ;;
  match snd (loadAPIKeys w) with
  | None => throw keyNotSetGemini
  | Some geminiKey =>
      tryCatch
        (emit (Request (geminiProUrl geminiKey)) ;;
         match generate w 0 with
         | Rejected m => throw m
         | Failed status statusText errorData =>
             let errorData' :=
               match errorData with
               | inl _ => JObj []
               | inr j => j
               end in
             throw ("Gemini API Error " ++ errorText status errorData' statusText)%string
         | Succeeded (inl m) => throw m
         | Succeeded (inr geminiResult) =>
             parsedResult <- parsedResultOf geminiResult ;;
             match parsedResult with
             | JNull => throw typeErrorMessage
             | _ =>
                 let formattedResult := formatResult parsedResult in
                 sendDataToPopup "displayFactCheck"
                   (Some (PFactCheck formattedResult)) None ;;
                 updatePopupStatus "Fact-check complete." false (Some false) ;;
                 ret formattedResult
             end
         end)
        (fun m =>
           let errorMsg := ("Fact-check failed: " ++ m)%string in
           sendDataToPopup "displayFactCheck" None (Some errorMsg) ;;
           updatePopupStatus errorMsg true (Some false) ;;
           throw m)
  end.

End Host.

End Worker.

(** ** The message listener, lines 421-477 *)

Module Router.
Import Msg Async.

(** A message to the worker: [tabId] and [text] may be absent. *)
Record Message : Type := mkMessage {
  action : string;
  tabId : option nat;
  text : option string
}.

(** Truthiness of [request.tabId], a number or [undefined]. *)
Definition truthyTab (t : option nat) : bool :=
  match t with
  | Some (S _) => true
  | _ => false
  end.

Definition defaultMaxResults : nat := 50.

Section Host.

Variable JSON_parse : string -> option Json.json.
Variable typeErrorMessage : string.

Definition getTranscript (w : World) : M unit :=
  tryCatch
    (Worker.updatePopupStatus "Getting video details..." false (Some true) ;;
     videoId <- Worker.getVideoIdFromTab w ;;
     Worker.fetchTranscriptFromPage w videoId Tracks.defaultLangPrefs ;;
     ret tt)
    (fun m =>
       Worker.updatePopupStatus ("Transcript Error: " ++ m)%string true (Some false) ;;
       Worker.sendDataToPopup "displayTranscript" None (Some ("Error: " ++ m)%string)).

Definition analyzeComments (fuel : nat) (w : World) : M unit :=
  tryCatch
    (Worker.updatePopupStatus "Getting video details for comments..." false
       (Some true) ;;
     videoId <- Worker.getVideoIdFromTab w ;;
     Worker.fetchAndAnalyzeComments JSON_parse fuel w videoId defaultMaxResults ;;
     ret tt)
    (fun m =>
       Worker.updatePopupStatus ("Comments Error: " ++ m)%string true (Some false) ;;
       Worker.sendDataToPopup "displayCommentAnalysis" None
         (Some ("Error: " ++ m)%string)).

Definition factCheckSelection (w : World) (selected : string) : M unit :=
  tryCatch
    (Worker.performFactCheck JSON_parse typeErrorMessage w selected ;;
     ret tt)
    (fun m =>
       Worker.updatePopupStatus ("Fact-check Error: " ++ m)%string true (Some false)).

(** The listener: what the started operation emits, and [isAsync]. *)
Definition onMessage (fuel : nat) (w : World) (request : Message)
    : list event * bool :=
  if String.eqb (action request) "getTranscript" && truthyTab (tabId request)
  then (trace (getTranscript w), true)
  else if String.eqb (action request) "analyzeComments"
          && truthyTab (tabId request)
  then (trace (analyzeComments fuel w), true)
  else if String.eqb (action request) "factCheckSelection"
          && Js.truthy_opt (text request)
  then (trace (factCheckSelection w (Worker.nullable (text request))), true)
  else ([], false).

End Host.

(** The result events of the protocol. *)
Definition isTerminal (e : event) : bool :=
  match e with
  | Display a _ _ =>
      Worker.mem a ["displayTranscript"; "displayCommentAnalysis"; "displayFactCheck"]
  | _ => false
  end.

Definition terminalCount (l : list event) : nat := length (filter isTerminal l).

Definition isRequest (e : event) : bool :=
  match e with
  | Request _ => true
  | _ => false
  end.

End Router.

(** ** Concrete inputs *)

Module Samples.
Import Msg Json.

Definition quoted (s : string) : string :=
  (String dquote s ++ String dquote EmptyString)%string.

(** The body of a classifier reply whose first part carries [t]. *)
Definition envelope (t : json) : json :=
  JObj [("candidates",
         JArr [JObj [("content",
                      JObj [("parts", JArr [JObj [("text", t)]])])]])].

(** The text of an array of one object, with the id [i] and the sentiment
    [s]. *)
Definition verdictText (i s : string) : string :=
  ("[{" ++ quoted "id" ++ ":" ++ quoted i ++ ","
     ++ quoted "sentiment" ++ ":" ++ quoted s ++ "}]")%string.

Definition taAuto : Tracks.CaptionTrack :=
  Tracks.mkTrack "ta" (Some "asr") "https://www.youtube.com/api/timedtext?lang=ta&kind=asr".
Definition enHuman : Tracks.CaptionTrack :=
  Tracks.mkTrack "en" None "https://www.youtube.com/api/timedtext?lang=en".
Definition enAuto : Tracks.CaptionTrack :=
  Tracks.mkTrack "en" (Some "asr") "https://www.youtube.com/api/timedtext?lang=en&kind=asr".

Definition taThenEn : list Tracks.CaptionTrack := [taAuto; enHuman].

Definition great : Comment := mkComment "1" "great".
Definition bad : Comment := mkComment "2" "bad".

Definition onePage (l : list ThreadItem) : nat -> Reply CommentsPage :=
  fun _ => Succeeded (inr (mkPage (Some l) None)).

(** A world with both keys stored, a video id on the page, one page of
    comments and one classifier reply for every request. *)
Definition world (l : list ThreadItem) (reply : Reply json) : World :=
  mkWorld (Some (Some "yt-key", Some "gm-key")) (inr (Some "abc123"))
    (Scraped None) (fun _ => Rejected "offline") (Rejected "offline")
    (onePage l) (fun _ => reply).

(** The same world with the stored keys replaced. *)
Definition withKeys (k : option (option string * option string)) (w : World)
    : World :=
  mkWorld k (injected w) (watchPage w) (trackContent w) (captionsList w)
    (commentThreads w) (generate w).

Definition twoItems : list ThreadItem :=
  [mkItem "1" (Some "great"); mkItem "2" (Some "bad")].

(** The same world with the answers of the comments endpoint replaced. *)
Definition withComments (c : nat -> Reply CommentsPage) (w : World) : World :=
  mkWorld (storedKeys w) (injected w) (watchPage w) (trackContent w)
    (captionsList w) c (generate w).

Definition quotaExceeded : Reply CommentsPage :=
  Failed 403 "Forbidden"
    (inr (JObj [("error", JObj [("message", JStr "quotaExceeded")])])).

Definition checkCheese : Router.Message :=
  Router.mkMessage "factCheckSelection" None (Some "the moon is made of cheese").

Definition analyzeTab : Router.Message :=
  Router.mkMessage "analyzeComments" (Some 7) None.

Definition hostTypeError : string :=
  "Cannot read properties of null (reading 'verdict')".

(** A line of timed text with an escaped ampersand. *)
Definition tomAndJerry : string :=
  ("<transcript><text start=" ++ quoted "0.5" ++ " dur=" ++ quoted "2"
     ++ ">Tom &amp; Jerry</text></transcript>")%string.

End Samples.

(** ** Shorthands for the statements *)

Module Expected.
Import Msg Json.

(** The three counters together. *)
Definition total (c : SentimentCounts) : nat :=
  positive c + negative c + neutral c.




(** A page without comments. *)
Definition emptyPage (p : CommentsPage) : bool :=
  match items p with
  | None | Some [] => true
  | Some (_ :: _) => false
  end.

(** The test of the [while] of line 247 after a page, no comment having
    been fetched so far. *)
Definition continues (maxResults : nat) (p : CommentsPage) : bool :=
  Js.truthy_opt (nextPageToken p) && (0 <? maxResults).

(** A sample entry whose label names a property that every object
    inherits. *)
Definition inheritedLabel (a : AnalyzedComment) : bool :=
  Worker.mem (sentiment a) Worker.objectPrototypeKeys.

Definition inheritedHits (sample : list AnalyzedComment) : nat :=
  length (filter inheritedLabel sample).

(** The sample is as long as the three counts together plus the entries
    with an inherited label, and every stored stray name is an inherited
    one. *)
Definition accounted (st : Worker.BatchState) : Prop :=
  length (fst st) = total (snd st) + inheritedHits (fst st)
  /\ forall k, Worker.mem k (strays (snd st)) = true ->
               Worker.mem k Worker.objectPrototypeKeys = true.

Definition isUpper (c : ascii) : bool :=
  let n := nat_of_ascii c in (65 <=? n) && (n <=? 90).

Fixpoint hasUpper (s : string) : bool :=
  match s with
  | EmptyString => false
  | String c r => isUpper c || hasUpper r
  end.

(** The number of result messages a computation has sent. *)
Definition sent {A : Type} (m : Async.M A) : nat :=
  Router.terminalCount (Async.trace m).

(** One result message when the computation returns, none when it throws,
    and it does one or the other. *)
Definition oneIfReturned {A : Type} (m : Async.M A) : Prop :=
  match Async.result m with
  | Async.Returned _ => sent m = 1
  | Async.Thrown _ => sent m = 0
  | Async.Pending => False
  end.

End Expected.

(** ** The context menu, lines 500-515 *)

Module ContextMenu.
Import Msg Async.

(** What the browser reports of a click on a menu entry. *)
Record ClickInfo : Type := mkClick {
  menuItemId : string;
  selectionText : option string
}.

Definition maxSelection : nat := 500.

(** The click listener: what it tells the popup, and the message it sends
    on to the message listener, if any.  The length is taken before the
    text is trimmed; it is counted in characters, which on ASCII text
    ([Js.isAscii]) are the code units that the host counts. *)
Definition onClicked (info : ClickInfo) : M (option Router.Message) :=
  if String.eqb (menuItemId info) "factCheckSelectedText"
     && Js.truthy_opt (selectionText info)
  then
    let selection := Worker.nullable (selectionText info) in
    if maxSelection <? String.length selection then
      Worker.updatePopupStatus
        "Selected text too long for fact-checking (max 500 chars)." true
        (Some false) ;;
      Worker.sendDataToPopup "displayFactCheck" None
        (Some "Selected text too long (max 500 chars).") ;;
      ret None
    else
      Worker.updatePopupStatus "Starting fact-check..." false (Some true) ;;
      ret (Some (Router.mkMessage "factCheckSelection" None
                   (Some (TimedText.trim selection))))
  else ret None.

End ContextMenu.

(** ** The popup: [src/popup.js] *)

Module Popup.
Import Msg.

(** What a result panel holds: what the page came with, a text, or the
    markup that the formatting function of the panel builds from the data
    it is given. *)
Inductive panel : Type :=
| Untouched
| TextContent (s : string)
| Markup (data : payload).

(** The popup as the script sees it.  [isProcessing] also stands for the
    indicator being shown and the two buttons being disabled, which
    [setProcessing] sets together with it. *)
Record State : Type := mkState {
  isProcessing : bool;
  statusText : string;
  statusIsError : bool;
  transcriptResult : panel;
  commentResult : panel;
  factCheckResult : panel
}.

Definition setProcessing (processing : bool) (st : State) : State :=
  mkState processing (statusText st) (statusIsError st) (transcriptResult st)
    (commentResult st) (factCheckResult st).

(** [updateStatus]: an error also ends the processing. *)
Definition updateStatus (message : string) (isError : bool) (st : State) : State :=
  let st' :=
    mkState (isProcessing st) message isError (transcriptResult st)
      (commentResult st) (factCheckResult st) in
  if isError then setProcessing false st' else st'.

Definition setTranscript (p : panel) (st : State) : State :=
  mkState (isProcessing st) (statusText st) (statusIsError st) p
    (commentResult st) (factCheckResult st).

Definition setComment (p : panel) (st : State) : State :=
  mkState (isProcessing st) (statusText st) (statusIsError st)
    (transcriptResult st) p (factCheckResult st).

Definition setFactCheck (p : panel) (st : State) : State :=
  mkState (isProcessing st) (statusText st) (statusIsError st)
    (transcriptResult st) (commentResult st) p.

(** The text a value takes as [textContent]. *)
Definition textOfPayload (d : payload) : string :=
  match d with
  | PText s => s
  | _ => "[object Object]"
  end.

(** [request.data] and [request.error] as the tests of the listener see
    them. *)
Definition truthyData (data : option payload) : option payload :=
  match data with
  | Some d => if Worker.payloadTruthy d then Some d else None
  | None => None
  end.

(** The script as it is loaded, lines 9 and 162. *)
Definition initial : State :=
  setProcessing false
    (updateStatus "Ready. Ensure API keys are set in options." false
       (mkState false EmptyString false Untouched Untouched Untouched)).

(** The message listener, lines 122-159, on what the worker emits.  A
    request of the worker to the network is no message and changes
    nothing.  Formatting data that is no analysis throws when it reads the
    counts, which ends the listener after the processing was reset. *)
Definition onEvent (e : event) (st : State) : State :=
  match e with
  | UpdateStatus message isError processing =>
      let st1 := updateStatus message isError st in
      match processing with
      | Some p => setProcessing p st1
      | None => st1
      end
  | Display action data error =>
      if String.eqb action "displayTranscript" then
        let st1 := setProcessing false st in
        match truthyData data, Worker.orNull error with
        | Some d, _ =>
            updateStatus "Transcript processed." false
              (setTranscript (TextContent (textOfPayload d)) st1)
        | None, Some err =>
            updateStatus ("Error fetching transcript: " ++ err)%string true
              (setTranscript (TextContent ("Error: " ++ err)%string) st1)
        | None, None => st1
        end
      else if String.eqb action "displayCommentAnalysis" then
        let st1 := setProcessing false st in
        match truthyData data, Worker.orNull error with
        | Some (PAnalysis r), _ =>
            updateStatus "Comment analysis complete." false
              (setComment (Markup (PAnalysis r)) st1)
        | Some _, _ => st1
        | None, Some err =>
            updateStatus ("Error analyzing comments: " ++ err)%string true
              (setComment (TextContent ("Error: " ++ err)%string) st1)
        | None, None => st1
        end
      else if String.eqb action "displayFactCheck" then
        let st1 := setProcessing false st in
        match truthyData data, Worker.orNull error with
        | Some d, _ =>
            updateStatus "Fact-check complete." false
              (setFactCheck (Markup d) st1)
        | None, Some err =>
            updateStatus ("Fact-check error: " ++ err)%string true
              (setFactCheck (TextContent ("Error: " ++ err)%string) st1)
        | None, None => st1
        end
      else st
  | Request _ => st
  end.

(** The messages of a trace, handled in the order they were sent. *)
Definition deliver (l : list event) (st : State) : State :=
  fold_left (fun s e => onEvent e s) l st.

(** The active tab as [chrome.tabs.query] reports it. *)
Record Tab : Type := mkTab {
  tabId : option nat;
  url : option string
}.

(** [hay.includes(needle)] *)
Definition includes (needle hay : string) : bool :=
  match String.index 0 needle hay with
  | Some _ => true
  | None => false
  end.

(** [tabs[0]?.id && tabs[0]?.url?.includes("youtube.com/watch")] *)
Definition onWatchPage (tabs : list Tab) : option nat :=
  match tabs with
  | t :: _ =>
      match tabId t, url t with
      | Some (S n), Some u =>
          if includes "youtube.com/watch" u then Some (S n) else None
      | _, _ => None
      end
  | [] => None
  end.

Definition notWatchPage : string := "Not a YouTube video page or cannot access tab.".
Definition pleaseNavigate : string := "Please navigate to a YouTube video page.".

(** The click listener of the transcript button, lines 84-100: the state
    it leaves and the message it sends to the worker, if any. *)
Definition clickTranscript (tabs : list Tab) (st : State)
    : State * option Router.Message :=
  if isProcessing st then (st, None)
  else
    let st1 :=
      setTranscript (TextContent "Processing...")
        (updateStatus "Requesting transcript..." false (setProcessing true st)) in
    match onWatchPage tabs with
    | Some i => (st1, Some (Router.mkMessage "getTranscript" (Some i) None))
    | None =>
        (setProcessing false
           (setTranscript (TextContent pleaseNavigate)
              (updateStatus notWatchPage true st1)),
         None)
    end.

(** The click listener of the comments button, lines 102-118. *)
Definition clickComments (tabs : list Tab) (st : State)
    : State * option Router.Message :=
  if isProcessing st then (st, None)
  else
    let st1 :=
      setComment (TextContent "Processing...")
        (updateStatus "Requesting comment analysis..." false
           (setProcessing true st)) in
    match onWatchPage tabs with
    | Some i => (st1, Some (Router.mkMessage "analyzeComments" (Some i) None))
    | None =>
        (setProcessing false
           (setComment (TextContent pleaseNavigate)
              (updateStatus notWatchPage true st1)),
         None)
    end.

(** A message that resets the processing whatever else it carries: a
    result message, or a status that says so. *)
Definition settles (e : event) : bool :=
  match e with
  | Display action _ _ => Router.isTerminal e
  | UpdateStatus _ _ (Some false) => true
  | _ => false
  end.

(** Whether the last message of a trace satisfies [p]. *)
Fixpoint lastIs (p : event -> bool) (l : list event) : bool :=
  match l with
  | [] => false
  | [e] => p e
  | _ :: r => lastIs p r
  end.

Definition lastSettles (l : list event) : bool := lastIs settles l.

(** A transcript message that carries data or an error. *)
Definition reports (e : event) : bool :=
  match e with
  | Display action data error =>
      String.eqb action "displayTranscript"
      && match truthyData data, Worker.orNull error with
         | None, None => false
         | _, _ => true
         end
  | _ => false
  end.

(** The text the transcript panel takes from such a message. *)
Definition reportText (e : event) : string :=
  match e with
  | Display _ data error =>
      match truthyData data with
      | Some d => textOfPayload d
      | None => ("Error: " ++ Worker.nullable (Worker.orNull error))%string
      end
  | _ => EmptyString
  end.

End Popup.

(** ** Shorthands for further statements *)

Module Observed.
Import Msg Json.

(** The language tag the selection gives a track: its code, marked
    [(auto)] when it is auto-generated. *)
Definition tagOf (t : Tracks.CaptionTrack) : string :=
  (Tracks.languageCode t
     ++ (if Js.opt_is (Tracks.kind t) "asr" then " (auto)" else EmptyString))%string.

(** The two locals hold the URL and the tag of one of the tracks. *)
Definition describes (tracks : list Tracks.CaptionTrack) (cur : Tracks.choice)
    : Prop :=
  exists t, In t tracks
            /\ cur = (Some (Tracks.baseUrl t), Some (tagOf t)).

(** No place of the text is the start of a match of [<[^>]+>]. *)
Fixpoint tagFree (s : string) : bool :=
  match s with
  | EmptyString => true
  | String c r =>
      negb (Ascii.eqb c TimedText.lt && TimedText.opensTag r) && tagFree r
  end.

(** The number of comments on a page. *)
Definition pageSize (p : CommentsPage) : nat :=
  match items p with
  | Some l => length l
  | None => 0
  end.

(** Every comment of the sample is one of [comments]. *)
Definition sampleFrom (comments : list Comment) (sample : list AnalyzedComment)
    : Prop :=
  forall a, In a sample -> In (comment a) comments.

(** A reply entry as the prompt asks for it: the id of a comment and a
    label. *)
Definition answer (c : Comment) (label : string) : json :=
  JObj [("id", JStr (id c)); ("sentiment", JStr label)].

(** The label stored for a reply label: ["neutral"] for an empty one, and
    lower case. *)
Definition storedLabel (label : string) : string :=
  Worker.toLowerCase (if Js.truthy_str label then label else "neutral").

(** How many labels of a list come out as [k]. *)
Definition labelled (k : string) (labels : list string) : nat :=
  length (filter (fun l => String.eqb (storedLabel l) k) labels).

(** A label that names one of the two inherited properties written
    without capitals. *)
Definition namesInherited (a : AnalyzedComment) : bool :=
  String.eqb (sentiment a) "constructor" || String.eqb (sentiment a) "__proto__".

(** No label of the sample has a capital letter. *)
Definition lowerCased (st : Worker.BatchState) : Prop :=
  forall a, In a (fst st) -> Expected.hasUpper (sentiment a) = false.

(** No character of [s] is [c]. *)
Fixpoint lacks (c : ascii) (s : string) : bool :=
  match s with
  | EmptyString => true
  | String x r => negb (Ascii.eqb x c) && lacks c r
  end.

(** One entry of a timed-text document: attributes and a body. *)
Definition entry (attrs body : string) : string :=
  ("<text" ++ attrs ++ ">" ++ body ++ "</text>")%string.

(** The entries of a document, one after the other. *)
Fixpoint entries (l : list (string * string)) : string :=
  match l with
  | [] => EmptyString
  | (attrs, body) :: r => (entry attrs body ++ entries r)%string
  end.

End Observed.

(** ** Further concrete inputs *)

Module MoreSamples.
Import Msg Json Samples.

(** The text of a reply that calls the first comment positive, in capitals,
    and the second one negative. *)
Definition twoVerdicts : string :=
  ("[{" ++ quoted "id" ++ ":" ++ quoted "1" ++ ","
     ++ quoted "sentiment" ++ ":" ++ quoted "POSITIVE" ++ "},{"
     ++ quoted "id" ++ ":" ++ quoted "2" ++ ","
     ++ quoted "sentiment" ++ ":" ++ quoted "negative" ++ "}]")%string.

(** Eleven comments with the ids 1 to 11. *)
Definition eleven : list Comment :=
  map (fun n => mkComment (Worker.showNat n) "comment") (seq 1 11).

(** A world whose classifier fails the first call and then answers with a
    verdict on the comment 11. *)
Definition failingFirst : World :=
  mkWorld (Some (Some "yt-key", Some "gm-key")) (inr (Some "abc123"))
    (Scraped None) (fun _ => Rejected "offline") (Rejected "offline")
    (onePage [])
    (fun n =>
       match n with
       | 0 => Failed 503 "Service Unavailable" (inl "no body")
       | _ => Succeeded (inr (envelope (JStr (verdictText "11" "positive"))))
       end).

(** A world whose classifier answers every request with these two
    verdicts. *)
Definition judged : World :=
  world twoItems (Succeeded (inr (envelope (JStr twoVerdicts)))).

(** A selection of 501 characters. *)
Definition longSelection : string :=
  string_of_list_ascii (repeat "a"%char 501).

(** A click on the menu entry with a short selection that has white space
    at both ends. *)
Definition paddedClick : ContextMenu.ClickInfo :=
  ContextMenu.mkClick "factCheckSelectedText"
    (Some "  the moon is made of cheese ").

End MoreSamples.

(** * Properties *)

(** ** Track selection *)

Section TrackSelection.
Import Tracks.

Variable tracks : list CaptionTrack.

Lemma truthy_str_nonempty (s : string) : s <> EmptyString -> Js.truthy_str s = true.
Proof.
  intros H. unfold Js.truthy_str.
  destruct (String.eqb_spec s EmptyString); [contradiction | reflexivity].
Qed.

(** Languages without any track leave the two locals as they are. *)
Lemma selectLoop_skip (pre rest : list string) (cur : choice) :
  (forall l, In l pre ->
     find (isHuman l) tracks = None /\ find (isAsr l) tracks = None) ->
  selectLoop tracks (pre ++ rest) cur = selectLoop tracks rest cur.
Proof.
  induction pre as [|l pre IH]; intros H; simpl; [reflexivity|].
  destruct (H l (or_introl eq_refl)) as [Hh Ha].
  rewrite Hh, Ha. apply IH. intros l' Hl'. apply H. now right.
Qed.

(** Once a URL is held, only a human-authored track changes it. *)
Lemma selectLoop_keep (prefs : list string) (cur : choice) :
  Js.truthy_opt (fst cur) = true ->
  (forall l, In l prefs -> find (isHuman l) tracks = None) ->
  selectLoop tracks prefs cur = cur.
Proof.
  intros Hcur. induction prefs as [|l prefs IH]; intros H; simpl; [reflexivity|].
  rewrite (H l (or_introl eq_refl)), Hcur. simpl.
  assert (IH' : selectLoop tracks prefs cur = cur)
    by (apply IH; intros l' Hl'; apply H; now right).
  destruct (find (isAsr l) tracks); exact IH'.
Qed.

(** The first preference with a human-authored track ends the loop,
    whatever was held before. *)
Lemma selectLoop_human (mid post : list string) (l2 : string) (h : CaptionTrack)
    (cur : choice) :
  (forall l, In l mid -> find (isHuman l) tracks = None) ->
  find (isHuman l2) tracks = Some h ->
  selectLoop tracks (mid ++ l2 :: post) cur = (Some (baseUrl h), Some l2).
Proof.
  revert cur. induction mid as [|l mid IH]; intros cur H Hh; simpl.
  - now rewrite Hh.
  - rewrite (H l (or_introl eq_refl)).
    assert (H' : forall l', In l' mid -> find (isHuman l') tracks = None)
      by (intros l' Hl'; apply H; now right).
    destruct (find (isAsr l) tracks);
      [destruct (negb (Js.truthy_opt (fst cur)))|]; now apply IH.
Qed.

Lemma selectTrack_held (prefs : list string) (u : string) (f : option string) :
  selectLoop tracks prefs (None, None) = (Some u, f) ->
  u <> EmptyString ->
  selectTrack tracks prefs = (Some u, f).
Proof.
  intros H Hu. unfold selectTrack. rewrite H. simpl.
  now rewrite (truthy_str_nonempty u Hu).
Qed.

End TrackSelection.

(** C1, as stated, fails: with an auto-generated Tamil track, a
    human-authored English track and the preference order Tamil, English,
    the Tamil track is taken first and the English one then replaces it. *)
Lemma later_human_replaces_earlier_auto :
  find (Tracks.isHuman "ta") Samples.taThenEn = None
  /\ find (Tracks.isAsr "ta") Samples.taThenEn = Some Samples.taAuto
  /\ Tracks.selectLoop Samples.taThenEn ["ta"] (None, None)
     = (Some (Tracks.baseUrl Samples.taAuto), Some "ta (auto)")
  /\ Tracks.selectTrack Samples.taThenEn ["ta"; "en"]
     = (Some (Tracks.baseUrl Samples.enHuman), Some "en")
  /\ Tracks.selectTrack Samples.taThenEn ["ta"; "en"]
     <> (Some (Tracks.baseUrl Samples.taAuto), Some "ta (auto)").
Proof.
  repeat split; try reflexivity. discriminate.
Qed.

(** C1, amended.  Let an auto-generated track [a] with a non-empty URL be
    taken for the language [lang], no earlier preference having any track.
    If no later preference has a human-authored track, the selection is [a],
    tagged ["(auto)"]: auto-generated tracks of later preferences do not
    replace it.  If a later preference has a human-authored track [h] with a
    non-empty URL, the first such [h] replaces [a]. *)
Theorem select_auto_kept_unless_later_human
    (tracks : list Tracks.CaptionTrack) (pre post : list string) (lang : string)
    (a : Tracks.CaptionTrack) :
  (forall l, In l pre ->
     find (Tracks.isHuman l) tracks = None /\ find (Tracks.isAsr l) tracks = None) ->
  find (Tracks.isHuman lang) tracks = None ->
  find (Tracks.isAsr lang) tracks = Some a ->
  Tracks.baseUrl a <> EmptyString ->
  ((forall l, In l post -> find (Tracks.isHuman l) tracks = None) ->
   Tracks.selectTrack tracks (pre ++ lang :: post)
   = (Some (Tracks.baseUrl a), Some (lang ++ " (auto)")%string))
  /\ (forall (mid post2 : list string) (l2 : string) (h : Tracks.CaptionTrack),
        post = mid ++ l2 :: post2 ->
        (forall l, In l mid -> find (Tracks.isHuman l) tracks = None) ->
        find (Tracks.isHuman l2) tracks = Some h ->
        Tracks.baseUrl h <> EmptyString ->
        Tracks.selectTrack tracks (pre ++ lang :: post)
        = (Some (Tracks.baseUrl h), Some l2)).
Proof.
  intros Hpre Hh Ha Hu. split.
  - intros Hpost. apply selectTrack_held; [|exact Hu].
    rewrite selectLoop_skip by exact Hpre. simpl. rewrite Hh, Ha.
    apply selectLoop_keep; [|exact Hpost].
    simpl. now apply truthy_str_nonempty.
  - intros mid post2 l2 h -> Hmid Hl2 Hhu.
    apply selectTrack_held; [|exact Hhu].
    rewrite selectLoop_skip by exact Hpre.
    apply (selectLoop_human tracks (lang :: mid) post2 l2 h); [|exact Hl2].
    intros l [<-|Hl]; [exact Hh | now apply Hmid].
Qed.

Lemma select_auto_kept_unless_later_human_witness :
  Tracks.selectTrack [Samples.taAuto; Samples.enAuto] ["ta"; "en"]
  = (Some (Tracks.baseUrl Samples.taAuto), Some "ta (auto)")
  /\ Tracks.selectTrack [Samples.taAuto; Samples.enAuto; Samples.enHuman] ["ta"; "en"]
     = (Some (Tracks.baseUrl Samples.enHuman), Some "en").
Proof.
  split.
  - apply (proj1 (select_auto_kept_unless_later_human
                    [Samples.taAuto; Samples.enAuto] [] ["en"] "ta" Samples.taAuto
                    (fun l (H : In l []) => match H with end)
                    eq_refl eq_refl ltac:(discriminate))).
    intros l [<-|[]]. reflexivity.
  - apply (proj2 (select_auto_kept_unless_later_human
                    [Samples.taAuto; Samples.enAuto; Samples.enHuman] [] ["en"] "ta"
                    Samples.taAuto
                    (fun l (H : In l []) => match H with end)
                    eq_refl eq_refl ltac:(discriminate))
             [] [] "en" Samples.enHuman eq_refl
             (fun l (H : In l []) => match H with end) eq_refl).
    discriminate.
Defined.

(** ** Timed text *)

Lemma replaceAll_same (c : ascii) (s : string) :
  TimedText.replaceAll c (String c EmptyString) s = s.
Proof.
  induction s as [|x r IH]; simpl; [reflexivity|].
  destruct (Ascii.eqb_spec x c) as [->|_]; simpl; now rewrite IH.
Qed.

(** The five replacements of line 151 change nothing. *)
Lemma decodeEntities_id (text : string) : TimedText.decodeEntities text = text.
Proof.
  unfold TimedText.decodeEntities. now rewrite !replaceAll_same.
Qed.

(** No timed-text entry, no transcript: the error of line 157 is thrown. *)
Lemma extractTranscript_no_entry (xml : string) :
  TimedText.matchText xml = [] ->
  TimedText.extractTranscript xml = inl TimedText.noTextMessage.
Proof.
  intros H. unfold TimedText.extractTranscript, TimedText.linesOf. now rewrite H.
Qed.

(** A transcript is the lines of the entries, each stripped of its tags and
    trimmed, joined by line feeds. *)
Lemma extractTranscript_lines (xml full : string) :
  TimedText.extractTranscript xml = inr full ->
  TimedText.matchText xml <> []
  /\ full = String.concat TimedText.newline
              (map (fun m => TimedText.trim (TimedText.stripTags m))
                 (TimedText.matchText xml)).
Proof.
  assert (Hm : forall l, map TimedText.lineOf l
                         = map (fun m => TimedText.trim (TimedText.stripTags m)) l).
  { intros l. apply map_ext. intros m. unfold TimedText.lineOf.
    now rewrite decodeEntities_id. }
  unfold TimedText.extractTranscript, TimedText.linesOf. rewrite Hm.
  destruct (TimedText.matchText xml) as [|m ms]; [discriminate|].
  intros H. split; [discriminate|]. injection H as <-. reflexivity.
Qed.

(** C5: the entity [&amp;] of a timed-text entry reaches the transcript
    undecoded, and so does every other one, the decoding step being the
    identity. *)
Theorem entities_left_undecoded :
  TimedText.extractTranscript Samples.tomAndJerry = inr "Tom &amp; Jerry"
  /\ forall text : string, TimedText.decodeEntities text = text.
Proof.
  split; [reflexivity | exact decodeEntities_id].
Qed.

(** ** Batches of comments *)

Section Batches.
Import Msg Async Json Worker Expected.

Variable JSON_parse : string -> option json.

Lemma analyzeBatch_ok (w : World) (key : string) (n : nat)
    (batch : list Comment) (geminiResult : json) (st : BatchState) :
  generate w n = Succeeded (inr geminiResult) ->
  analyzeBatch JSON_parse w key n batch st
  = ([Request (geminiFlashUrl key)],
     Returned (applyReply JSON_parse batch geminiResult st)).
Proof.
  intros H. unfold analyzeBatch. now rewrite H.
Qed.

Lemma applyReply_unparseable (batch : list Comment) (geminiResult : json)
    (st : BatchState) :
  JSON_parse (responseTextOf geminiResult) = None ->
  applyReply JSON_parse batch geminiResult st = allNeutral batch st.
Proof.
  intros H. unfold applyReply. now rewrite H.
Qed.

Lemma applyReply_not_array (batch : list Comment) (geminiResult v : json)
    (st : BatchState) :
  JSON_parse (responseTextOf geminiResult) = Some v ->
  isArray (Some v) = false ->
  applyReply JSON_parse batch geminiResult st = st.
Proof.
  intros H Hv. unfold applyReply. rewrite H.
  destruct v; try reflexivity. discriminate.
Qed.

(** A counted label adds one to the three counters together, unless it
    names a property that the counts object inherits or has come to own
    for that reason. *)
Lemma count_total (c : SentimentCounts) (sentiment : string) :
  total (count c sentiment)
  = total c
    + (if mem sentiment counterKeys then 1
       else if mem sentiment (strays c) || mem sentiment objectPrototypeKeys
       then 0 else 1).
Proof.
  unfold count, defined, increment, total, counterKeys.
change (mem sentiment ["positive"; "negative"; "neutral"])
  with (String.eqb sentiment "positive"
        || (String.eqb sentiment "negative"
            || (String.eqb sentiment "neutral" || false))).
destruct (String.eqb sentiment "positive"); [simpl; lia|].
destruct (String.eqb sentiment "negative"); [simpl; lia|].
destruct (String.eqb sentiment "neutral"); [simpl; lia|].
cbn [orb].
destruct (mem sentiment (strays c) || mem sentiment objectPrototypeKeys);
  [|simpl; lia].
destruct (String.eqb sentiment "__proto__" || mem sentiment (strays c));
  simpl; lia.
Qed.

End Batches.

(** C2, as stated, fails: the reply text [{}] is JSON but not an array, and
    a batch answered with it leaves the sample and the counts as they were,
    though the HTTP call succeeded. *)
Lemma well_formed_non_array_counts_nothing :
  Json.parse (Worker.responseTextOf (Samples.envelope (Json.JStr "{}")))
  = Some (Json.JObj [])
  /\ Worker.analyzeBatch Json.parse
       (Samples.world Samples.twoItems
          (Msg.Succeeded (inr (Samples.envelope (Json.JStr "{}")))))
       "gm-key" 0 [Samples.great; Samples.bad] ([], Worker.noCounts)
     = ([Msg.Request (Worker.geminiFlashUrl "gm-key")],
        Async.Returned ([], Worker.noCounts)).
Proof.
  split; reflexivity.
Qed.

(** C2, amended.  Let the classifier call of a batch succeed.  If
    [JSON.parse] throws on the reply text, every comment of the batch enters
    the sample labeled ["neutral"], in order, the neutral count grows by the
    size of the batch, the other two counts stay, and the sample grows by
    the size of the batch.  If the text parses to a value that is not an
    array, the batch changes nothing. *)
Theorem unparseable_reply_labels_batch_neutral
    (JSON_parse : string -> option Json.json) (w : Msg.World) (key : string)
    (n : nat) (batch : list Msg.Comment) (geminiResult : Json.json)
    (st : Worker.BatchState) :
  Msg.generate w n = Msg.Succeeded (inr geminiResult) ->
  (JSON_parse (Worker.responseTextOf geminiResult) = None ->
   exists st' : Worker.BatchState,
     Worker.analyzeBatch JSON_parse w key n batch st
     = ([Msg.Request (Worker.geminiFlashUrl key)], Async.Returned st')
     /\ fst st' = fst st ++ map (fun c => Msg.mkAnalyzed c "neutral") batch
     /\ Msg.neutral (snd st') = Msg.neutral (snd st) + length batch
     /\ Msg.positive (snd st') = Msg.positive (snd st)
     /\ Msg.negative (snd st') = Msg.negative (snd st)
     /\ length (fst st') = length (fst st) + length batch)
  /\ (forall v : Json.json,
        JSON_parse (Worker.responseTextOf geminiResult) = Some v ->
        Json.isArray (Some v) = false ->
        Worker.analyzeBatch JSON_parse w key n batch st
        = ([Msg.Request (Worker.geminiFlashUrl key)], Async.Returned st)).
Proof.
  intros Hw. split.
  - intros Hp. exists (Worker.allNeutral batch st).
    rewrite (analyzeBatch_ok JSON_parse w key n batch geminiResult st Hw).
    rewrite (applyReply_unparseable JSON_parse batch geminiResult st Hp).
    repeat split. simpl. now rewrite length_app, length_map.
  - intros v Hp Hv.
    rewrite (analyzeBatch_ok JSON_parse w key n batch geminiResult st Hw).
    now rewrite (applyReply_not_array JSON_parse batch geminiResult v st Hp Hv).
Qed.

Lemma unparseable_reply_labels_batch_neutral_witness :
  Json.parse (Worker.responseTextOf (Samples.envelope (Json.JStr "Sure! Here you go")))
  = None
  /\ exists st' : Worker.BatchState,
       Worker.analyzeBatch Json.parse
         (Samples.world Samples.twoItems
            (Msg.Succeeded (inr (Samples.envelope (Json.JStr "Sure! Here you go")))))
         "gm-key" 0 [Samples.great; Samples.bad] ([], Worker.noCounts)
       = ([Msg.Request (Worker.geminiFlashUrl "gm-key")], Async.Returned st')
       /\ fst st'
          = [Msg.mkAnalyzed Samples.great "neutral"; Msg.mkAnalyzed Samples.bad "neutral"]
       /\ Msg.neutral (snd st') = 2
       /\ Msg.positive (snd st') = 0
       /\ Msg.negative (snd st') = 0
       /\ length (fst st') = 2.
Proof.
  split; [reflexivity|].
  exact (proj1 (unparseable_reply_labels_batch_neutral Json.parse
                  (Samples.world Samples.twoItems
                     (Msg.Succeeded
                        (inr (Samples.envelope (Json.JStr "Sure! Here you go")))))
                  "gm-key" 0 [Samples.great; Samples.bad]
                  (Samples.envelope (Json.JStr "Sure! Here you go"))
                  ([], Worker.noCounts) eq_refl) eq_refl).
Defined.

(** C10: two comments are fetched and the classifier labels the first one
    ["constructor"].  The comment enters the sample, so one comment is
    reported as analyzed, yet none of the three counts moves: the name is
    found on the counts object by inheritance, and the increment lands on a
    property of that name. *)
Theorem inherited_label_counted_nowhere :
  exists r : Msg.Analysis,
    Async.result
      (Worker.fetchAndAnalyzeComments Json.parse 1
         (Samples.world Samples.twoItems
            (Msg.Succeeded
               (inr (Samples.envelope
                       (Json.JStr (Samples.verdictText "1" "constructor"))))))
         "abc123" 50)
    = Async.Returned (Some r)
    /\ Msg.totalFetched r = 2
    /\ Msg.totalAnalyzed r = 1
    /\ Msg.sampleAnalyzedComments r = [Msg.mkAnalyzed Samples.great "constructor"]
    /\ Expected.total (Msg.sentimentCounts r) = 0.
Proof.
  eexists. repeat split.
Qed.

(** ** The fact checker *)

Section FactChecker.
Import Msg Async Json Worker Expected.

Variable JSON_parse : string -> option json.
Variable typeErrorMessage : string.






End FactChecker.




(** C8.  The result formatted from a parsed object defaults field by field:
    without a verdict it says ["Unknown"]; without a confidence it holds
    [null], and a confidence that is present is handed on as it is, the
    number 0 included; without an explanation it holds the placeholder;
    sources that are absent or not an array become the empty list, and an
    array is handed on. *)
Theorem formatResult_defaults (fs : list (string * Json.json)) :
  (Json.lookup "verdict" fs = None ->
   Msg.verdict (Worker.formatResult (Json.JObj fs)) = Json.JStr "Unknown")
  /\ (Json.lookup "confidence" fs = None ->
      Msg.confidence (Worker.formatResult (Json.JObj fs)) = Json.JNull)
  /\ (forall c : Json.json,
        Json.lookup "confidence" fs = Some c ->
        Msg.confidence (Worker.formatResult (Json.JObj fs)) = c)
  /\ (Json.lookup "explanation" fs = None ->
      Msg.explanation (Worker.formatResult (Json.JObj fs))
      = Json.JStr "No explanation provided.")
  /\ (Json.lookup "sources" fs = None ->
      Msg.sources (Worker.formatResult (Json.JObj fs)) = [])
  /\ (forall v : Json.json,
        Json.lookup "sources" fs = Some v ->
        Json.isArray (Some v) = false ->
        Msg.sources (Worker.formatResult (Json.JObj fs)) = [])
  /\ (forall l : list Json.json,
        Json.lookup "sources" fs = Some (Json.JArr l) ->
        Msg.sources (Worker.formatResult (Json.JObj fs)) = l).
Proof.
  unfold Worker.formatResult. simpl. repeat split.
  - now intros ->.
  - now intros ->.
  - now intros c ->.
  - now intros ->.
  - now intros ->.
  - intros v -> Hv. destruct v; try reflexivity. discriminate.
  - now intros l ->.
Qed.

Lemma formatResult_defaults_witness :
  Json.parse ("{" ++ Samples.quoted "confidence" ++ ": 0, "
                ++ Samples.quoted "sources" ++ ": null}")
  = Some (Json.JObj [("confidence", Json.JNum "0"); ("sources", Json.JNull)])
  /\ Worker.formatResult
       (Json.JObj [("confidence", Json.JNum "0"); ("sources", Json.JNull)])
     = Msg.mkFactCheck (Json.JStr "Unknown") (Json.JNum "0")
         (Json.JStr "No explanation provided.") [].
Proof.
  split; [reflexivity|].
  pose proof (formatResult_defaults
                [("confidence", Json.JNum "0"); ("sources", Json.JNull)])
    as (Hv & _ & Hc & He & _ & Hs & _).
  specialize (Hv eq_refl). specialize (Hc _ eq_refl). specialize (He eq_refl).
  specialize (Hs _ eq_refl eq_refl).
  destruct (Worker.formatResult
              (Json.JObj [("confidence", Json.JNum "0"); ("sources", Json.JNull)]))
    as [v c e s].
  simpl in Hv, Hc, He, Hs. now subst.
Defined.

(** ** Missing keys *)

(** C7.  When no generative-language key is stored, be it missing, empty or
    unreadable, both functions throw a key-not-set error after their first
    status message and before any request: the fact checker names the
    Gemini key; the comment analyzer names the Gemini key when the platform
    key is stored and the platform key when that one is missing too. *)
Theorem missing_key_fails_before_any_request
    (JSON_parse : string -> option Json.json) (typeErrorMessage : string)
    (fuel : nat) (w : Msg.World) (videoId text : string) (maxResults : nat) :
  snd (Worker.loadAPIKeys w) = None ->
  (Worker.performFactCheck JSON_parse typeErrorMessage w text
   = ([Msg.UpdateStatus "Fact-checking selected text..." false (Some true)],
      Async.Thrown "Gemini API Key not set in options."))
  /\ (Worker.fetchAndAnalyzeComments JSON_parse fuel w videoId maxResults
      = ([Msg.UpdateStatus ("Fetching comments for video: " ++ videoId ++ "...")%string
            false (Some true)],
         Async.Thrown
           (match fst (Worker.loadAPIKeys w) with
            | Some _ => "Gemini API Key not set in options."
            | None => "YouTube API Key not set in options."
            end)))
  /\ filter Router.isRequest
       (Async.trace (Worker.performFactCheck JSON_parse typeErrorMessage w text))
     = []
  /\ filter Router.isRequest
       (Async.trace
          (Worker.fetchAndAnalyzeComments JSON_parse fuel w videoId maxResults))
     = [].
Proof.
  intros H.
  assert (Hf : Worker.performFactCheck JSON_parse typeErrorMessage w text
               = ([Msg.UpdateStatus "Fact-checking selected text..." false (Some true)],
                  Async.Thrown "Gemini API Key not set in options."))
    by (unfold Worker.performFactCheck; now rewrite H).
  assert (Hc : Worker.fetchAndAnalyzeComments JSON_parse fuel w videoId maxResults
               = ([Msg.UpdateStatus
                     ("Fetching comments for video: " ++ videoId ++ "...")%string
                     false (Some true)],
                  Async.Thrown
                    (match fst (Worker.loadAPIKeys w) with
                     | Some _ => "Gemini API Key not set in options."
                     | None => "YouTube API Key not set in options."
                     end))).
  { unfold Worker.fetchAndAnalyzeComments.
    destruct (Worker.loadAPIKeys w) as [[y|] g]; simpl in H |- *;
      [subst g|]; reflexivity. }
  rewrite Hf, Hc. repeat split.
Qed.

Lemma missing_key_fails_before_any_request_witness :
  Worker.performFactCheck Json.parse Samples.hostTypeError
    (Samples.withKeys (Some (Some "yt-key", Some EmptyString))
       (Samples.world Samples.twoItems (Msg.Rejected "offline")))
    "the moon is made of cheese"
  = ([Msg.UpdateStatus "Fact-checking selected text..." false (Some true)],
     Async.Thrown "Gemini API Key not set in options.")
  /\ Worker.fetchAndAnalyzeComments Json.parse 5
       (Samples.withKeys (Some (Some "yt-key", Some EmptyString))
          (Samples.world Samples.twoItems (Msg.Rejected "offline")))
       "abc123" 50
     = ([Msg.UpdateStatus "Fetching comments for video: abc123..." false (Some true)],
        Async.Thrown "Gemini API Key not set in options.").
Proof.
  pose proof (missing_key_fails_before_any_request Json.parse Samples.hostTypeError 5
                (Samples.withKeys (Some (Some "yt-key", Some EmptyString))
                   (Samples.world Samples.twoItems (Msg.Rejected "offline")))
                "abc123" "the moon is made of cheese" 50 eq_refl)
    as (Hf & Hc & _).
  split; [exact Hf | exact Hc].
Defined.

(** ** A video without comments *)

Section NoComments.
Import Msg Async Worker Expected.

Variable w : World.
Variables videoId youtubeKey : string.
Variable maxResults : nat.

(** Pagination over [k] empty pages that each name a next page, then an
    empty page that ends the loop: with more than [k] units of fuel it
    returns no comment, and sends no result message on the way. *)
Lemma fetchPages_empty (k : nat) :
  forall (fuel n : nat) (tok : option string),
    k < fuel ->
    (forall j, j < k ->
       exists p, commentThreads w (n + j) = Succeeded (inr p)
                 /\ emptyPage p = true /\ continues maxResults p = true) ->
    (exists p, commentThreads w (n + k) = Succeeded (inr p)
               /\ emptyPage p = true /\ continues maxResults p = false) ->
    exists l,
      fetchPages fuel w videoId youtubeKey maxResults n [] 0 tok
      = (l, Returned ([], 0))
      /\ filter Router.isTerminal l = [].
Proof.
  induction k as [|k IH]; intros fuel n tok Hfuel Hpre Hlast.
  - destruct fuel as [|fuel]; [lia|].
    destruct Hlast as (p & Hp & He & Hc). rewrite Nat.add_0_r in Hp.
    unfold continues in Hc. unfold emptyPage in He.
    simpl. rewrite Hp.
    destruct (items p) as [[|x l]|]; try discriminate; simpl; rewrite Hc;
      eexists; split; reflexivity.
  - destruct fuel as [|fuel]; [lia|].
    destruct (Hpre 0 ltac:(lia)) as (p & Hp & He & Hc).
    rewrite Nat.add_0_r in Hp.
    unfold continues in Hc. unfold emptyPage in He.
    destruct (IH fuel (S n) (nextPageToken p) ltac:(lia)) as (l & Hl & Hf).
    + intros j Hj. replace (S n + j) with (n + S j) by lia. apply Hpre. lia.
    + replace (S n + k) with (n + S k) by lia. exact Hlast.
    + simpl. rewrite Hp.
      destruct (items p) as [[|x l']|]; try discriminate; simpl; rewrite Hc, Hl;
        eexists; (split; [reflexivity | exact Hf]).
Qed.

End NoComments.

(** C9.  Let both keys be stored, and let the comments endpoint answer [k]
    pages without comments that name a next page and then one without
    comments that ends the pagination.  Given more than [k] units of fuel,
    the analyzer returns without throwing, and the one result message it
    sends carries the analysis with [totalFetched], [totalAnalyzed] and the
    three counts all 0.  (The value it returns to its caller is
    [undefined]; the record travels in the message.) *)
Theorem no_comments_is_success
    (JSON_parse : string -> option Json.json) (fuel k : nat) (w : Msg.World)
    (videoId youtubeKey geminiKey : string) (maxResults : nat) :
  Worker.loadAPIKeys w = (Some youtubeKey, Some geminiKey) ->
  k < fuel ->
  (forall j, j < k ->
     exists p, Msg.commentThreads w j = Msg.Succeeded (inr p)
               /\ Expected.emptyPage p = true
               /\ Expected.continues maxResults p = true) ->
  (exists p, Msg.commentThreads w k = Msg.Succeeded (inr p)
             /\ Expected.emptyPage p = true
             /\ Expected.continues maxResults p = false) ->
  exists l : list Msg.event,
    Worker.fetchAndAnalyzeComments JSON_parse fuel w videoId maxResults
    = (l, Async.Returned None)
    /\ filter Router.isTerminal l
       = [Msg.Display "displayCommentAnalysis"
            (Some (Msg.PAnalysis (Msg.mkAnalysis 0 0 (Msg.mkCounts 0 0 0 []) [])))
            None].
Proof.
  intros Hk Hfuel Hpre Hlast.
  destruct (fetchPages_empty w videoId youtubeKey maxResults k fuel 0 None Hfuel
              Hpre Hlast) as (l & Hl & Hf).
  unfold Worker.fetchAndAnalyzeComments. rewrite Hk. simpl. rewrite Hl. simpl.
  eexists. split; [reflexivity|].
  change (filter Router.isTerminal (?e :: ?t)) with (filter Router.isTerminal t).
  rewrite filter_app, Hf. reflexivity.
Qed.

Lemma no_comments_is_success_witness :
  exists l : list Msg.event,
    Worker.fetchAndAnalyzeComments Json.parse 1
      (Samples.world [] (Msg.Rejected "offline")) "abc123" 50
    = (l, Async.Returned None)
    /\ filter Router.isTerminal l
       = [Msg.Display "displayCommentAnalysis"
            (Some (Msg.PAnalysis (Msg.mkAnalysis 0 0 (Msg.mkCounts 0 0 0 []) [])))
            None].
Proof.
  apply (no_comments_is_success Json.parse 1 0
           (Samples.world [] (Msg.Rejected "offline")) "abc123" "yt-key" "gm-key" 50).
  - reflexivity.
  - lia.
  - intros j Hj. lia.
  - exists (Msg.mkPage (Some []) None). repeat split.
Defined.

(** ** Result messages per operation *)

Section Operations.
Import Msg Async Expected.

Lemma terminalCount_app (l l' : list event) :
  Router.terminalCount (l ++ l') = Router.terminalCount l + Router.terminalCount l'.
Proof.
  unfold Router.terminalCount. now rewrite filter_app, length_app.
Qed.

Ltac run :=
  cbn [bind tryCatch ret emit throw trace result fst snd
       Worker.updatePopupStatus Worker.sendDataToPopup app].

Lemma sent_bind {A B : Type} (m : M A) (k : A -> M B) :
  sent (bind m k)
  = sent m + match result m with Returned a => sent (k a) | _ => 0 end.
Proof.
  unfold sent. destruct m as [l [a|e|]]; run; [|lia|lia].
  destruct (k a) as [l' r]. run. apply terminalCount_app.
Qed.

Lemma result_bind {A B : Type} (m : M A) (k : A -> M B) :
  result (bind m k)
  = match result m with
    | Returned a => result (k a)
    | Thrown e => Thrown e
    | Pending => Pending
    end.
Proof.
  destruct m as [l [a|e|]]; run; try reflexivity. now destruct (k a).
Qed.

Lemma sent_tryCatch {A : Type} (m : M A) (h : string -> M A) :
  sent (tryCatch m h)
  = sent m + match result m with Thrown e => sent (h e) | _ => 0 end.
Proof.
  unfold sent. destruct m as [l [a|e|]]; run; [lia| |lia].
  destruct (h e) as [l' r]. run. apply terminalCount_app.
Qed.

Lemma result_tryCatch {A : Type} (m : M A) (h : string -> M A) :
  result (tryCatch m h)
  = match result m with
    | Thrown e => result (h e)
    | r => r
    end.
Proof.
  destruct m as [l [a|e|]]; run; try reflexivity. now destruct (h e).
Qed.

Lemma getVideoIdFromTab_sent (w : World) : sent (Worker.getVideoIdFromTab w) = 0.
Proof.
  unfold Worker.getVideoIdFromTab.
  destruct (injected w) as [m|[v|]]; [| destruct (Js.truthy_str v) |];
    reflexivity.
Qed.

Lemma getVideoIdFromTab_ends (w : World) :
  result (Worker.getVideoIdFromTab w) <> Pending.
Proof.
  unfold Worker.getVideoIdFromTab.
  destruct (injected w) as [m|[v|]]; [| destruct (Js.truthy_str v) |];
    discriminate.
Qed.

(** *** The transcript *)

Lemma fetchAvailableTranscriptLangsAPI_one (w : World) (videoId : string) :
  oneIfReturned (Worker.fetchAvailableTranscriptLangsAPI w videoId).
Proof.
  unfold oneIfReturned, Worker.fetchAvailableTranscriptLangsAPI.
  destruct (fst (Worker.loadAPIKeys w)) as [k|]; [|reflexivity].
  destruct (captionsList w) as [m|s st [m|e]|[m|[[|c cs]|]]]; reflexivity.
Qed.

Lemma scrape_sent (w : World) (videoId : string) (langPrefs : list string) :
  match result (Worker.scrape w videoId langPrefs) with
  | Returned (Some _) => sent (Worker.scrape w videoId langPrefs) = 1
  | Returned None | Thrown _ => sent (Worker.scrape w videoId langPrefs) = 0
  | Pending => False
  end.
Proof.
  unfold Worker.scrape.
  destruct (watchPage w) as [m|[[|t ts]|]]; try reflexivity.
  destruct (Tracks.selectTrack (t :: ts) langPrefs) as [b f].
  destruct (Worker.orNull b) as [url|]; [|reflexivity]. run.
  destruct (trackContent w url) as [m|s st e|[m|xml]]; try reflexivity.
  destruct (TimedText.extractTranscript xml) as [m|full]; reflexivity.
Qed.

Lemma fetchTranscriptFromPage_one (w : World) (videoId : string)
    (langPrefs : list string) :
  oneIfReturned (Worker.fetchTranscriptFromPage w videoId langPrefs).
Proof.
  pose proof (scrape_sent w videoId langPrefs) as Hs.
  pose proof (fetchAvailableTranscriptLangsAPI_one w videoId) as Ha.
  unfold oneIfReturned in *. unfold Worker.fetchTranscriptFromPage.
  rewrite !sent_bind, !result_bind, sent_tryCatch, result_tryCatch.
  cbn [result Worker.updatePopupStatus emit snd].
  destruct (result (Worker.scrape w videoId langPrefs)) as [[t|]|m|];
    try contradiction; rewrite Hs.
  - reflexivity.
  - destruct (result (Worker.fetchAvailableTranscriptLangsAPI w videoId));
      try contradiction; rewrite Ha; reflexivity.
  - rewrite sent_bind, result_bind. cbn [result Worker.updatePopupStatus emit snd ret].
    destruct (result (Worker.fetchAvailableTranscriptLangsAPI w videoId));
      try contradiction; rewrite Ha; reflexivity.
Qed.

(** A transcript request ends with exactly one result message, whatever
    the world answers. *)
Lemma getTranscript_sent (w : World) : sent (Router.getTranscript w) = 1.
Proof.
  unfold Router.getTranscript.
  rewrite sent_tryCatch, !sent_bind, !result_bind, getVideoIdFromTab_sent.
  cbn [result Worker.updatePopupStatus emit snd].
  pose proof (getVideoIdFromTab_ends w) as He.
  destruct (result (Worker.getVideoIdFromTab w)) as [v|m|];
    [|reflexivity|contradiction].
  rewrite sent_bind, result_bind.
  pose proof (fetchTranscriptFromPage_one w v Tracks.defaultLangPrefs) as H.
  unfold oneIfReturned in H.
  destruct (result (Worker.fetchTranscriptFromPage w v Tracks.defaultLangPrefs));
    try contradiction; rewrite H; reflexivity.
Qed.

(** *** Comments and fact checks *)

Variable JSON_parse : string -> option Json.json.
Variable typeErrorMessage : string.

Lemma fetchPages_sent (w : World) (videoId youtubeKey : string)
    (maxResults fuel : nat) :
  forall n comments fetchedCount tok,
    sent (Worker.fetchPages fuel w videoId youtubeKey maxResults n comments
            fetchedCount tok) = 0.
Proof.
  induction fuel as [|fuel IH]; intros n cs fc tok; [reflexivity|].
  cbn [Worker.fetchPages]. rewrite !sent_bind. run.
  destruct (commentThreads w n) as [m|s st [m|e]|[m|p]]; try reflexivity.
  destruct (items p) as [l|];
    destruct (Js.truthy_opt (nextPageToken p) && _)%bool;
    try rewrite IH; reflexivity.
Qed.

Lemma batchLoop_sent (w : World) (key : string) (comments : list Comment)
    (fuel : nat) :
  forall i n st,
    sent (Worker.batchLoop JSON_parse fuel w key comments i n st) = 0.
Proof.
  induction fuel as [|fuel IH]; intros i n st; cbn [Worker.batchLoop];
    destruct (Nat.ltb i (length comments)); try reflexivity.
  rewrite sent_bind. unfold Worker.analyzeBatch at 1 2.
  destruct (generate w n) as [m|s st' e|[m|g]]; run; try reflexivity; apply IH.
Qed.

(** The analyzer sends one result message, be it the analysis or the
    error, once the keys are there, and none when a key is missing. *)
Lemma fetchAndAnalyzeComments_sent (w : World) (videoId : string)
    (maxResults fuel : nat) :
  sent (Worker.fetchAndAnalyzeComments JSON_parse fuel w videoId maxResults)
  = match Worker.loadAPIKeys w,
          result (Worker.fetchAndAnalyzeComments JSON_parse fuel w videoId
                    maxResults) with
    | (Some _, Some _), Returned _ => 1
    | (Some _, Some _), Thrown _ => 1
    | _, _ => 0
    end.
Proof.
  unfold Worker.fetchAndAnalyzeComments.
  destruct (Worker.loadAPIKeys w) as [[y|] [g|]]; try reflexivity.
  cbv beta iota.
  rewrite sent_bind, result_bind.
  cbn [result Worker.updatePopupStatus emit snd].
  rewrite sent_tryCatch, result_tryCatch, sent_bind, result_bind.
  rewrite fetchPages_sent.
  destruct (result (Worker.fetchPages fuel w videoId y maxResults 0 [] 0 None))
    as [[cs fc]|m|]; try reflexivity.
  destruct cs as [|c cs]; [reflexivity|].
  cbv beta iota. rewrite !sent_bind, !result_bind.
  cbn [result Worker.updatePopupStatus emit snd].
  rewrite batchLoop_sent.
  destruct (result (Worker.batchLoop JSON_parse (length (c :: cs)) w g (c :: cs) 0 0
                      ([], Worker.noCounts))) as [[a k]|m|]; reflexivity.
Qed.

(** A comment analysis ends with one result message when the analyzer
    returns or a key is missing, and with two when the analyzer throws from
    inside its [try]. *)
Lemma analyzeComments_sent (w : World) (fuel : nat) :
  sent (Router.analyzeComments JSON_parse fuel w)
  = match result (Worker.getVideoIdFromTab w) with
    | Returned v =>
        match Worker.loadAPIKeys w,
              result (Worker.fetchAndAnalyzeComments JSON_parse fuel w v
                        Router.defaultMaxResults) with
        | (Some _, Some _), Returned _ => 1
        | (Some _, Some _), Thrown _ => 2
        | _, Thrown _ => 1
        | _, _ => 0
        end
    | _ => 1
    end.
Proof.
  unfold Router.analyzeComments.
  rewrite sent_tryCatch, !sent_bind, !result_bind, getVideoIdFromTab_sent.
  cbn [result Worker.updatePopupStatus emit snd].
  pose proof (getVideoIdFromTab_ends w) as He.
  destruct (result (Worker.getVideoIdFromTab w)) as [v|m|];
    [|reflexivity|contradiction].
  rewrite sent_bind, result_bind, fetchAndAnalyzeComments_sent.
  destruct (Worker.loadAPIKeys w) as [[y|] [g|]];
    destruct (result (Worker.fetchAndAnalyzeComments JSON_parse fuel w v
                        Router.defaultMaxResults)) as [a|m|]; reflexivity.
Qed.

(** A fact check ends with one result message when the Gemini key is
    stored and with none when it is not. *)
Lemma factCheckSelection_sent (w : World) (text : string) :
  sent (Router.factCheckSelection JSON_parse typeErrorMessage w text)
  = match snd (Worker.loadAPIKeys w) with
    | Some _ => 1
    | None => 0
    end.
Proof.
  unfold Router.factCheckSelection, Worker.performFactCheck.
  destruct (snd (Worker.loadAPIKeys w)) as [k|]; [|reflexivity].
  destruct (generate w 0) as [m|s st e|[m|g]]; try reflexivity.
  unfold Worker.parsedResultOf.
  destruct (Json.truthy (Worker.textOf g)).
  - destruct (JSON_parse (Json.toStringVal (Worker.textOf g))) as [[| | | | |]|];
      reflexivity.
  - destruct (Worker.contentOf g) as [[| | | | |]|]; reflexivity.
Qed.

End Operations.

(** C4: a fact check requested while no Gemini key is stored ends without
    any result message, since the key is tested before the [try] whose
    [catch] sends it and the listener sends a status only; and a comment
    analysis whose comments request is refused sends two, one from the
    [catch] of the analyzer and one from the listener. *)
Theorem result_messages_zero_and_two :
  Router.terminalCount
    (fst (Router.onMessage Json.parse Samples.hostTypeError 1
            (Samples.withKeys (Some (Some "yt-key", None))
               (Samples.world [] (Msg.Rejected "offline")))
            Samples.checkCheese))
  = 0
  /\ Router.terminalCount
       (fst (Router.onMessage Json.parse Samples.hostTypeError 1
               (Samples.withComments (fun _ => Samples.quotaExceeded)
                  (Samples.world [] (Msg.Rejected "offline")))
               Samples.analyzeTab))
     = 2.
Proof.
  split; reflexivity.
Qed.

(** ** What the counts account for *)

Section Accounting.
Import Msg Async Json Worker Expected.

Lemma counter_not_inherited (s : string) :
  mem s counterKeys = true -> mem s objectPrototypeKeys = false.
Proof.
  unfold mem, counterKeys. cbn [existsb]. rewrite !orb_true_iff.
  intros [H|[H|[H|H]]]; try discriminate;
    apply String.eqb_eq in H; subst; reflexivity.
Qed.

Lemma count_strays (c : SentimentCounts) (s k : string) :
  (forall k, mem k (strays c) = true -> mem k objectPrototypeKeys = true) ->
  mem k (strays (count c s)) = true -> mem k objectPrototypeKeys = true.
Proof.
  intros H. unfold count.
  destruct (defined c s) eqn:Ed; [|apply H].
  unfold increment.
  destruct (String.eqb s "positive") eqn:E1; [apply H|].
  destruct (String.eqb s "negative") eqn:E2; [apply H|].
  destruct (String.eqb s "neutral") eqn:E3; [apply H|].
  destruct (String.eqb s "__proto__" || mem s (strays c)) eqn:E4; [apply H|].
  apply orb_false_iff in E4 as [_ E4].
  unfold defined in Ed. rewrite E4 in Ed.
  unfold mem at 1, counterKeys in Ed. cbn [existsb] in Ed.
  rewrite E1, E2, E3 in Ed. cbn [orb] in Ed.
  cbn [strays]. unfold mem at 1. rewrite existsb_app. cbn [existsb].
  rewrite orb_false_r, orb_true_iff.
  intros [Hk|Hk]; [now apply H|]. apply String.eqb_eq in Hk. now subst k.
Qed.

Lemma accounted_push (st : BatchState) (oc : Comment) (s : string) :
  accounted st ->
  accounted (fst st ++ [mkAnalyzed oc s], count (snd st) s).
Proof.
  destruct st as [sample c]. intros [H1 H2]. cbn [fst snd] in *. split.
  - cbn [fst snd]. rewrite length_app, count_total. unfold inheritedHits.
    rewrite filter_app, length_app. cbn [filter length]. unfold inheritedLabel at 2.
    cbn [sentiment]. unfold inheritedHits in H1.
    destruct (mem s counterKeys) eqn:Ec.
    + rewrite (counter_not_inherited s Ec). cbn [length]. lia.
    + destruct (mem s objectPrototypeKeys) eqn:Ep.
      * rewrite orb_true_r. cbn [length]. lia.
      * destruct (mem s (strays c)) eqn:Es.
        -- rewrite (H2 s Es) in Ep. discriminate.
        -- cbn [orb length]. lia.
  - cbn [fst snd]. intros k. now apply count_strays.
Qed.

Lemma accounted_neutral (st : BatchState) (batch : list Comment) :
  accounted st -> accounted (allNeutral batch st).
Proof.
  destruct st as [sample c]. intros [H1 H2]. cbn [fst snd] in *.
  unfold allNeutral, accounted. cbn [fst snd strays]. split; [|exact H2].
  unfold inheritedHits in *. rewrite length_app, length_map, filter_app, length_app.
  assert (Hn : filter inheritedLabel (map (fun c0 => mkAnalyzed c0 "neutral") batch) = []).
  { induction batch as [|b batch IH]; [reflexivity|]. cbn [map filter].
    now rewrite IH. }
  rewrite Hn. unfold total in *. cbn [positive negative neutral length]. lia.
Qed.

Lemma accounted_classify (batch : list Comment) (sentiments : list json) :
  forall st, accounted st -> accounted (fst (classify batch sentiments st)).
Proof.
  induction sentiments as [|r rest IH]; intros st H; [exact H|].
  cbn [classify].
  destruct r; try exact H;
    (destruct (find _ batch) as [oc|]; [|now apply IH]);
    match goal with
    | |- context [if ?b then _ else _] => destruct b
    end;
    try exact H.
  all: try (apply IH; now apply accounted_push).
  all: match goal with
       | |- context [match ?x with _ => _ end] => destruct x as [[| | | | |]|]
       end; try exact H; apply IH; now apply accounted_push.
Qed.

Variable JSON_parse : string -> option json.

Lemma accounted_applyReply (batch : list Comment) (g : json) (st : BatchState) :
  accounted st -> accounted (applyReply JSON_parse batch g st).
Proof.
  intros H. unfold applyReply.
  destruct (JSON_parse (responseTextOf g)) as [[| | | |l|]|]; try exact H.
  - pose proof (accounted_classify batch l st H) as Hc.
    destruct (classify batch l st) as [st' [|]]; cbn [fst] in Hc;
      [now apply accounted_neutral | exact Hc].
  - now apply accounted_neutral.
Qed.

Lemma accounted_batchLoop (w : World) (key : string) (comments : list Comment)
    (fuel : nat) :
  forall i n st st',
    accounted st ->
    result (batchLoop JSON_parse fuel w key comments i n st) = Returned st' ->
    accounted st'.
Proof.
  induction fuel as [|fuel IH]; intros i n st st' H; cbn [batchLoop];
    destruct (Nat.ltb i (length comments)); try discriminate;
    try (intros [= <-]; exact H).
  rewrite result_bind. unfold analyzeBatch at 1.
  destruct (generate w n) as [m|s t e|[m|g]]; cbn [bind emit throw ret result snd];
    try discriminate.
  - now apply IH.
  - apply IH. now apply accounted_applyReply.
Qed.

(** Whenever the analyzer returns an analysis, the analyzed total is the
    sum of the three counts plus the number of sample entries labeled with
    an inherited property name. *)
Lemma analysis_accounted (w : World) (videoId : string) (maxResults fuel : nat)
    (r : Analysis) :
  result (fetchAndAnalyzeComments JSON_parse fuel w videoId maxResults)
  = Returned (Some r) ->
  totalAnalyzed r
  = total (sentimentCounts r) + inheritedHits (sampleAnalyzedComments r).
Proof.
  unfold fetchAndAnalyzeComments.
  destruct (loadAPIKeys w) as [[y|] [g|]]; try discriminate.
  cbv beta iota. rewrite result_bind.
  cbn [result updatePopupStatus emit snd].
  rewrite result_tryCatch, result_bind.
  destruct (result (fetchPages fuel w videoId y maxResults 0 [] 0 None))
    as [[cs fc]|m|]; [| |discriminate].
  - destruct cs as [|c cs]; [discriminate|].
    cbv beta iota. rewrite !result_bind.
    cbn [result updatePopupStatus emit snd].
    pose proof (accounted_batchLoop w g (c :: cs) (length (c :: cs)) 0 0
                  ([], noCounts)) as Hb.
    destruct (result (batchLoop JSON_parse (length (c :: cs)) w g (c :: cs) 0 0
                        ([], noCounts))) as [[a k]|m|].
    + specialize (Hb (a, k) ltac:(split; [reflexivity | discriminate]) eq_refl).
      destruct Hb as [Hb _]. cbn [fst snd] in Hb.
      intros [= <-]. exact Hb.
    + discriminate.
    + discriminate.
  - discriminate.
Qed.

(** The batch loop ends within the fuel it is given by the analyzer. *)
Lemma batchLoop_ends (w : World) (key : string) (comments : list Comment)
    (fuel : nat) :
  forall i n st,
    length comments <= i + fuel ->
    result (batchLoop JSON_parse fuel w key comments i n st) <> Pending.
Proof.
  induction fuel as [|fuel IH]; intros i n st Hf; cbn [batchLoop];
    destruct (Nat.ltb_spec i (length comments)); try discriminate; try lia.
  rewrite result_bind. unfold analyzeBatch at 1.
  destruct (generate w n) as [m|s t e|[m|g]]; cbn [bind emit throw ret result snd];
    try discriminate; apply IH; unfold batchSize; lia.
Qed.

(** When every classifier call fails, the loop hands back the sample and
    the counts it started with. *)
Lemma batchLoop_all_failed (w : World) (key : string) (comments : list Comment)
    (fuel : nat) :
  (forall n, exists status statusText errorData,
     generate w n = Failed status statusText errorData) ->
  forall i n st,
    length comments <= i + fuel ->
    result (batchLoop JSON_parse fuel w key comments i n st) = Returned st.
Proof.
  intros Hall.
  induction fuel as [|fuel IH]; intros i n st Hf; cbn [batchLoop];
    destruct (Nat.ltb_spec i (length comments)); try reflexivity; try lia.
  rewrite result_bind. unfold analyzeBatch at 1.
  destruct (Hall n) as (status & statusText & errorData & ->).
  cbn [bind emit throw ret result snd]. apply IH. unfold batchSize. lia.
Qed.

Lemma lowerAscii_not_upper (c : ascii) : isUpper (lowerAscii c) = false.
Proof.
  destruct c as [[] [] [] [] [] [] [] []]; reflexivity.
Qed.

Lemma toLowerCase_not_upper (s : string) : hasUpper (toLowerCase s) = false.
Proof.
  induction s as [|c r IH]; [reflexivity|].
  cbn [toLowerCase hasUpper]. now rewrite lowerAscii_not_upper, IH.
Qed.

(** Of the inherited names only two are written without capitals, so a
    label, which has been put in lower case, can only meet those. *)
Lemma inherited_lower_case (s : string) :
  mem (toLowerCase s) objectPrototypeKeys = true ->
  toLowerCase s = "constructor" \/ toLowerCase s = "__proto__".
Proof.
  pose proof (toLowerCase_not_upper s) as Hu. revert Hu.
  generalize (toLowerCase s) as k. intros k Hu.
  unfold mem, objectPrototypeKeys. cbn [existsb]. rewrite !orb_true_iff.
  intros H.
  repeat (destruct H as [H|H]); try discriminate;
    apply String.eqb_eq in H; subst k; try discriminate Hu; auto.
Qed.

End Accounting.

(** ** More on track selection *)

Section TrackInvariant.
Import Tracks.

Variable tracks : list CaptionTrack.

Lemma append_empty (s : string) : (s ++ EmptyString)%string = s.
Proof.
  induction s as [|c r IH]; [reflexivity|]. simpl. now rewrite IH.
Qed.

Lemma isHuman_tag (lang : string) (t : CaptionTrack) :
  isHuman lang t = true -> Observed.tagOf t = lang.
Proof.
  unfold isHuman, Observed.tagOf. intros H.
  apply andb_true_iff in H as [Hl Hk]. apply String.eqb_eq in Hl. subst lang.
  destruct (kind t) as [k|]; simpl in *; [|apply append_empty].
  unfold Js.truthy_str in Hk. apply negb_true_iff, negb_false_iff in Hk.
  apply String.eqb_eq in Hk. subst k. apply append_empty.
Qed.

Lemma isAsr_tag (lang : string) (t : CaptionTrack) :
  isAsr lang t = true -> Observed.tagOf t = (lang ++ " (auto)")%string.
Proof.
  unfold isAsr, Observed.tagOf. intros H.
  apply andb_true_iff in H as [Hl Hk]. apply String.eqb_eq in Hl. subst lang.
  now rewrite Hk.
Qed.

Lemma selectLoop_describes (prefs : list string) :
  forall cur,
    cur = (None, None) \/ Observed.describes tracks cur ->
    selectLoop tracks prefs cur = (None, None)
    \/ Observed.describes tracks (selectLoop tracks prefs cur).
Proof.
  induction prefs as [|lang prefs IH]; intros cur Hcur; [exact Hcur|].
  cbn [selectLoop].
  destruct (find (isHuman lang) tracks) as [t|] eqn:Eh.
  - right. apply find_some in Eh as [Hin Hp]. exists t. split; [exact Hin|].
    now rewrite (isHuman_tag lang t Hp).
  - destruct (find (isAsr lang) tracks) as [t|] eqn:Ea; [|now apply IH].
    destruct (negb (Js.truthy_opt (fst cur))); [|now apply IH].
    apply IH. right. apply find_some in Ea as [Hin Hp]. exists t.
    split; [exact Hin|]. now rewrite (isAsr_tag lang t Hp).
Qed.

End TrackInvariant.

(** X1.  Whatever the preferences, the selection over a non-empty track
    list names one of its tracks: the URL is that track's and the tag is
    its language code, marked [(auto)] exactly when the track is
    auto-generated. *)
Theorem selection_names_a_listed_track
    (tracks : list Tracks.CaptionTrack) (langPrefs : list string) :
  tracks <> [] ->
  Observed.describes tracks (Tracks.selectTrack tracks langPrefs).
Proof.
  intros Hne. unfold Tracks.selectTrack.
  destruct (selectLoop_describes tracks langPrefs (None, None) (or_introl eq_refl))
    as [H|H].
  - rewrite H. cbn [fst Js.truthy_opt negb].
    destruct tracks as [|t0 ts]; [contradiction|].
    exists t0. split; [now left | reflexivity].
  - destruct (negb (Js.truthy_opt (fst (Tracks.selectLoop tracks langPrefs (None, None)))));
      [|exact H].
    destruct tracks as [|t0 ts]; [contradiction|].
    exists t0. split; [now left | reflexivity].
Qed.

Lemma selection_names_a_listed_track_witness :
  Observed.describes [Samples.taAuto; Samples.enHuman]
    (Tracks.selectTrack [Samples.taAuto; Samples.enHuman] ["fr"; "en"]).
Proof.
  apply (selection_names_a_listed_track [Samples.taAuto; Samples.enHuman] ["fr"; "en"]).
  discriminate.
Defined.

(** X2.  When no preferred language has a track of either kind, the
    selection is the first track of the list, whatever its kind. *)
Theorem no_preference_matches_first_track
    (t0 : Tracks.CaptionTrack) (ts : list Tracks.CaptionTrack)
    (langPrefs : list string) :
  (forall l, In l langPrefs ->
     find (Tracks.isHuman l) (t0 :: ts) = None
     /\ find (Tracks.isAsr l) (t0 :: ts) = None) ->
  Tracks.selectTrack (t0 :: ts) langPrefs
  = (Some (Tracks.baseUrl t0), Some (Observed.tagOf t0)).
Proof.
  intros H. unfold Tracks.selectTrack.
  rewrite <- (app_nil_r langPrefs).
  rewrite (selectLoop_skip (t0 :: ts) langPrefs [] (None, None) H).
  reflexivity.
Qed.

Lemma no_preference_matches_first_track_witness :
  Tracks.selectTrack [Samples.taAuto; Samples.enHuman] ["fr"; "de"]
  = (Some (Tracks.baseUrl Samples.taAuto), Some "ta (auto)").
Proof.
  apply (no_preference_matches_first_track Samples.taAuto [Samples.enHuman]
           ["fr"; "de"]).
  intros l [<-|[<-|[]]]; split; reflexivity.
Defined.


(** ** More on timed text *)

Section TagStripping.
Import TimedText.

Lemma hasGt_stripFrom (s : string) :
  forall inTag, hasGt (stripFrom inTag s) = true -> hasGt s = true.
Proof.
  induction s as [|c r IH]; intros inTag; cbn [stripFrom hasGt]; [discriminate|].
  destruct inTag.
  - intros H. rewrite (IH _ H). apply orb_true_r.
  - destruct (Ascii.eqb c lt && opensTag r).
    + intros H. rewrite (IH _ H). apply orb_true_r.
    + cbn [hasGt]. destruct (Ascii.eqb c gt); [reflexivity|].
      cbn [orb]. apply IH.
Qed.

Lemma opensTag_no_gt (r : string) : hasGt r = false -> opensTag r = false.
Proof.
  destruct r as [|c r']; [reflexivity|]. cbn [hasGt opensTag].
  intros H. apply orb_false_iff in H as [_ H]. rewrite H. apply andb_false_r.
Qed.

Lemma opensTag_stripFrom (r : string) :
  opensTag r = false -> opensTag (stripFrom false r) = false.
Proof.
  destruct r as [|c r']; [reflexivity|]. cbn [opensTag stripFrom].
  destruct (Ascii.eqb c gt) eqn:Eg.
  - intros _. apply Ascii.eqb_eq in Eg. subst c. cbn. reflexivity.
  - cbn [negb andb]. intros H. rewrite (opensTag_no_gt r' H), andb_false_r.
    cbn [opensTag]. rewrite Eg. cbn [negb andb].
    destruct (hasGt (stripFrom false r')) eqn:E; [|reflexivity].
    apply hasGt_stripFrom in E. congruence.
Qed.

Lemma tagFree_stripFrom (s : string) :
  forall inTag, Observed.tagFree (stripFrom inTag s) = true.
Proof.
  induction s as [|c r IH]; intros inTag; cbn [stripFrom]; [reflexivity|].
  destruct inTag; [apply IH|].
  destruct (Ascii.eqb c lt && opensTag r) eqn:E; [apply IH|].
  cbn [Observed.tagFree]. rewrite IH, andb_true_r.
  apply andb_false_iff in E as [E|E].
  - now rewrite E.
  - rewrite (opensTag_stripFrom r E). now rewrite andb_false_r.
Qed.

Lemma stripFrom_tagFree (s : string) :
  Observed.tagFree s = true -> stripFrom false s = s.
Proof.
  induction s as [|c r IH]; [reflexivity|]. cbn [Observed.tagFree stripFrom].
  intros H. apply andb_true_iff in H as [H1 H2].
  apply negb_true_iff in H1. rewrite H1. now rewrite IH.
Qed.

End TagStripping.

(** X3.  What tag stripping returns holds no tag any more: at no place of
    it does the pattern [<[^>]+>] match, and stripping it again changes
    nothing. *)
Theorem stripTags_leaves_no_tag (s : string) :
  Observed.tagFree (TimedText.stripTags s) = true
  /\ TimedText.stripTags (TimedText.stripTags s) = TimedText.stripTags s.
Proof.
  unfold TimedText.stripTags. split.
  - apply tagFree_stripFrom.
  - apply stripFrom_tagFree, tagFree_stripFrom.
Qed.


(** ** The popup after an operation *)

Section PopupAfterOperation.
Import Msg Async Popup.

Lemma trace_bind {A B : Type} (m : M A) (k : A -> M B) :
  trace (bind m k)
  = trace m ++ match result m with Returned a => trace (k a) | _ => [] end.
Proof.
  destruct m as [l [a|e|]]; cbn [bind trace result fst snd];
    [|now rewrite app_nil_r|now rewrite app_nil_r].
  now destruct (k a).
Qed.

Lemma trace_tryCatch {A : Type} (m : M A) (h : string -> M A) :
  trace (tryCatch m h)
  = trace m ++ match result m with Thrown e => trace (h e) | _ => [] end.
Proof.
  destruct m as [l [a|e|]]; cbn [tryCatch trace result fst snd];
    [now rewrite app_nil_r| |now rewrite app_nil_r].
  now destruct (h e).
Qed.

Lemma lastIs_app (p : event -> bool) (l1 l2 : list event) :
  lastIs p (l1 ++ l2)
  = match l2 with [] => lastIs p l1 | _ => lastIs p l2 end.
Proof.
  destruct l2 as [|e2 l2]; [now rewrite app_nil_r|].
  induction l1 as [|e1 l1 IH]; [reflexivity|].
  cbn [app]. destruct (l1 ++ e2 :: l2) eqn:E.
  - destruct l1; discriminate.
  - cbn [lastIs]. exact IH.
Qed.

Lemma lastIs_app_r (p : event -> bool) (l1 l2 : list event) :
  lastIs p l2 = true -> lastIs p (l1 ++ l2) = true.
Proof.
  intros H. rewrite lastIs_app. destruct l2; [discriminate | exact H].
Qed.

Lemma lastIs_weaken (p q : event -> bool) (l : list event) :
  (forall e, p e = true -> q e = true) ->
  lastIs p l = true -> lastIs q l = true.
Proof.
  intros H. induction l as [|e l IH]; [discriminate|].
  destruct l as [|e' l']; [apply H | exact IH].
Qed.

(** A trace whose last message satisfies [p] is some trace followed by
    such a message. *)
Lemma lastIs_split (p : event -> bool) (l : list event) :
  lastIs p l = true -> exists l' e, l = l' ++ [e] /\ p e = true.
Proof.
  induction l as [|e l IH]; [discriminate|].
  destruct l as [|e' l'].
  - intros H. now exists [], e.
  - intros H. destruct (IH H) as (l0 & e0 & -> & Hp).
    now exists (e :: l0), e0.
Qed.

Lemma settles_idle (e : event) (st : State) :
  settles e = true -> isProcessing (onEvent e st) = false.
Proof.
  destruct e as [m isError [[|]|]|action data error|u]; try discriminate.
  - intros _. cbn [onEvent]. reflexivity.
  - cbn [settles Router.isTerminal Worker.mem existsb]. intros H.
    cbn [onEvent].
    destruct (String.eqb action "displayTranscript") eqn:E1.
    + destruct (truthyData data) as [d|]; [|destruct (Worker.orNull error)];
        reflexivity.
    + destruct (String.eqb action "displayCommentAnalysis") eqn:E2.
      * destruct (truthyData data) as [[s|r|f]|]; [| | |destruct (Worker.orNull error)];
          reflexivity.
      * destruct (String.eqb action "displayFactCheck") eqn:E3.
        -- destruct (truthyData data) as [d|]; [|destruct (Worker.orNull error)];
             reflexivity.
        -- cbn [orb] in H. discriminate.
Qed.

(** Once the last message of a trace settles, the popup is idle after the
    trace, wherever it started. *)
Lemma deliver_idle (l : list event) :
  forall st, lastIs settles l = true -> isProcessing (deliver l st) = false.
Proof.
  intros st H. destruct (lastIs_split settles l H) as (l' & e & -> & He).
  unfold deliver. rewrite fold_left_app. cbn [fold_left].
  now apply settles_idle.
Qed.

End PopupAfterOperation.


Section OperationsSettle.
Import Msg Async Popup.

Lemma reports_settles (e : event) : reports e = true -> settles e = true.
Proof.
  destruct e as [m i p|action d er|u]; try discriminate.
  cbn [reports settles Router.isTerminal Worker.mem existsb].
  intros H. apply andb_true_iff in H as [H _]. now rewrite H.
Qed.

Variable JSON_parse : string -> option Json.json.
Variable typeErrorMessage : string.

Lemma api_reports (w : World) (videoId : string) :
  match result (Worker.fetchAvailableTranscriptLangsAPI w videoId) with
  | Returned _ =>
      lastIs reports (trace (Worker.fetchAvailableTranscriptLangsAPI w videoId)) = true
  | _ => True
  end.
Proof.
  unfold Worker.fetchAvailableTranscriptLangsAPI.
  destruct (fst (Worker.loadAPIKeys w)) as [k|]; [|exact I].
  destruct (captionsList w) as [m|s st [m|e]|[m|[[|c cs]|]]]; reflexivity.
Qed.

Lemma scrape_reports (w : World) (videoId : string) (langPrefs : list string) :
  match result (Worker.scrape w videoId langPrefs) with
  | Returned (Some _) =>
      lastIs reports (trace (Worker.scrape w videoId langPrefs)) = true
  | _ => True
  end.
Proof.
  unfold Worker.scrape.
  destruct (watchPage w) as [m|[[|t ts]|]]; try exact I.
  destruct (Tracks.selectTrack (t :: ts) langPrefs) as [b f].
  destruct (Worker.orNull b) as [url|]; [|exact I].
  cbn [bind emit Worker.updatePopupStatus].
  destruct (trackContent w url) as [m|s st e|[m|xml]]; try exact I.
  destruct (TimedText.extractTranscript xml) as [m|full]; [exact I | reflexivity].
Qed.

Lemma fetchTranscriptFromPage_reports (w : World) (videoId : string)
    (langPrefs : list string) :
  match result (Worker.fetchTranscriptFromPage w videoId langPrefs) with
  | Returned _ =>
      lastIs reports (trace (Worker.fetchTranscriptFromPage w videoId langPrefs)) = true
  | _ => True
  end.
Proof.
  pose proof (scrape_reports w videoId langPrefs) as Hs.
  pose proof (api_reports w videoId) as Ha.
  unfold Worker.fetchTranscriptFromPage.
  rewrite !trace_bind, !result_bind, trace_tryCatch, result_tryCatch.
  cbn [result Worker.updatePopupStatus emit snd].
  destruct (result (Worker.scrape w videoId langPrefs)) as [[t|]|m|].
  - cbn [trace ret fst]. rewrite !app_nil_r. now apply lastIs_app_r.
  - destruct (result (Worker.fetchAvailableTranscriptLangsAPI w videoId));
      try exact I. rewrite app_nil_r, app_assoc. now apply lastIs_app_r.
  - rewrite result_bind, trace_bind.
    cbn [result Worker.updatePopupStatus emit snd ret].
    destruct (result (Worker.fetchAvailableTranscriptLangsAPI w videoId));
      try exact I. rewrite !app_assoc. now apply lastIs_app_r.
  - exact I.
Qed.

Lemma getTranscript_reports (w : World) :
  lastIs reports (trace (Router.getTranscript w)) = true.
Proof.
  unfold Router.getTranscript.
  rewrite trace_tryCatch, !trace_bind, !result_bind.
  cbn [result Worker.updatePopupStatus emit snd].
  pose proof (getVideoIdFromTab_ends w) as He.
  destruct (result (Worker.getVideoIdFromTab w)) as [v|m|]; [| |contradiction].
  - rewrite trace_bind, result_bind.
    pose proof (fetchTranscriptFromPage_reports w v Tracks.defaultLangPrefs) as Hf.
    pose proof (fetchTranscriptFromPage_one w v Tracks.defaultLangPrefs) as Ho.
    unfold Expected.oneIfReturned in Ho.
    destruct (result (Worker.fetchTranscriptFromPage w v Tracks.defaultLangPrefs))
      as [x|m|]; [| |contradiction].
    + cbn [trace ret fst]. rewrite !app_nil_r, !app_assoc.
      now apply lastIs_app_r.
    + apply lastIs_app_r. reflexivity.
  - apply lastIs_app_r. reflexivity.
Qed.

Lemma performFactCheck_settles (w : World) (text : string) :
  match result (Worker.performFactCheck JSON_parse typeErrorMessage w text) with
  | Returned _ =>
      lastIs settles
        (trace (Worker.performFactCheck JSON_parse typeErrorMessage w text)) = true
  | Thrown _ => True
  | Pending => False
  end.
Proof.
  unfold Worker.performFactCheck.
  destruct (snd (Worker.loadAPIKeys w)) as [k|]; [|exact I].
  destruct (generate w 0) as [m|s st e|[m|g]]; try exact I.
  unfold Worker.parsedResultOf.
  destruct (Json.truthy (Worker.textOf g)).
  - destruct (JSON_parse (Json.toStringVal (Worker.textOf g))) as [[| | | | |]|];
      first [exact I | reflexivity].
  - destruct (Worker.contentOf g) as [[| | | | |]|]; first [exact I | reflexivity].
Qed.

Lemma factCheckSelection_settles (w : World) (text : string) :
  lastIs settles (trace (Router.factCheckSelection JSON_parse typeErrorMessage w text))
  = true.
Proof.
  unfold Router.factCheckSelection.
  rewrite trace_tryCatch, !trace_bind, !result_bind.
  pose proof (performFactCheck_settles w text) as H.
  destruct (result (Worker.performFactCheck JSON_parse typeErrorMessage w text))
    as [x|m|]; [| |contradiction].
  - cbn [trace ret fst]. now rewrite !app_nil_r.
  - apply lastIs_app_r. reflexivity.
Qed.

Lemma fetchAndAnalyzeComments_settles (w : World) (videoId : string)
    (maxResults fuel : nat) :
  match result (Worker.fetchAndAnalyzeComments JSON_parse fuel w videoId maxResults)
  with
  | Returned _ =>
      lastIs settles
        (trace (Worker.fetchAndAnalyzeComments JSON_parse fuel w videoId maxResults))
      = true
  | _ => True
  end.
Proof.
  unfold Worker.fetchAndAnalyzeComments.
  destruct (Worker.loadAPIKeys w) as [[y|] [g|]]; try exact I.
  cbv beta iota.
  rewrite trace_bind, result_bind.
  cbn [result Worker.updatePopupStatus emit snd].
  rewrite trace_tryCatch, result_tryCatch, trace_bind, result_bind.
  destruct (result (Worker.fetchPages fuel w videoId y maxResults 0 [] 0 None))
    as [[cs fc]|m|]; try exact I.
  destruct cs as [|c cs].
  - rewrite app_nil_r, !app_assoc. apply lastIs_app_r. reflexivity.
  - cbv beta iota. rewrite !trace_bind, !result_bind.
    cbn [result Worker.updatePopupStatus emit snd].
    destruct (result (Worker.batchLoop JSON_parse (length (c :: cs)) w g (c :: cs) 0 0
                        ([], Worker.noCounts))) as [[a k]|m|]; try exact I.
    rewrite app_nil_r, !app_assoc. apply lastIs_app_r. reflexivity.
Qed.

Lemma analyzeComments_settles (w : World) (fuel : nat) :
  result (Router.analyzeComments JSON_parse fuel w) <> Pending ->
  lastIs settles (trace (Router.analyzeComments JSON_parse fuel w)) = true.
Proof.
  unfold Router.analyzeComments.
  rewrite trace_tryCatch, result_tryCatch, !trace_bind, !result_bind.
  cbn [result Worker.updatePopupStatus emit snd].
  destruct (result (Worker.getVideoIdFromTab w)) as [v|m|]; [| |contradiction].
  - rewrite trace_bind, result_bind.
    pose proof (fetchAndAnalyzeComments_settles w v Router.defaultMaxResults fuel) as Hf.
    destruct (result (Worker.fetchAndAnalyzeComments JSON_parse fuel w v
                        Router.defaultMaxResults)) as [x|m|]; [| |contradiction].
    + intros _. cbn [trace ret fst]. rewrite !app_nil_r, !app_assoc.
      now apply lastIs_app_r.
    + intros _. apply lastIs_app_r. reflexivity.
  - intros _. apply lastIs_app_r. reflexivity.
Qed.

End OperationsSettle.

(** X4.  A transcript request and a fact check leave the popup idle once
    their messages are delivered, whatever state it was in and whatever the
    world answered; so does a comment analysis that has ended. *)
Theorem popup_idle_after_operation
    (JSON_parse : string -> option Json.json) (typeErrorMessage : string)
    (w : Msg.World) (st : Popup.State) :
  Popup.isProcessing (Popup.deliver (Async.trace (Router.getTranscript w)) st)
  = false
  /\ (forall text : string,
        Popup.isProcessing
          (Popup.deliver
             (Async.trace (Router.factCheckSelection JSON_parse typeErrorMessage w text))
             st)
        = false)
  /\ (forall fuel : nat,
        Async.result (Router.analyzeComments JSON_parse fuel w) <> Async.Pending ->
        Popup.isProcessing
          (Popup.deliver (Async.trace (Router.analyzeComments JSON_parse fuel w)) st)
        = false).
Proof.
  repeat split.
  - apply deliver_idle. apply (lastIs_weaken Popup.reports Popup.settles).
    + exact reports_settles.
    + apply getTranscript_reports.
  - intros text. apply deliver_idle, factCheckSelection_settles.
  - intros fuel H. now apply deliver_idle, analyzeComments_settles.
Qed.


(** ** More on the comment analyzer *)

Section Pagination.
Import Msg Async Worker.

Variable w : World.
Variables videoId youtubeKey : string.
Variable maxResults : nat.

(** The count kept by the loop is the number of comments gathered, and
    what was gathered before a request stays in front. *)
Lemma fetchPages_counts (fuel : nat) :
  forall n comments fetchedCount tok comments' fetchedCount',
    fetchedCount = length comments ->
    result (fetchPages fuel w videoId youtubeKey maxResults n comments
              fetchedCount tok)
    = Returned (comments', fetchedCount') ->
    fetchedCount' = length comments'
    /\ exists more, comments' = comments ++ more.
Proof.
  induction fuel as [|fuel IH]; intros n cs fc tok cs' fc' Hfc; [discriminate|].
  cbn [fetchPages]. rewrite !result_bind.
  cbn [result updatePopupStatus emit snd].
  destruct (commentThreads w n) as [m|s st [m|e]|[m|p]]; try discriminate.
  destruct (items p) as [l|].
  - destruct (Js.truthy_opt (nextPageToken p) && _)%bool.
    + intros H. apply IH in H; [|now rewrite length_app, length_map, Hfc].
      destruct H as [H1 [more H2]]. split; [exact H1|].
      exists (map toComment l ++ more). now rewrite app_assoc.
    + intros [= <- <-]. split; [now rewrite length_app, length_map, Hfc|].
      now exists (map toComment l).
  - destruct (Js.truthy_opt (nextPageToken p) && _)%bool.
    + intros H. now apply IH in H.
    + intros [= <- <-]. split; [exact Hfc|]. exists []. now rewrite app_nil_r.
Qed.

(** A page is requested only while fewer than [maxResults] comments are
    held, so pages of at most 100 comments overshoot by less than 100. *)
Lemma fetchPages_bound (fuel : nat) :
  (forall n p, commentThreads w n = Succeeded (inr p) -> Observed.pageSize p <= 100) ->
  forall n comments fetchedCount tok comments' fetchedCount',
    fetchedCount < maxResults ->
    result (fetchPages fuel w videoId youtubeKey maxResults n comments
              fetchedCount tok)
    = Returned (comments', fetchedCount') ->
    fetchedCount' < maxResults + 100.
Proof.
  intros Hp.
  induction fuel as [|fuel IH]; intros n cs fc tok cs' fc' Hfc; [discriminate|].
  cbn [fetchPages]. rewrite !result_bind.
  cbn [result updatePopupStatus emit snd].
  destruct (commentThreads w n) as [m|s st [m|e]|[m|p]] eqn:E; try discriminate.
  specialize (Hp n p E). unfold Observed.pageSize in Hp.
  destruct (items p) as [l|].
  - destruct (Nat.ltb_spec (fc + length l) maxResults) as [Hlt|Hge].
    + destruct (Js.truthy_opt (nextPageToken p)); cbn [andb].
      * intros H. now apply IH in H.
      * intros [= <- <-]. lia.
    + rewrite andb_false_r. intros [= <- <-]. lia.
  - destruct (Nat.ltb_spec fc maxResults) as [Hlt|Hge].
    + destruct (Js.truthy_opt (nextPageToken p)); cbn [andb].
      * intros H. now apply IH in H.
      * intros [= <- <-]. lia.
    + rewrite andb_false_r. intros [= <- <-]. lia.
Qed.

End Pagination.

(** X5.  When the pagination returns, the count it reports is the number
    of comments it gathered; and against an endpoint whose pages hold at
    most 100 comments it gathers fewer than [maxResults] + 100. *)
Theorem pagination_counts_and_stops
    (fuel : nat) (w : Msg.World) (videoId youtubeKey : string) (maxResults : nat)
    (comments : list Msg.Comment) (fetchedCount : nat) :
  0 < maxResults ->
  Async.result
    (Worker.fetchPages fuel w videoId youtubeKey maxResults 0 [] 0 None)
  = Async.Returned (comments, fetchedCount) ->
  fetchedCount = length comments
  /\ ((forall n p, Msg.commentThreads w n = Msg.Succeeded (inr p) ->
         Observed.pageSize p <= 100) ->
      length comments < maxResults + 100).
Proof.
  intros Hm H.
  destruct (fetchPages_counts w videoId youtubeKey maxResults fuel 0 [] 0 None
              comments fetchedCount eq_refl H) as [Hc _].
  split; [exact Hc|]. intros Hp. rewrite <- Hc.
  exact (fetchPages_bound w videoId youtubeKey maxResults fuel Hp 0 [] 0 None
           comments fetchedCount Hm H).
Qed.

Lemma pagination_counts_and_stops_witness :
  2 = length [Samples.great; Samples.bad]
  /\ ((forall n p,
         Msg.commentThreads (Samples.world Samples.twoItems (Msg.Rejected "offline")) n
         = Msg.Succeeded (inr p) ->
         Observed.pageSize p <= 100) ->
      length [Samples.great; Samples.bad] < 50 + 100).
Proof.
  apply (pagination_counts_and_stops 1
           (Samples.world Samples.twoItems (Msg.Rejected "offline"))
           "abc123" "yt-key" 50 [Samples.great; Samples.bad] 2).
  - lia.
  - reflexivity.
Defined.


Section SampleOrigin.
Import Msg Async Json Worker Observed.

Variable JSON_parse : string -> option json.

Lemma In_slice {A : Type} (i j : nat) (l : list A) (x : A) :
  In x (slice i j l) -> In x l.
Proof.
  unfold slice. intros H.
  assert (Hs : In x (skipn i l)).
  { rewrite <- (firstn_skipn (j - i) (skipn i l)). apply in_or_app. now left. }
  rewrite <- (firstn_skipn i l). apply in_or_app. now right.
Qed.

Lemma sampleFrom_app (comments : list Comment) (s1 s2 : list AnalyzedComment) :
  sampleFrom comments s1 -> sampleFrom comments s2 ->
  sampleFrom comments (s1 ++ s2).
Proof.
  intros H1 H2 a Ha. apply in_app_or in Ha as [Ha|Ha]; auto.
Qed.

Lemma classify_from (comments batch : list Comment) (sentiments : list json) :
  (forall c, In c batch -> In c comments) ->
  forall st, sampleFrom comments (fst st) ->
             sampleFrom comments (fst (fst (classify batch sentiments st))).
Proof.
  intros Hb. induction sentiments as [|r rest IH]; intros st H; [exact H|].
  cbn [classify].
  assert (Hpush : forall oc s, In oc batch ->
            sampleFrom comments (fst st ++ [mkAnalyzed oc s])).
  { intros oc s Hoc. apply sampleFrom_app; [exact H|].
    intros a [<-|[]]. cbn [comment]. now apply Hb. }
  destruct r; try exact H;
    (destruct (find _ batch) as [oc|] eqn:Ef; [|now apply IH]);
    apply find_some in Ef as [Hoc _];
    match goal with
    | |- context [if ?b then _ else _] => destruct b
    end;
    try exact H.
  all: try (apply IH; cbn [fst]; now apply Hpush).
  all: match goal with
       | |- context [match ?x with _ => _ end] => destruct x as [[| | | | |]|]
       end; try exact H; apply IH; cbn [fst]; now apply Hpush.
Qed.

Lemma allNeutral_from (comments batch : list Comment) (st : BatchState) :
  (forall c, In c batch -> In c comments) ->
  sampleFrom comments (fst st) ->
  sampleFrom comments (fst (allNeutral batch st)).
Proof.
  intros Hb H. cbn [allNeutral fst]. apply sampleFrom_app; [exact H|].
  intros a Ha. apply in_map_iff in Ha as [c [<- Hc]]. cbn [comment]. now apply Hb.
Qed.

Lemma applyReply_from (comments batch : list Comment) (g : json) (st : BatchState) :
  (forall c, In c batch -> In c comments) ->
  sampleFrom comments (fst st) ->
  sampleFrom comments (fst (applyReply JSON_parse batch g st)).
Proof.
  intros Hb H. unfold applyReply.
  destruct (JSON_parse (responseTextOf g)) as [[| | | |l|]|]; try exact H.
  - pose proof (classify_from comments batch l Hb st H) as Hc.
    destruct (classify batch l st) as [st' [|]]; cbn [fst] in Hc;
      [now apply allNeutral_from | exact Hc].
  - now apply allNeutral_from.
Qed.

Lemma batchLoop_from (w : World) (key : string) (comments : list Comment)
    (fuel : nat) :
  forall i n st st',
    sampleFrom comments (fst st) ->
    result (batchLoop JSON_parse fuel w key comments i n st) = Returned st' ->
    sampleFrom comments (fst st').
Proof.
  induction fuel as [|fuel IH]; intros i n st st' H; cbn [batchLoop];
    destruct (Nat.ltb i (length comments)); try discriminate;
    try (intros [= <-]; exact H).
  rewrite result_bind. unfold analyzeBatch at 1.
  destruct (generate w n) as [m|s t e|[m|g]]; cbn [bind emit throw ret result snd];
    try discriminate.
  - now apply IH.
  - apply IH. apply applyReply_from; [|exact H].
    intros c. apply In_slice.
Qed.

End SampleOrigin.

(** X6.  An analysis that is returned reports as [totalFetched] the number
    of comments the pagination gathered and as [totalAnalyzed] the length
    of its sample, and every entry of the sample is one of the gathered
    comments with a label added. *)
Theorem analysis_labels_fetched_comments
    (JSON_parse : string -> option Json.json) (fuel : nat) (w : Msg.World)
    (videoId : string) (maxResults : nat) (r : Msg.Analysis) :
  Async.result (Worker.fetchAndAnalyzeComments JSON_parse fuel w videoId maxResults)
  = Async.Returned (Some r) ->
  exists (youtubeKey : string) (comments : list Msg.Comment),
    Async.result
      (Worker.fetchPages fuel w videoId youtubeKey maxResults 0 [] 0 None)
    = Async.Returned (comments, Msg.totalFetched r)
    /\ Msg.totalFetched r = length comments
    /\ Msg.totalAnalyzed r = length (Msg.sampleAnalyzedComments r)
    /\ Observed.sampleFrom comments (Msg.sampleAnalyzedComments r).
Proof.
  unfold Worker.fetchAndAnalyzeComments.
  destruct (Worker.loadAPIKeys w) as [[y|] [g|]]; try discriminate.
  cbv beta iota. rewrite result_bind.
  cbn [Async.result Worker.updatePopupStatus Async.emit snd].
  rewrite result_tryCatch, result_bind.
  destruct (Async.result (Worker.fetchPages fuel w videoId y maxResults 0 [] 0 None))
    as [[cs fc]|m|] eqn:Ep; [| |discriminate].
  - destruct cs as [|c cs]; [discriminate|].
    cbv beta iota. rewrite !result_bind.
    cbn [Async.result Worker.updatePopupStatus Async.emit snd].
    pose proof (batchLoop_from JSON_parse w g (c :: cs) (length (c :: cs)) 0 0
                  ([], Worker.noCounts)) as Hb.
    destruct (Async.result
                (Worker.batchLoop JSON_parse (length (c :: cs)) w g (c :: cs) 0 0
                   ([], Worker.noCounts))) as [[a k]|m|]; try discriminate.
    specialize (Hb (a, k) ltac:(intros x []) eq_refl). cbn [fst] in Hb.
    intros [= <-]. exists y, (c :: cs). cbn [Msg.totalFetched Msg.totalAnalyzed
      Msg.sampleAnalyzedComments].
    destruct (fetchPages_counts w videoId y maxResults fuel 0 [] 0 None (c :: cs) fc
                eq_refl Ep) as [Hc _].
    repeat split; auto.
  - discriminate.
Qed.

Lemma analysis_labels_fetched_comments_witness :
  exists (youtubeKey : string) (comments : list Msg.Comment),
    Async.result
      (Worker.fetchPages 1 MoreSamples.judged "abc123" youtubeKey 50 0 [] 0 None)
    = Async.Returned (comments, 2)
    /\ 2 = length comments
    /\ 2 = length [Msg.mkAnalyzed Samples.great "positive";
                   Msg.mkAnalyzed Samples.bad "negative"]
    /\ Observed.sampleFrom comments
         [Msg.mkAnalyzed Samples.great "positive";
          Msg.mkAnalyzed Samples.bad "negative"].
Proof.
  exact (analysis_labels_fetched_comments Json.parse 1 MoreSamples.judged
           "abc123" 50
           (Msg.mkAnalysis 2 2 (Msg.mkCounts 1 1 0 [])
              [Msg.mkAnalyzed Samples.great "positive";
               Msg.mkAnalyzed Samples.bad "negative"])
           eq_refl).
Defined.


Section Correlation.
Import Msg Async Json Worker Observed.

Lemma find_by_id (batch : list Comment) (c : Comment) :
  NoDup (map id batch) -> In c batch ->
  find (fun c' => String.eqb (id c') (id c)) batch = Some c.
Proof.
  induction batch as [|c0 batch IH]; intros Hnd Hin; [contradiction|].
  cbn [map] in Hnd. apply NoDup_cons_iff in Hnd as [Hc0 Hnd]. cbn [find].
  destruct (String.eqb_spec (id c0) (id c)) as [E|E].
  - destruct Hin as [->|Hin]; [reflexivity|].
    exfalso. apply Hc0. rewrite E. now apply in_map.
  - destruct Hin as [->|Hin]; [contradiction|]. now apply IH.
Qed.

(** Counting a label that is one of the three counters moves that counter
    alone. *)
Lemma count_counter (c : SentimentCounts) (s : string) :
  mem s counterKeys = true ->
  positive (count c s) = positive c + (if String.eqb s "positive" then 1 else 0)
  /\ negative (count c s) = negative c + (if String.eqb s "negative" then 1 else 0)
  /\ neutral (count c s) = neutral c + (if String.eqb s "neutral" then 1 else 0).
Proof.
  unfold count, defined, increment. intros H. rewrite H. cbn [orb].
  unfold mem, counterKeys in H. cbn [existsb] in H.
  destruct (String.eqb s "positive") eqn:E1;
    [apply String.eqb_eq in E1; subst s; cbn; lia|].
  destruct (String.eqb s "negative") eqn:E2;
    [apply String.eqb_eq in E2; subst s; cbn; lia|].
  destruct (String.eqb s "neutral") eqn:E3;
    [apply String.eqb_eq in E3; subst s; cbn; lia|].
  discriminate.
Qed.

(** The sample and the counts after a reply that answers the comments
    [cs] of the batch with the labels [labels], in that order. *)
Lemma classify_answers (batch : list Comment) :
  NoDup (map id batch) ->
  forall (pairs : list (Comment * string)) (st : BatchState),
    (forall p, In p pairs -> In (fst p) batch) ->
    classify batch (map (fun p => answer (fst p) (snd p)) pairs) st
    = ((fst st ++ map (fun p => mkAnalyzed (fst p) (storedLabel (snd p))) pairs,
        fold_left (fun k p => count k (storedLabel (snd p))) pairs (snd st)),
       false).
Proof.
  intros Hnd. induction pairs as [|[c lab] pairs IH]; intros st Hin.
  - cbn. rewrite app_nil_r. now destruct st.
  - cbn [map fst snd classify answer].
    change (optProp (Some (answer c lab)) "id") with (Some (JStr (id c))).
    change (optProp (Some (answer c lab)) "sentiment") with (Some (JStr lab)).
    cbn [idIs].
    rewrite (find_by_id batch c Hnd (Hin (c, lab) (or_introl eq_refl))).
    cbn [truthy].
    destruct (Js.truthy_str lab) eqn:Et.
    + rewrite IH by (intros p Hp; apply Hin; now right).
      cbn [fst snd fold_left]. unfold storedLabel. rewrite Et.
      now rewrite <- app_assoc.
    + rewrite IH by (intros p Hp; apply Hin; now right).
      cbn [fst snd fold_left]. unfold storedLabel. rewrite Et.
      now rewrite <- app_assoc.
Qed.

Lemma fold_count_counters (pairs : list (Comment * string)) :
  forall c : SentimentCounts,
    (forall p, In p pairs -> mem (storedLabel (snd p)) counterKeys = true) ->
    positive (fold_left (fun k p => count k (storedLabel (snd p))) pairs c)
    = positive c + labelled "positive" (map snd pairs)
    /\ negative (fold_left (fun k p => count k (storedLabel (snd p))) pairs c)
       = negative c + labelled "negative" (map snd pairs)
    /\ neutral (fold_left (fun k p => count k (storedLabel (snd p))) pairs c)
       = neutral c + labelled "neutral" (map snd pairs).
Proof.
  unfold labelled.
  induction pairs as [|[oc lab] pairs IH]; intros c H; [cbn; lia|].
  cbn [fold_left map filter snd].
  destruct (IH (count c (storedLabel lab))
              (fun p Hp => H p (or_intror Hp))) as (H1 & H2 & H3).
  destruct (count_counter c (storedLabel lab) (H (oc, lab) (or_introl eq_refl)))
    as (C1 & C2 & C3).
  rewrite H1, H2, H3, C1, C2, C3.
  destruct (String.eqb (storedLabel lab) "positive");
    destruct (String.eqb (storedLabel lab) "negative");
    destruct (String.eqb (storedLabel lab) "neutral"); cbn [length]; lia.
Qed.

End Correlation.


(** X7.  When the reply parses to an array that answers comments of the
    batch by their ids with labels of ASCII characters, the ids of the
    batch being distinct, every answer is attributed to the comment with
    that id: the sample grows by these comments in the order of the reply,
    each with its label in lower case (["neutral"] for an empty label); and
    when every label is one of the three sentiments, each count grows by
    the number of answers with that label. *)
Theorem answers_are_attributed_by_id
    (JSON_parse : string -> option Json.json) (batch : list Msg.Comment)
    (geminiResult : Json.json) (pairs : list (Msg.Comment * string))
    (st : Worker.BatchState) :
  NoDup (map Msg.id batch) ->
  (forall p, In p pairs -> In (fst p) batch) ->
  (forall p, In p pairs -> Js.isAscii (snd p) = true) ->
  JSON_parse (Worker.responseTextOf geminiResult)
  = Some (Json.JArr (map (fun p => Observed.answer (fst p) (snd p)) pairs)) ->
  fst (Worker.applyReply JSON_parse batch geminiResult st)
  = fst st ++ map (fun p => Msg.mkAnalyzed (fst p) (Observed.storedLabel (snd p))) pairs
  /\ ((forall p, In p pairs ->
         Worker.mem (Observed.storedLabel (snd p)) Worker.counterKeys = true) ->
      Msg.positive (snd (Worker.applyReply JSON_parse batch geminiResult st))
      = Msg.positive (snd st) + Observed.labelled "positive" (map snd pairs)
      /\ Msg.negative (snd (Worker.applyReply JSON_parse batch geminiResult st))
         = Msg.negative (snd st) + Observed.labelled "negative" (map snd pairs)
      /\ Msg.neutral (snd (Worker.applyReply JSON_parse batch geminiResult st))
         = Msg.neutral (snd st) + Observed.labelled "neutral" (map snd pairs)).
Proof.
  intros Hnd Hin _ Hp. unfold Worker.applyReply. rewrite Hp.
  rewrite (classify_answers batch Hnd pairs st Hin). cbn [fst snd].
  split; [reflexivity|]. intros Hl. now apply fold_count_counters.
Qed.

Lemma answers_are_attributed_by_id_witness :
  fst (Worker.applyReply Json.parse [Samples.great; Samples.bad]
         (Samples.envelope (Json.JStr MoreSamples.twoVerdicts)) ([], Worker.noCounts))
  = [Msg.mkAnalyzed Samples.great "positive"; Msg.mkAnalyzed Samples.bad "negative"]
  /\ Msg.positive
       (snd (Worker.applyReply Json.parse [Samples.great; Samples.bad]
               (Samples.envelope (Json.JStr MoreSamples.twoVerdicts))
               ([], Worker.noCounts))) = 1
  /\ Msg.negative
       (snd (Worker.applyReply Json.parse [Samples.great; Samples.bad]
               (Samples.envelope (Json.JStr MoreSamples.twoVerdicts))
               ([], Worker.noCounts))) = 1
  /\ Msg.neutral
       (snd (Worker.applyReply Json.parse [Samples.great; Samples.bad]
               (Samples.envelope (Json.JStr MoreSamples.twoVerdicts))
               ([], Worker.noCounts))) = 0.
Proof.
  destruct (answers_are_attributed_by_id Json.parse [Samples.great; Samples.bad]
              (Samples.envelope (Json.JStr MoreSamples.twoVerdicts))
              [(Samples.great, "POSITIVE"); (Samples.bad, "negative")]
              ([], Worker.noCounts)
              ltac:(constructor;
                      [simpl; intros [H|[]]; discriminate
                      |constructor; [simpl; intros []|constructor]])
              ltac:(intros p [<-|[<-|[]]]; simpl; auto)
              ltac:(intros p [<-|[<-|[]]]; reflexivity)
              eq_refl) as [Hsample Hcounts].
  split; [exact Hsample|].
  exact (Hcounts ltac:(intros p [<-|[<-|[]]]; reflexivity)).
Defined.

Section Unmatched.
Import Msg Json Worker.

Lemma find_all_false {A : Type} (f : A -> bool) (l : list A) :
  (forall x, In x l -> f x = false) -> find f l = None.
Proof.
  induction l as [|x l IH]; intros H; [reflexivity|]. cbn [find].
  rewrite (H x (or_introl eq_refl)). apply IH. intros y Hy. apply H. now right.
Qed.

Lemma classify_unmatched (batch : list Comment) (sentiments : list json) :
  forall st,
    (forall r, In r sentiments ->
       r <> JNull
       /\ forall c, In c batch -> idIs (optProp (Some r) "id") (id c) = false) ->
    classify batch sentiments st = (st, false).
Proof.
  induction sentiments as [|r rest IH]; intros st H; [reflexivity|].
  destruct (H r (or_introl eq_refl)) as [Hn Hf].
  assert (IH' : classify batch rest st = (st, false))
    by (apply IH; intros r' Hr'; apply H; now right).
  cbn [classify]. rewrite (find_all_false _ batch Hf).
  destruct r; try exact IH'. contradiction.
Qed.

End Unmatched.

(** X8.  Entries of the reply array whose id is the id of no comment of the
    batch are dropped: when no entry matches (and none is [null]), the
    batch adds nothing to the sample or the counts. *)
Theorem unmatched_entries_are_dropped
    (JSON_parse : string -> option Json.json) (batch : list Msg.Comment)
    (geminiResult : Json.json) (sentiments : list Json.json)
    (st : Worker.BatchState) :
  JSON_parse (Worker.responseTextOf geminiResult) = Some (Json.JArr sentiments) ->
  (forall r, In r sentiments ->
     r <> Json.JNull
     /\ forall c, In c batch ->
                  Worker.idIs (Json.optProp (Some r) "id") (Msg.id c) = false) ->
  Worker.applyReply JSON_parse batch geminiResult st = st.
Proof.
  intros Hp H. unfold Worker.applyReply. rewrite Hp.
  now rewrite (classify_unmatched batch sentiments st H).
Qed.

Lemma unmatched_entries_are_dropped_witness :
  Worker.applyReply Json.parse [Samples.great; Samples.bad]
    (Samples.envelope (Json.JStr (Samples.verdictText "3" "positive")))
    ([], Worker.noCounts)
  = ([], Worker.noCounts).
Proof.
  apply (unmatched_entries_are_dropped Json.parse [Samples.great; Samples.bad]
           (Samples.envelope (Json.JStr (Samples.verdictText "3" "positive")))
           [Observed.answer (Msg.mkComment "3" EmptyString) "positive"]).
  - reflexivity.
  - intros r [<-|[]]. split; [discriminate|].
    intros c [<-|[<-|[]]]; reflexivity.
Defined.


Section LowerCase.
Import Msg Async Json Worker Expected Observed.

Variable JSON_parse : string -> option json.

Lemma lowerCased_classify (batch : list Comment) (sentiments : list json) :
  forall st, lowerCased st -> lowerCased (fst (classify batch sentiments st)).
Proof.
  induction sentiments as [|r rest IH]; intros st H; [exact H|].
  cbn [classify].
  assert (Hpush : forall oc x,
            lowerCased (fst st ++ [mkAnalyzed oc (toLowerCase x)],
                        count (snd st) (toLowerCase x))).
  { intros oc x a Ha. cbn [fst] in Ha. apply in_app_or in Ha as [Ha|[<-|[]]];
      [now apply H | apply toLowerCase_not_upper]. }
  destruct r; try exact H;
    (destruct (find _ batch) as [oc|]; [|now apply IH]);
    match goal with
    | |- context [if ?b then _ else _] => destruct b
    end;
    try exact H.
  all: try (apply IH; now apply Hpush).
  all: match goal with
       | |- context [match ?x with _ => _ end] => destruct x as [[| | | | |]|]
       end; try exact H; apply IH; now apply Hpush.
Qed.

Lemma lowerCased_neutral (batch : list Comment) (st : BatchState) :
  lowerCased st -> lowerCased (allNeutral batch st).
Proof.
  intros H a Ha. cbn [allNeutral fst] in Ha.
  apply in_app_or in Ha as [Ha|Ha]; [now apply H|].
  apply in_map_iff in Ha as [c [<- _]]. reflexivity.
Qed.

Lemma lowerCased_applyReply (batch : list Comment) (g : json) (st : BatchState) :
  lowerCased st -> lowerCased (applyReply JSON_parse batch g st).
Proof.
  intros H. unfold applyReply.
  destruct (JSON_parse (responseTextOf g)) as [[| | | |l|]|]; try exact H.
  - pose proof (lowerCased_classify batch l st H) as Hc.
    destruct (classify batch l st) as [st' [|]]; cbn [fst] in Hc;
      [now apply lowerCased_neutral | exact Hc].
  - now apply lowerCased_neutral.
Qed.

Lemma lowerCased_batchLoop (w : World) (key : string) (comments : list Comment)
    (fuel : nat) :
  forall i n st st',
    lowerCased st ->
    result (batchLoop JSON_parse fuel w key comments i n st) = Returned st' ->
    lowerCased st'.
Proof.
  induction fuel as [|fuel IH]; intros i n st st' H; cbn [batchLoop];
    destruct (Nat.ltb i (length comments)); try discriminate;
    try (intros [= <-]; exact H).
  rewrite result_bind. unfold analyzeBatch at 1.
  destruct (generate w n) as [m|s t e|[m|g]]; cbn [bind emit throw ret result snd];
    try discriminate.
  - now apply IH.
  - apply IH. now apply lowerCased_applyReply.
Qed.

(** Among labels without capitals the inherited names are the two written
    that way. *)
Lemma inherited_without_capitals (a : AnalyzedComment) :
  hasUpper (sentiment a) = false -> inheritedLabel a = namesInherited a.
Proof.
  unfold inheritedLabel, namesInherited, mem, objectPrototypeKeys.
  generalize (sentiment a) as k. intros k Hu. cbn [existsb].
  repeat match goal with
         | |- context [String.eqb k ?key] =>
             lazymatch key with
             | "constructor" => fail
             | "__proto__" => fail
             | _ =>
                 let E := fresh "E" in
                 destruct (String.eqb k key) eqn:E;
                 [apply String.eqb_eq in E; subst k; discriminate Hu|]
             end
         end.
  cbn [orb]. now rewrite orb_false_r.
Qed.

Lemma inheritedHits_lowerCased (sample : list AnalyzedComment) :
  (forall a, In a sample -> hasUpper (sentiment a) = false) ->
  inheritedHits sample = length (filter namesInherited sample).
Proof.
  unfold inheritedHits. intros H. f_equal. apply filter_ext_in.
  intros a Ha. now apply inherited_without_capitals, H.
Qed.

End LowerCase.

(** X9.  In every analysis that is returned, the analyzed total is the sum
    of the three counts plus the number of sample entries labeled
    ["constructor"] or ["__proto__"]; the labels of the sample hold no
    capital letter. *)
Theorem analyzed_total_is_counts_plus_inherited
    (JSON_parse : string -> option Json.json) (fuel : nat) (w : Msg.World)
    (videoId : string) (maxResults : nat) (r : Msg.Analysis) :
  Async.result (Worker.fetchAndAnalyzeComments JSON_parse fuel w videoId maxResults)
  = Async.Returned (Some r) ->
  Msg.totalAnalyzed r
  = Expected.total (Msg.sentimentCounts r)
    + length (filter Observed.namesInherited (Msg.sampleAnalyzedComments r))
  /\ forall a, In a (Msg.sampleAnalyzedComments r) ->
               Expected.hasUpper (Msg.sentiment a) = false.
Proof.
  intros H.
  assert (Hl : forall a, In a (Msg.sampleAnalyzedComments r) ->
                         Expected.hasUpper (Msg.sentiment a) = false).
  { revert H. unfold Worker.fetchAndAnalyzeComments.
    destruct (Worker.loadAPIKeys w) as [[y|] [g|]]; try discriminate.
    cbv beta iota. rewrite result_bind.
    cbn [Async.result Worker.updatePopupStatus Async.emit snd].
    rewrite result_tryCatch, result_bind.
    destruct (Async.result (Worker.fetchPages fuel w videoId y maxResults 0 [] 0 None))
      as [[cs fc]|m|]; [| |discriminate].
    - destruct cs as [|c cs]; [discriminate|].
      cbv beta iota. rewrite !result_bind.
      cbn [Async.result Worker.updatePopupStatus Async.emit snd].
      pose proof (lowerCased_batchLoop JSON_parse w g (c :: cs) (length (c :: cs)) 0 0
                    ([], Worker.noCounts)) as Hb.
      destruct (Async.result
                  (Worker.batchLoop JSON_parse (length (c :: cs)) w g (c :: cs) 0 0
                     ([], Worker.noCounts))) as [[a k]|m|]; try discriminate.
      specialize (Hb (a, k) ltac:(intros x []) eq_refl).
      intros [= <-]. exact Hb.
    - discriminate. }
  split; [|exact Hl].
  rewrite (analysis_accounted JSON_parse w videoId maxResults fuel r H).
  now rewrite (inheritedHits_lowerCased (Msg.sampleAnalyzedComments r) Hl).
Qed.

Lemma analyzed_total_is_counts_plus_inherited_witness :
  1 = 0 + length (filter Observed.namesInherited
                    [Msg.mkAnalyzed Samples.great "constructor"]).
Proof.
  exact (proj1 (analyzed_total_is_counts_plus_inherited Json.parse 1
                  (Samples.world Samples.twoItems
                     (Msg.Succeeded
                        (inr (Samples.envelope
                                (Json.JStr (Samples.verdictText "1" "Constructor"))))))
                  "abc123" 50
                  (Msg.mkAnalysis 2 1 (Msg.mkCounts 0 0 0 ["constructor"])
                     [Msg.mkAnalyzed Samples.great "constructor"])
                  eq_refl)).
Defined.

Section EmptyAnalysis.
Import Msg Async Worker.

(** A trace that counts no result message holds none. *)
Lemma no_terminal_of_sent (l : list event) :
  Router.terminalCount l = 0 -> filter Router.isTerminal l = [].
Proof.
  unfold Router.terminalCount. now intros H%length_zero_iff_nil.
Qed.

End EmptyAnalysis.


(** X10.  When comments were gathered and every call to the classifier is
    answered with a failure status, the analyzer still returns an analysis,
    and the one result message it sends carries that analysis:
    [totalFetched] is the number gathered, [totalAnalyzed] is 0, the counts
    are 0 and the sample is empty. *)
Theorem all_calls_failed_reports_empty_analysis
    (JSON_parse : string -> option Json.json) (fuel : nat) (w : Msg.World)
    (videoId youtubeKey geminiKey : string) (maxResults : nat)
    (c : Msg.Comment) (cs : list Msg.Comment) (fetchedCount : nat) :
  Worker.loadAPIKeys w = (Some youtubeKey, Some geminiKey) ->
  Async.result
    (Worker.fetchPages fuel w videoId youtubeKey maxResults 0 [] 0 None)
  = Async.Returned (c :: cs, fetchedCount) ->
  (forall n, exists status statusText errorData,
     Msg.generate w n = Msg.Failed status statusText errorData) ->
  Async.result (Worker.fetchAndAnalyzeComments JSON_parse fuel w videoId maxResults)
  = Async.Returned (Some (Msg.mkAnalysis fetchedCount 0 Worker.noCounts []))
  /\ filter Router.isTerminal
       (Async.trace
          (Worker.fetchAndAnalyzeComments JSON_parse fuel w videoId maxResults))
     = [Msg.Display "displayCommentAnalysis"
          (Some (Msg.PAnalysis (Msg.mkAnalysis fetchedCount 0 Worker.noCounts [])))
          None]
  /\ Expected.sent
       (Worker.fetchAndAnalyzeComments JSON_parse fuel w videoId maxResults) = 1.
Proof.
  intros Hk Hp Hall.
  pose proof (batchLoop_all_failed JSON_parse w geminiKey (c :: cs) (length (c :: cs))
                Hall 0 0 ([], Worker.noCounts) (Nat.le_refl _)) as Hb.
  assert (Hr : Async.result
                 (Worker.fetchAndAnalyzeComments JSON_parse fuel w videoId maxResults)
               = Async.Returned (Some (Msg.mkAnalysis fetchedCount 0 Worker.noCounts []))).
  { unfold Worker.fetchAndAnalyzeComments. rewrite Hk.
    cbv beta iota. rewrite result_bind.
    cbn [Async.result Worker.updatePopupStatus Async.emit snd].
    rewrite result_tryCatch, result_bind, Hp.
    cbv beta iota. rewrite !result_bind.
    cbn [Async.result Worker.updatePopupStatus Async.emit snd].
    rewrite Hb. reflexivity. }
  split; [exact Hr|]. split.
  - unfold Worker.fetchAndAnalyzeComments. rewrite Hk.
    cbv beta iota. rewrite trace_bind.
    cbn [Async.result Async.trace Worker.updatePopupStatus Async.emit fst snd app].
    rewrite trace_tryCatch, result_bind, trace_bind, Hp.
    cbv beta iota. rewrite !result_bind, !trace_bind.
    cbn [Async.result Async.trace Worker.updatePopupStatus Async.emit fst snd app].
    rewrite Hb. cbv beta iota.
    rewrite !trace_bind.
    cbn [Async.result Async.trace Worker.updatePopupStatus Worker.sendDataToPopup
         Async.emit Async.ret fst snd app length Worker.payloadTruthy Worker.orNull
         Js.truthy_opt].
    cbn [Async.bind Async.ret Async.emit Async.result Worker.sendDataToPopup
         Worker.updatePopupStatus Worker.payloadTruthy Worker.orNull
         Js.truthy_opt fst snd].
    rewrite app_nil_r.
    change (filter Router.isTerminal (?e :: ?t)) with (filter Router.isTerminal t).
    rewrite filter_app.
    rewrite (no_terminal_of_sent _
               (fetchPages_sent w videoId youtubeKey maxResults fuel 0 [] 0 None)).
    cbn [app].
    change (filter Router.isTerminal (?e :: ?t)) with (filter Router.isTerminal t).
    rewrite filter_app.
    rewrite (no_terminal_of_sent _
               (batchLoop_sent JSON_parse w geminiKey (c :: cs)
                  (S (length cs)) 0 0 ([], Worker.noCounts))).
    reflexivity.
  - rewrite fetchAndAnalyzeComments_sent, Hk, Hr. reflexivity.
Qed.

Lemma all_calls_failed_reports_empty_analysis_witness :
  Async.result
    (Worker.fetchAndAnalyzeComments Json.parse 1
       (Samples.world Samples.twoItems (Msg.Failed 429 "Too Many Requests" (inl "no body")))
       "abc123" 50)
  = Async.Returned (Some (Msg.mkAnalysis 2 0 Worker.noCounts []))
  /\ filter Router.isTerminal
       (Async.trace
          (Worker.fetchAndAnalyzeComments Json.parse 1
             (Samples.world Samples.twoItems
                (Msg.Failed 429 "Too Many Requests" (inl "no body")))
             "abc123" 50))
     = [Msg.Display "displayCommentAnalysis"
          (Some (Msg.PAnalysis (Msg.mkAnalysis 2 0 Worker.noCounts []))) None]
  /\ Expected.sent
       (Worker.fetchAndAnalyzeComments Json.parse 1
          (Samples.world Samples.twoItems
             (Msg.Failed 429 "Too Many Requests" (inl "no body")))
          "abc123" 50) = 1.
Proof.
  apply (all_calls_failed_reports_empty_analysis Json.parse 1
           (Samples.world Samples.twoItems
              (Msg.Failed 429 "Too Many Requests" (inl "no body")))
           "abc123" "yt-key" "gm-key" 50 Samples.great [Samples.bad] 2).
  - reflexivity.
  - reflexivity.
  - intros n. exists 429, "Too Many Requests", (inl "no body"). reflexivity.
Defined.


(** X11.  The messages of a transcript request end with its one result
    message, which carries data or an error; once they are delivered the
    popup is idle and its transcript panel shows what that message carries:
    the text sent, or the error behind ["Error: "]. *)
Theorem popup_shows_transcript_outcome (w : Msg.World) (st : Popup.State) :
  exists (l : list Msg.event) (e : Msg.event),
    Async.trace (Router.getTranscript w) = l ++ [e]
    /\ Popup.reports e = true
    /\ Router.terminalCount l = 0
    /\ Popup.transcriptResult (Popup.deliver (Async.trace (Router.getTranscript w)) st)
       = Popup.TextContent (Popup.reportText e)
    /\ Popup.isProcessing (Popup.deliver (Async.trace (Router.getTranscript w)) st)
       = false.
Proof.
  destruct (lastIs_split Popup.reports _ (getTranscript_reports w)) as (l & e & E & He).
  exists l, e. pose proof (getTranscript_sent w) as Hs.
  unfold Expected.sent in Hs. rewrite E in *.
  repeat split; try exact He.
  - rewrite terminalCount_app in Hs.
    assert (Ht : Router.terminalCount [e] = 1).
    { pose proof (reports_settles e He) as Hse.
      destruct e as [m i p|action d er|u]; try discriminate.
      unfold Router.terminalCount. cbn [filter]. cbn [Popup.settles] in Hse.
      now rewrite Hse. }
    lia.
  - unfold Popup.deliver. rewrite fold_left_app. cbn [fold_left].
    destruct e as [m i p|action d er|u]; try discriminate.
    cbn [Popup.reports] in He. apply andb_true_iff in He as [Ha Hd].
    cbn [Popup.onEvent Popup.reportText]. rewrite Ha.
    destruct (Popup.truthyData d) as [x|]; [reflexivity|].
    destruct (Worker.orNull er) as [err|]; [reflexivity | discriminate].
  - unfold Popup.deliver. rewrite fold_left_app. cbn [fold_left].
    apply settles_idle. now apply reports_settles.
Qed.

(** X12.  Listing the caption tracks throws only when no platform key is
    stored, and then before any request.  With a key it issues one request
    and always returns: the message it also sends as data, or [null] after
    sending the failure as the error of its one result message. *)
Theorem caption_listing_throws_only_without_key (w : Msg.World) (videoId : string) :
  match fst (Worker.loadAPIKeys w) with
  | None =>
      Worker.fetchAvailableTranscriptLangsAPI w videoId
      = ([Msg.UpdateStatus "Fetching available caption languages via API..." false None],
         Async.Thrown "YouTube API Key not set in options.")
  | Some youtubeKey =>
      (exists message : string,
         Worker.fetchAvailableTranscriptLangsAPI w videoId
         = ([Msg.UpdateStatus "Fetching available caption languages via API..." false
               None;
             Msg.Request (Worker.captionsListUrl videoId youtubeKey);
             Msg.Display "displayTranscript" (Some (Msg.PText message)) None],
            Async.Returned (Some message)))
      \/ (exists m : string,
            Worker.fetchAvailableTranscriptLangsAPI w videoId
            = ([Msg.UpdateStatus "Fetching available caption languages via API..."
                  false None;
                Msg.Request (Worker.captionsListUrl videoId youtubeKey);
                Msg.Display "displayTranscript" None
                  (Some ("Transcript check via API failed: " ++ m)%string)],
               Async.Returned None))
  end.
Proof.
  unfold Worker.fetchAvailableTranscriptLangsAPI.
  destruct (fst (Worker.loadAPIKeys w)) as [k|]; [|reflexivity].
  destruct (Msg.captionsList w) as [m|s st [m|e]|[m|[[|c cs]|]]];
    try (right; eexists; reflexivity).
  left. eexists. reflexivity.
Qed.

(** X13.  The transcript fetcher returns the scraped transcript when the
    scrape yields one, without asking the captions endpoint; in every other
    case, be it that the page shows no tracks or that the scrape throws,
    it hands over to the caption listing, whose outcome is its own. *)
Theorem scrape_failure_falls_back_to_listing
    (w : Msg.World) (videoId : string) (langPrefs : list string) :
  match Async.result (Worker.scrape w videoId langPrefs) with
  | Async.Returned (Some fullTranscript) =>
      Worker.fetchTranscriptFromPage w videoId langPrefs
      = (Msg.UpdateStatus "Attempting to fetch transcript data from page..." false
           (Some true)
         :: Async.trace (Worker.scrape w videoId langPrefs),
         Async.Returned (Some fullTranscript))
  | Async.Returned None =>
      Worker.fetchTranscriptFromPage w videoId langPrefs
      = (Msg.UpdateStatus "Attempting to fetch transcript data from page..." false
           (Some true)
         :: Async.trace (Worker.scrape w videoId langPrefs)
            ++ Async.trace (Worker.fetchAvailableTranscriptLangsAPI w videoId),
         Async.result (Worker.fetchAvailableTranscriptLangsAPI w videoId))
  | Async.Thrown m =>
      Worker.fetchTranscriptFromPage w videoId langPrefs
      = (Msg.UpdateStatus "Attempting to fetch transcript data from page..." false
           (Some true)
         :: Async.trace (Worker.scrape w videoId langPrefs)
            ++ Msg.UpdateStatus
                 ("Transcript fetch from page failed: " ++ m
                    ++ ". Trying API list fallback...")%string true None
               :: Async.trace (Worker.fetchAvailableTranscriptLangsAPI w videoId),
         Async.result (Worker.fetchAvailableTranscriptLangsAPI w videoId))
  | Async.Pending => False
  end.
Proof.
  pose proof (scrape_sent w videoId langPrefs) as Hs.
  unfold Worker.fetchTranscriptFromPage.
  destruct (Worker.scrape w videoId langPrefs) as [l [[t|]|m|]];
    cbn [Async.result snd] in Hs |- *; try contradiction.
  - cbn. now rewrite app_nil_r.
  - cbn [Async.bind Async.tryCatch Worker.updatePopupStatus Async.emit Async.trace fst].
    destruct (Worker.fetchAvailableTranscriptLangsAPI w videoId) as [l' r].
    reflexivity.
  - cbn [Async.bind Async.tryCatch Worker.updatePopupStatus Async.emit Async.trace fst
         Async.ret app].
    destruct (Worker.fetchAvailableTranscriptLangsAPI w videoId) as [l' r].
    cbn [Async.trace Async.result fst snd]. now rewrite <- app_assoc.
Qed.


(** ** The operations as the listener starts them *)

Section Started.
Import Msg Async.

Variable JSON_parse : string -> option Json.json.
Variable typeErrorMessage : string.

Lemma requests_app (l l' : list event) :
  filter Router.isRequest (l ++ l')
  = filter Router.isRequest l ++ filter Router.isRequest l'.
Proof.
  apply filter_app.
Qed.

Lemma performFactCheck_requests (w : World) (text : string) :
  filter Router.isRequest
    (trace (Worker.performFactCheck JSON_parse typeErrorMessage w text))
  = match snd (Worker.loadAPIKeys w) with
    | Some geminiKey => [Request (Worker.geminiProUrl geminiKey)]
    | None => []
    end.
Proof.
  unfold Worker.performFactCheck.
  destruct (snd (Worker.loadAPIKeys w)) as [k|]; [|reflexivity].
  destruct (generate w 0) as [m|s st e|[m|g]]; try reflexivity.
  unfold Worker.parsedResultOf.
  destruct (Json.truthy (Worker.textOf g)).
  - destruct (JSON_parse (Json.toStringVal (Worker.textOf g))) as [[| | | | |]|];
      reflexivity.
  - destruct (Worker.contentOf g) as [[| | | | |]|]; reflexivity.
Qed.

Lemma analyzeComments_result (w : World) (fuel : nat) :
  result (Router.analyzeComments JSON_parse fuel w)
  = match result (Worker.getVideoIdFromTab w) with
    | Returned v =>
        match result (Worker.fetchAndAnalyzeComments JSON_parse fuel w v
                        Router.defaultMaxResults) with
        | Pending => Pending
        | _ => Returned tt
        end
    | _ => Returned tt
    end.
Proof.
  unfold Router.analyzeComments.
  rewrite result_tryCatch, !result_bind.
  cbn [result Worker.updatePopupStatus emit snd].
  pose proof (getVideoIdFromTab_ends w) as He.
  destruct (result (Worker.getVideoIdFromTab w)) as [v|m|];
    [|reflexivity|contradiction].
  rewrite result_bind.
  destruct (result (Worker.fetchAndAnalyzeComments JSON_parse fuel w v
                      Router.defaultMaxResults)); reflexivity.
Qed.

End Started.

(** X14.  A fact check issues exactly one request, to the classifier, and
    sends exactly one result message when the Gemini key is stored; without
    the key it issues no request and sends no result message. *)
Theorem fact_check_one_request_one_result
    (JSON_parse : string -> option Json.json) (typeErrorMessage : string)
    (w : Msg.World) (text : string) :
  match snd (Worker.loadAPIKeys w) with
  | Some geminiKey =>
      filter Router.isRequest
        (Async.trace (Router.factCheckSelection JSON_parse typeErrorMessage w text))
      = [Msg.Request (Worker.geminiProUrl geminiKey)]
      /\ Expected.sent (Router.factCheckSelection JSON_parse typeErrorMessage w text)
         = 1
  | None =>
      filter Router.isRequest
        (Async.trace (Router.factCheckSelection JSON_parse typeErrorMessage w text))
      = []
      /\ Expected.sent (Router.factCheckSelection JSON_parse typeErrorMessage w text)
         = 0
  end.
Proof.
  pose proof (factCheckSelection_sent JSON_parse typeErrorMessage w text) as Hs.
  pose proof (performFactCheck_requests JSON_parse typeErrorMessage w text) as Hr.
  assert (Hq : filter Router.isRequest
                 (Async.trace
                    (Router.factCheckSelection JSON_parse typeErrorMessage w text))
               = filter Router.isRequest
                   (Async.trace
                      (Worker.performFactCheck JSON_parse typeErrorMessage w text))).
  { unfold Router.factCheckSelection.
    rewrite trace_tryCatch, trace_bind, result_bind.
    destruct (Async.result (Worker.performFactCheck JSON_parse typeErrorMessage w text));
      rewrite !requests_app; cbn; now rewrite !app_nil_r. }
  rewrite Hq, Hr, Hs.
  destruct (snd (Worker.loadAPIKeys w)); split; reflexivity.
Qed.

(** X15.  A comment analysis that has ended has sent one result message or
    two: one when the analyzer returned, two when the analyzer threw with
    both keys stored, the error then being sent by the analyzer and again
    by the listener. *)
Theorem analysis_sends_one_or_two_results
    (JSON_parse : string -> option Json.json) (fuel : nat) (w : Msg.World) :
  Async.result (Router.analyzeComments JSON_parse fuel w) <> Async.Pending ->
  (Expected.sent (Router.analyzeComments JSON_parse fuel w) = 1
   \/ Expected.sent (Router.analyzeComments JSON_parse fuel w) = 2)
  /\ (forall v a,
        Async.result (Worker.getVideoIdFromTab w) = Async.Returned v ->
        Async.result
          (Worker.fetchAndAnalyzeComments JSON_parse fuel w v Router.defaultMaxResults)
        = Async.Returned a ->
        Expected.sent (Router.analyzeComments JSON_parse fuel w) = 1)
  /\ (forall v m y g,
        Async.result (Worker.getVideoIdFromTab w) = Async.Returned v ->
        Async.result
          (Worker.fetchAndAnalyzeComments JSON_parse fuel w v Router.defaultMaxResults)
        = Async.Thrown m ->
        Worker.loadAPIKeys w = (Some y, Some g) ->
        Expected.sent (Router.analyzeComments JSON_parse fuel w) = 2).
Proof.
  rewrite analyzeComments_result, analyzeComments_sent. intros Hend.
  assert (Hmiss : forall v,
            (fst (Worker.loadAPIKeys w) = None \/ snd (Worker.loadAPIKeys w) = None) ->
            exists m,
              Async.result
                (Worker.fetchAndAnalyzeComments JSON_parse fuel w v
                   Router.defaultMaxResults) = Async.Thrown m).
  { intros v Hk. unfold Worker.fetchAndAnalyzeComments.
    destruct (Worker.loadAPIKeys w) as [[y|] [g|]]; cbn [fst snd] in Hk;
      try (eexists; reflexivity).
    destruct Hk; discriminate. }
  destruct (Async.result (Worker.getVideoIdFromTab w)) as [v|m|].
  - destruct (Worker.loadAPIKeys w) as [[y|] [g|]] eqn:Ek.
    + destruct (Async.result
                  (Worker.fetchAndAnalyzeComments JSON_parse fuel w v
                     Router.defaultMaxResults)) as [a|m|] eqn:Er; try contradiction.
      * repeat split; auto. intros v' m' y' g' [= <-] H. congruence.
      * repeat split; auto. intros v' a' [= <-] H. congruence.
    + destruct (Hmiss v (or_intror eq_refl)) as [m Hm]. rewrite Hm.
      repeat split; auto.
      intros v' m' y' g' _ _ [=].
    + destruct (Hmiss v (or_introl eq_refl)) as [m Hm]. rewrite Hm.
      repeat split; auto.
      intros v' m' y' g' _ _ [=].
    + destruct (Hmiss v (or_introl eq_refl)) as [m Hm]. rewrite Hm.
      repeat split; auto.
      intros v' m' y' g' _ _ [=].
  - repeat split; auto; intros; discriminate.
  - repeat split; auto; intros; discriminate.
Qed.

Lemma analysis_sends_one_or_two_results_witness :
  Expected.sent
    (Router.analyzeComments Json.parse 1
       (Samples.withComments (fun _ => Samples.quotaExceeded)
          (Samples.world [] (Msg.Rejected "offline")))) = 1
  \/ Expected.sent
       (Router.analyzeComments Json.parse 1
          (Samples.withComments (fun _ => Samples.quotaExceeded)
             (Samples.world [] (Msg.Rejected "offline")))) = 2.
Proof.
  apply (analysis_sends_one_or_two_results Json.parse 1
           (Samples.withComments (fun _ => Samples.quotaExceeded)
              (Samples.world [] (Msg.Rejected "offline")))).
  discriminate.
Defined.

(** X16.  When the page yields no video id, a transcript request and a
    comment analysis issue no request at all: each tells the popup that it
    started, then reports the failure as status and as its one result
    message. *)
Theorem no_video_id_no_request
    (JSON_parse : string -> option Json.json) (fuel : nat) (w : Msg.World)
    (m : string) :
  Async.result (Worker.getVideoIdFromTab w) = Async.Thrown m ->
  Async.trace (Router.getTranscript w)
  = [Msg.UpdateStatus "Getting video details..." false (Some true);
     Msg.UpdateStatus ("Transcript Error: " ++ m)%string true (Some false);
     Msg.Display "displayTranscript" None (Some ("Error: " ++ m)%string)]
  /\ Async.trace (Router.analyzeComments JSON_parse fuel w)
     = [Msg.UpdateStatus "Getting video details for comments..." false (Some true);
        Msg.UpdateStatus ("Comments Error: " ++ m)%string true (Some false);
        Msg.Display "displayCommentAnalysis" None (Some ("Error: " ++ m)%string)]
  /\ exists cause : string, m = ("Failed to get video ID: " ++ cause)%string.
Proof.
  intros H.
  assert (Ht : Worker.getVideoIdFromTab w = ([], Async.Thrown m)
               /\ exists cause : string, m = ("Failed to get video ID: " ++ cause)%string).
  { revert H. unfold Worker.getVideoIdFromTab.
    destruct (Msg.injected w) as [c|[v|]]; [| destruct (Js.truthy_str v) |];
      try discriminate; intros [= <-]; (split; [reflexivity|]); eexists; reflexivity. }
  destruct Ht as [Ht Hc].
  unfold Router.getTranscript, Router.analyzeComments. rewrite Ht.
  repeat split; try reflexivity. exact Hc.
Qed.

Lemma no_video_id_no_request_witness :
  Async.trace
    (Router.getTranscript
       (Msg.mkWorld None (inr None) (Msg.Scraped None) (fun _ => Msg.Rejected "offline")
          (Msg.Rejected "offline") (fun _ => Msg.Rejected "offline")
          (fun _ => Msg.Rejected "offline")))
  = [Msg.UpdateStatus "Getting video details..." false (Some true);
     Msg.UpdateStatus
       "Transcript Error: Failed to get video ID: Could not extract video ID from URL."
       true (Some false);
     Msg.Display "displayTranscript" None
       (Some "Error: Failed to get video ID: Could not extract video ID from URL.")].
Proof.
  exact (proj1 (no_video_id_no_request Json.parse 1
                  (Msg.mkWorld None (inr None) (Msg.Scraped None)
                     (fun _ => Msg.Rejected "offline") (Msg.Rejected "offline")
                     (fun _ => Msg.Rejected "offline") (fun _ => Msg.Rejected "offline"))
                  "Failed to get video ID: Could not extract video ID from URL."
                  eq_refl)).
Defined.


(** ** The context menu and the buttons *)

Section Trim.
Import TimedText.

Lemma trimStart_length (s : string) : String.length (trimStart s) <= String.length s.
Proof.
  induction s as [|c r IH]; [apply Nat.le_refl|]. cbn [trimStart].
  destruct (isSpace c); cbn [String.length]; lia.
Qed.

Lemma trimEnd_length (s : string) : String.length (trimEnd s) <= String.length s.
Proof.
  induction s as [|c r IH]; [apply Nat.le_refl|]. cbn [trimEnd].
  destruct (trimEnd r) as [|c' r'].
  - destruct (isSpace c); cbn [String.length]; lia.
  - cbn [String.length] in *. lia.
Qed.

Lemma trim_length (s : string) : String.length (trim s) <= String.length s.
Proof.
  unfold trim. pose proof (trimEnd_length (trimStart s)).
  pose proof (trimStart_length s). lia.
Qed.

End Trim.

(** X17.  Let the selection be ASCII text.  A click sends a message on
    exactly when it is a click on the menu entry with a selection of one
    to 500 characters: the message asks for a fact check of the trimmed
    selection, which has at most 500 characters too, and the popup is told
    that processing starts.  For a longer selection nothing is sent on,
    and the popup gets an error status and one result message with the
    error; a click on another entry, or without a selection, does
    nothing. *)
Theorem context_menu_forwards_short_selections (info : ContextMenu.ClickInfo) :
  (forall selection : string,
     ContextMenu.selectionText info = Some selection ->
     Js.isAscii selection = true) ->
  (forall request : Router.Message,
     Async.result (ContextMenu.onClicked info) = Async.Returned (Some request) ->
     exists selection : string,
       ContextMenu.menuItemId info = "factCheckSelectedText"
       /\ ContextMenu.selectionText info = Some selection
       /\ selection <> EmptyString
       /\ String.length selection <= 500
       /\ request
          = Router.mkMessage "factCheckSelection" None
              (Some (TimedText.trim selection))
       /\ String.length (TimedText.trim selection) <= 500
       /\ Async.trace (ContextMenu.onClicked info)
          = [Msg.UpdateStatus "Starting fact-check..." false (Some true)])
  /\ (forall selection : string,
        ContextMenu.menuItemId info = "factCheckSelectedText" ->
        ContextMenu.selectionText info = Some selection ->
        selection <> EmptyString ->
        String.length selection <= 500 ->
        ContextMenu.onClicked info
        = ([Msg.UpdateStatus "Starting fact-check..." false (Some true)],
           Async.Returned
             (Some (Router.mkMessage "factCheckSelection" None
                      (Some (TimedText.trim selection))))))
  /\ (forall selection : string,
        ContextMenu.menuItemId info = "factCheckSelectedText" ->
        ContextMenu.selectionText info = Some selection ->
        500 < String.length selection ->
        ContextMenu.onClicked info
        = ([Msg.UpdateStatus
              "Selected text too long for fact-checking (max 500 chars)." true
              (Some false);
            Msg.Display "displayFactCheck" None
              (Some "Selected text too long (max 500 chars).")],
           Async.Returned None))
  /\ (ContextMenu.menuItemId info <> "factCheckSelectedText"
      \/ ContextMenu.selectionText info = None
      \/ ContextMenu.selectionText info = Some EmptyString ->
      ContextMenu.onClicked info = ([], Async.Returned None)).
Proof.
  intros _. unfold ContextMenu.onClicked.
  destruct (String.eqb_spec (ContextMenu.menuItemId info) "factCheckSelectedText")
    as [Hid|Hid].
  - destruct (ContextMenu.selectionText info) as [s|] eqn:Es.
    + destruct s as [|c s].
      * cbn [andb Js.truthy_opt Js.truthy_str String.eqb negb].
        split; [discriminate|]. split; [now intros s _ [= <-]|].
        split; [intros s _ [= <-]; cbn [String.length]; lia|]. reflexivity.
      * cbn [andb Js.truthy_opt Js.truthy_str String.eqb negb Worker.nullable].
        destruct (Nat.ltb_spec ContextMenu.maxSelection (String.length (String c s)))
          as [Hl|Hl]; unfold ContextMenu.maxSelection in Hl.
        -- split; [discriminate|]. split; [intros s' _ [= <-] _ Hs; lia|].
           split; [reflexivity|].
           intros [H|[H|H]]; [contradiction|discriminate|discriminate].
        -- split.
           { intros request [= <-]. exists (String c s).
             pose proof (trim_length (String c s)).
             repeat split; try assumption; try discriminate; lia. }
           split; [now intros s' _ [= <-]|].
           split; [intros s' _ [= <-] Hs; lia|].
           intros [H|[H|H]]; [contradiction|discriminate|discriminate].
    + cbn [andb Js.truthy_opt].
      split; [discriminate|]. split; [discriminate|]. split; [discriminate|].
      reflexivity.
  - cbn [andb]. split; [discriminate|].
    split; [intros s H; contradiction|]. split; [intros s H; contradiction|].
    reflexivity.
Qed.

Lemma context_menu_forwards_short_selections_witness :
  ContextMenu.onClicked MoreSamples.paddedClick
  = ([Msg.UpdateStatus "Starting fact-check..." false (Some true)],
     Async.Returned
       (Some (Router.mkMessage "factCheckSelection" None
                (Some "the moon is made of cheese"))))
  /\ ContextMenu.onClicked
       (ContextMenu.mkClick "factCheckSelectedText" (Some MoreSamples.longSelection))
     = ([Msg.UpdateStatus
           "Selected text too long for fact-checking (max 500 chars)." true
           (Some false);
         Msg.Display "displayFactCheck" None
           (Some "Selected text too long (max 500 chars).")],
        Async.Returned None).
Proof.
  split.
  - exact (proj1 (proj2 (context_menu_forwards_short_selections
                           MoreSamples.paddedClick
                           ltac:(intros s [= <-]; reflexivity)))
             "  the moon is made of cheese " eq_refl eq_refl
             ltac:(discriminate) ltac:(vm_compute; lia)).
  - apply (proj1 (proj2 (proj2 (context_menu_forwards_short_selections
                                  (ContextMenu.mkClick "factCheckSelectedText"
                                     (Some MoreSamples.longSelection))
                                  ltac:(intros s [= <-]; vm_compute; reflexivity))))
             MoreSamples.longSelection eq_refl eq_refl).
    vm_compute. lia.
Defined.

(** X18.  A selection of white space only, at most 500 characters long, is
    sent on as an empty text.  The message listener starts nothing for such
    a message, while the popup, once it has the status of the click, is
    left processing. *)
Theorem blank_selection_starts_nothing
    (JSON_parse : string -> option Json.json) (typeErrorMessage : string)
    (fuel : nat) (w : Msg.World) (selection : string) (st : Popup.State) :
  selection <> EmptyString ->
  String.length selection <= 500 ->
  TimedText.trim selection = EmptyString ->
  Async.result
    (ContextMenu.onClicked (ContextMenu.mkClick "factCheckSelectedText" (Some selection)))
  = Async.Returned (Some (Router.mkMessage "factCheckSelection" None (Some EmptyString)))
  /\ Router.onMessage JSON_parse typeErrorMessage fuel w
       (Router.mkMessage "factCheckSelection" None (Some EmptyString))
     = ([], false)
  /\ Popup.isProcessing
       (Popup.deliver
          (Async.trace
             (ContextMenu.onClicked
                (ContextMenu.mkClick "factCheckSelectedText" (Some selection))))
          st)
     = true.
Proof.
  intros Hne Hl Ht. unfold ContextMenu.onClicked. cbn [ContextMenu.menuItemId
    ContextMenu.selectionText Js.truthy_opt Worker.nullable].
  rewrite (truthy_str_nonempty selection Hne).
  change (String.eqb "factCheckSelectedText" "factCheckSelectedText") with true.
  cbn [andb].
  destruct (Nat.ltb_spec ContextMenu.maxSelection (String.length selection)) as [Hgt|_];
    [unfold ContextMenu.maxSelection in Hgt; lia|].
  rewrite Ht. repeat split.
Qed.

Lemma blank_selection_starts_nothing_witness :
  Router.onMessage Json.parse Samples.hostTypeError 1
    (Samples.world [] (Msg.Rejected "offline"))
    (Router.mkMessage "factCheckSelection" None (Some EmptyString))
  = ([], false)
  /\ Popup.isProcessing
       (Popup.deliver
          (Async.trace
             (ContextMenu.onClicked
                (ContextMenu.mkClick "factCheckSelectedText" (Some "   "))))
          Popup.initial)
     = true.
Proof.
  exact (proj2 (blank_selection_starts_nothing Json.parse Samples.hostTypeError 1
                  (Samples.world [] (Msg.Rejected "offline")) "   " Popup.initial
                  ltac:(discriminate) ltac:(simpl; lia) eq_refl)).
Defined.

Section Buttons.
Import Popup.

Lemma onWatchPage_truthy (tabs : list Tab) (i : nat) :
  onWatchPage tabs = Some i -> Router.truthyTab (Some i) = true.
Proof.
  unfold onWatchPage.
  destruct tabs as [|t _]; [discriminate|].
  destruct (tabId t) as [[|n]|]; try discriminate.
  destruct (url t) as [u|]; [|discriminate].
  destruct (includes "youtube.com/watch" u); [|discriminate].
  now intros [= <-].
Qed.

End Buttons.

(** X20.  The message listener answers [false] exactly when it starts
    nothing, and then emits nothing; when it answers [true], the first
    thing it emits is a status that sets the popup processing. *)
Theorem listener_starts_with_processing_status
    (JSON_parse : string -> option Json.json) (typeErrorMessage : string)
    (fuel : nat) (w : Msg.World) (request : Router.Message) :
  (snd (Router.onMessage JSON_parse typeErrorMessage fuel w request) = false ->
   fst (Router.onMessage JSON_parse typeErrorMessage fuel w request) = [])
  /\ (snd (Router.onMessage JSON_parse typeErrorMessage fuel w request) = true ->
      exists message rest,
        fst (Router.onMessage JSON_parse typeErrorMessage fuel w request)
        = Msg.UpdateStatus message false (Some true) :: rest).
Proof.
  unfold Router.onMessage.
  destruct (String.eqb (Router.action request) "getTranscript"
            && Router.truthyTab (Router.tabId request)).
  { split; [discriminate|]. intros _. cbn [fst]. unfold Router.getTranscript.
    rewrite trace_tryCatch, trace_bind. cbn. eexists _, _. reflexivity. }
  destruct (String.eqb (Router.action request) "analyzeComments"
            && Router.truthyTab (Router.tabId request)).
  { split; [discriminate|]. intros _. cbn [fst]. unfold Router.analyzeComments.
    rewrite trace_tryCatch, trace_bind. cbn. eexists _, _. reflexivity. }
  destruct (String.eqb (Router.action request) "factCheckSelection"
            && Js.truthy_opt (Router.text request)).
  { split; [discriminate|]. intros _. cbn [fst]. unfold Router.factCheckSelection.
    rewrite trace_tryCatch, trace_bind. unfold Worker.performFactCheck at 1.
    rewrite trace_bind. cbn. eexists _, _. reflexivity. }
  split; [reflexivity | discriminate].
Qed.

(** ** Timed text: from the entries of a document to the lines *)

Section TimedTextEntries.
Import TimedText Observed.

Lemma append_assoc (a b c : string) : ((a ++ b) ++ c)%string = (a ++ b ++ c)%string.
Proof. induction a as [|x a IH]; simpl; [reflexivity|now rewrite IH]. Qed.

Lemma length_append (a b : string) :
  String.length (a ++ b) = String.length a + String.length b.
Proof. induction a as [|x a IH]; simpl; [reflexivity|now rewrite IH]. Qed.

Lemma prefix_nil (s : string) : String.prefix EmptyString s = true.
Proof. now destruct s. Qed.

Lemma prefix_cons (a b : ascii) (p s : string) :
  String.prefix (String a p) (String b s)
  = if Ascii.eqb a b then String.prefix p s else false.
Proof.
  simpl. destruct (ascii_dec a b) as [->|n].
  - now rewrite Ascii.eqb_refl.
  - apply Ascii.eqb_neq in n. now rewrite n.
Qed.

Lemma prefix_app (p r : string) : String.prefix p (p ++ r) = true.
Proof.
  induction p as [|a p IH]; [apply prefix_nil|].
  change (String a p ++ r)%string with (String a (p ++ r)).
  now rewrite prefix_cons, Ascii.eqb_refl.
Qed.

Lemma prefix_app_long (p s r : string) :
  String.length p <= String.length s ->
  String.prefix p (s ++ r) = String.prefix p s.
Proof.
  revert s. induction p as [|a p IH]; intros s Hl.
  - now rewrite !prefix_nil.
  - destruct s as [|b s]; [simpl in Hl; lia|].
    change (String b s ++ r)%string with (String b (s ++ r)).
    rewrite !prefix_cons. destruct (Ascii.eqb a b); [|reflexivity].
    apply IH. simpl in Hl. lia.
Qed.

Lemma index_0_cons (p : string) (b : ascii) (s : string) :
  String.index 0 p (String b s)
  = if String.prefix p (String b s) then Some 0
    else option_map S (String.index 0 p s).
Proof.
  change (String.index 0 p (String b s))
    with (if String.prefix p (String b s) then Some 0
          else match String.index 0 p s with
               | Some n => Some (S n) | None => None end).
  destruct (String.prefix p (String b s)); [reflexivity|].
  now destruct (String.index 0 p s).
Qed.

(** Searching from the end of a prefix is searching in what follows. *)
Lemma index_shift (a : string) (n : nat) (p s : string) :
  String.index (String.length a + n) p (a ++ s)
  = option_map (Nat.add (String.length a)) (String.index n p s).
Proof.
  induction a as [|x a IH].
  - simpl. now destruct (String.index n p s).
  - change (String.index (String.length (String x a) + n) p (String x a ++ s))
      with (match String.index (String.length a + n) p (a ++ s) with
            | Some n => Some (S n) | None => None end).
    rewrite IH. now destruct (String.index n p s).
Qed.

(** A pattern found at the end of [pre ++ p] and not before is found at
    the same place when more text follows. *)
Lemma index_first_kept (a : ascii) (p pre rest : string) :
  String.index 0 (String a p) (pre ++ String a p)
  = Some (String.length pre) ->
  String.index 0 (String a p) (pre ++ String a p ++ rest)
  = Some (String.length pre).
Proof.
  induction pre as [|c pre IH]; intros H.
  - change (String.index 0 (String a p) (String a (p ++ rest)) = Some 0).
    rewrite index_0_cons.
    change (String a (p ++ rest)) with (String a p ++ rest)%string.
    now rewrite prefix_app.
  - change (String.index 0 (String a p) (String c (pre ++ String a p))
            = Some (S (String.length pre))) in H.
    rewrite index_0_cons in H.
    change (String.index 0 (String a p) (String c (pre ++ String a p ++ rest))
            = Some (S (String.length pre))).
    rewrite index_0_cons.
    assert (Hp : String.prefix (String a p)
                   (String c (pre ++ String a p ++ rest))
                 = String.prefix (String a p) (String c (pre ++ String a p))).
    { rewrite <- append_assoc.
      change (String c ((pre ++ String a p) ++ rest))
        with (String c (pre ++ String a p) ++ rest)%string.
      apply prefix_app_long. simpl. rewrite length_append. simpl. lia. }
    rewrite Hp.
    destruct (String.prefix (String a p) (String c (pre ++ String a p)));
      [discriminate|].
    destruct (String.index 0 (String a p) (pre ++ String a p)) as [n|] eqn:E;
      [|discriminate].
    injection H as ->. now rewrite (IH eq_refl).
Qed.

(** A pattern is first found behind a text that lacks its first
    character. *)
Lemma index_after_lacking (a : ascii) (p body rest : string) :
  lacks a body = true ->
  String.index 0 (String a p) (body ++ String a p ++ rest)
  = Some (String.length body).
Proof.
  induction body as [|c body IH]; intros H.
  - change (String.index 0 (String a p) (String a (p ++ rest)) = Some 0).
    rewrite index_0_cons.
    change (String a (p ++ rest)) with (String a p ++ rest)%string.
    now rewrite prefix_app.
  - simpl in H. apply andb_true_iff in H as [Hc Hb].
    apply negb_true_iff in Hc.
    change (String.index 0 (String a p)
              (String c (body ++ String a p ++ rest))
            = Some (S (String.length body))).
    rewrite index_0_cons, prefix_cons, Ascii.eqb_sym, Hc.
    now rewrite (IH Hb).
Qed.

Lemma substring_whole (e r : string) :
  substring 0 (String.length e) (e ++ r) = e.
Proof.
  induction e as [|x e IH]; simpl.
  - now destruct r.
  - now rewrite IH.
Qed.

Lemma substring_app (a e r : string) :
  substring (String.length a) (String.length e) (a ++ e ++ r) = e.
Proof.
  induction a as [|x a IH]; simpl; [apply substring_whole|exact IH].
Qed.

Lemma entry_length (attrs body : string) :
  String.length (entry attrs body)
  = 13 + String.length attrs + String.length body.
Proof.
  unfold entry. rewrite !length_append. simpl. lia.
Qed.

(** One step of the matching loop over an entry that starts where the
    next ["<text"] is found. *)
Lemma matchTextFrom_entry (fuel : nat) (A attrs body rest : string) (pos : nat) :
  lacks ">" attrs = true ->
  lacks "<" body = true ->
  String.index pos "<text" (A ++ entry attrs body ++ rest)
  = Some (String.length A) ->
  matchTextFrom (S fuel) (A ++ entry attrs body ++ rest) pos
  = entry attrs body
      :: matchTextFrom fuel (A ++ entry attrs body ++ rest)
           (String.length (A ++ entry attrs body)).
Proof.
  intros Ha Hb Hi.
  assert (Hj : String.index (String.length A + 5) ">"
                 (A ++ entry attrs body ++ rest)
               = Some (String.length A + 5 + String.length attrs)).
  { replace (A ++ entry attrs body ++ rest)%string
      with ((A ++ "<text") ++ attrs ++ ">" ++ (body ++ "</text>") ++ rest)%string
      by (unfold entry; now rewrite !append_assoc).
    replace (String.length A + 5) with (String.length (A ++ "<text") + 0)
      by (rewrite length_append; simpl; lia).
    rewrite index_shift, (index_after_lacking ">" EmptyString attrs _ Ha).
    simpl. f_equal. lia. }
  assert (Hk : String.index (String.length A + 5 + String.length attrs + 1)
                 "</text>" (A ++ entry attrs body ++ rest)
               = Some (String.length A + 5 + String.length attrs + 1
                       + String.length body)).
  { replace (A ++ entry attrs body ++ rest)%string
      with ((A ++ "<text" ++ attrs ++ ">") ++ body ++ "</text>" ++ rest)%string
      by (unfold entry; now rewrite !append_assoc).
    replace (String.length A + 5 + String.length attrs + 1)
      with (String.length (A ++ "<text" ++ attrs ++ ">") + 0)
      by (rewrite !length_append; simpl; lia).
    rewrite index_shift, (index_after_lacking "<" "/text>" body rest Hb).
    simpl. f_equal. lia. }
  cbn [matchTextFrom]. rewrite Hi, Hj, Hk.
  replace (String.length A + 5 + String.length attrs + 1 + String.length body
           + 7 - String.length A)
    with (String.length (entry attrs body))
    by (rewrite entry_length; lia).
  rewrite substring_app.
  replace (String.length A + 5 + String.length attrs + 1 + String.length body + 7)
    with (String.length (A ++ entry attrs body))
    by (rewrite length_append, entry_length; lia).
  reflexivity.
Qed.

Lemma entry_starts (attrs body rest : string) :
  String.index 0 "<text" (entry attrs body ++ rest) = Some 0.
Proof.
  unfold entry. rewrite append_assoc.
  change ("<text" ++ (attrs ++ ">" ++ body ++ "</text>") ++ rest)%string
    with (String "<" ("text" ++ (attrs ++ ">" ++ body ++ "</text>") ++ rest)).
  rewrite index_0_cons.
  change (String "<" ("text" ++ (attrs ++ ">" ++ body ++ "</text>") ++ rest))
    with ("<text" ++ (attrs ++ ">" ++ body ++ "</text>") ++ rest)%string.
  now rewrite prefix_app.
Qed.

(** The loop over the entries that follow what has been matched. *)
Lemma matchTextFrom_entries (l : list (string * string)) :
  forall (A post : string) (fuel : nat),
    length l < fuel ->
    (forall a b, In (a, b) l -> lacks ">" a = true /\ lacks "<" b = true) ->
    String.index 0 "<text" post = None ->
    matchTextFrom fuel (A ++ entries l ++ post) (String.length A)
    = map (fun e => entry (fst e) (snd e)) l.
Proof.
  induction l as [|[a b] l IH]; intros A post fuel Hf Hl Hp.
  - destruct fuel as [|fuel]; [reflexivity|].
    cbn [entries matchTextFrom map]. change (EmptyString ++ post)%string with post.
    replace (String.length A) with (String.length A + 0) by lia.
    now rewrite index_shift, Hp.
  - destruct fuel as [|fuel]; [simpl in Hf; lia|].
    destruct (Hl a b (or_introl eq_refl)) as [Ha Hb].
    cbn [entries map fst snd]. rewrite append_assoc.
    rewrite (matchTextFrom_entry fuel A a b _ (String.length A) Ha Hb).
    + f_equal. rewrite <- (append_assoc A).
      apply IH; [simpl in Hf; lia| |exact Hp].
      intros a' b' Hin. apply Hl. now right.
    + replace (String.length A) with (String.length A + 0) at 1 by lia.
      rewrite index_shift, entry_starts. simpl. f_equal. lia.
Qed.

Lemma entries_length (l : list (string * string)) :
  13 * length l <= String.length (entries l).
Proof.
  induction l as [|[a b] l IH]; [simpl; lia|].
  cbn [entries length]. rewrite length_append, entry_length. lia.
Qed.

Lemma stripFrom_tag (a r : string) :
  lacks ">" a = true ->
  stripFrom true (a ++ String ">" r) = stripFrom false r.
Proof.
  induction a as [|c a IH]; intros H; [reflexivity|].
  simpl in H. apply andb_true_iff in H as [Hc Ha].
  change (stripFrom true (String c a ++ String ">" r))
    with (stripFrom (negb (Ascii.eqb c gt)) (a ++ String ">" r)).
  unfold gt. rewrite Hc. now apply IH.
Qed.

Lemma stripFrom_text (b r : string) :
  lacks "<" b = true ->
  stripFrom false (b ++ r) = (b ++ stripFrom false r)%string.
Proof.
  induction b as [|c b IH]; intros H; [reflexivity|].
  simpl in H. apply andb_true_iff in H as [Hc Hb].
  apply negb_true_iff in Hc.
  change (stripFrom false (String c b ++ r))
    with (if Ascii.eqb c lt && opensTag (b ++ r) then stripFrom true (b ++ r)
          else String c (stripFrom false (b ++ r))).
  unfold lt at 1. rewrite Hc. cbn [andb]. now rewrite (IH Hb).
Qed.

Lemma hasGt_app (a r : string) : hasGt (a ++ String ">" r) = true.
Proof.
  induction a as [|c a IH]; [reflexivity|].
  change (hasGt (String c a ++ String ">" r))
    with (Ascii.eqb c gt || hasGt (a ++ String ">" r)).
  rewrite IH. apply orb_true_r.
Qed.

(** Stripping the tags of an entry leaves its body. *)
Lemma stripTags_entry (attrs body : string) :
  lacks ">" attrs = true ->
  lacks "<" body = true ->
  stripTags (entry attrs body) = body.
Proof.
  intros Ha Hb. unfold stripTags, entry.
  change ("<text" ++ attrs ++ ">" ++ body ++ "</text>")%string
    with (String "<" (String "t" ("ext" ++ attrs ++ String ">" (body ++ "</text>")))).
  change (stripFrom false
            (String "<" (String "t" ("ext" ++ attrs ++ String ">" (body ++ "</text>")))))
    with (if hasGt ("ext" ++ attrs ++ String ">" (body ++ "</text>"))
          then stripFrom true (("ext" ++ attrs) ++ String ">" (body ++ "</text>"))
          else String "<" (stripFrom false
                 (String "t" ("ext" ++ attrs ++ String ">" (body ++ "</text>"))))).
  rewrite <- (append_assoc "ext" attrs), hasGt_app.
  rewrite stripFrom_tag, (stripFrom_text body _ Hb).
  - change (stripFrom false "</text>") with EmptyString.
    apply append_empty.
  - change (lacks ">" ("ext" ++ attrs)) with (lacks ">" attrs). exact Ha.
Qed.

(** X21.  A timed-text document made of a header, one entry or more and
    a trailer yields the bodies of its entries, trimmed, one per line and
    in their order, when no attribute list holds [>], no body holds [<],
    the bodies are ASCII text, and ["<text"] occurs neither in the header
    nor in the trailer. *)
Theorem timed_text_entries_become_lines
    (pre post : string) (e : string * string) (l : list (string * string)) :
  String.index 0 "<text" (pre ++ "<text") = Some (String.length pre) ->
  String.index 0 "<text" post = None ->
  (forall a b, In (a, b) (e :: l) ->
               lacks ">" a = true /\ lacks "<" b = true) ->
  (forall a b, In (a, b) (e :: l) -> Js.isAscii b = true) ->
  extractTranscript (pre ++ entries (e :: l) ++ post)
  = inr (String.concat newline (map (fun x => trim (snd x)) (e :: l))).
Proof.
  intros Hpre Hpost Hl _.
  assert (Hm : matchText (pre ++ entries (e :: l) ++ post)
               = map (fun x => entry (fst x) (snd x)) (e :: l)).
  { unfold matchText. destruct e as [a b].
    destruct (Hl a b (or_introl eq_refl)) as [Ha Hb].
    assert (Hn : length l + 2
                 <= String.length (pre ++ entries ((a, b) :: l) ++ post)).
    { rewrite !length_append.
      pose proof (entries_length ((a, b) :: l)) as H.
      cbn [length] in H. lia. }
    destruct (String.length (pre ++ entries ((a, b) :: l) ++ post))
      as [|fuel]; [lia|].
    cbn [entries map fst snd]. rewrite append_assoc.
    rewrite (matchTextFrom_entry fuel pre a b _ 0 Ha Hb).
    - f_equal. rewrite <- (append_assoc pre).
      apply matchTextFrom_entries; [lia| |exact Hpost].
      intros a' b' Hin. apply Hl. now right.
    - unfold entry. rewrite !append_assoc.
      apply (index_first_kept "<" "text" pre). exact Hpre. }
  unfold extractTranscript, linesOf. rewrite Hm, map_map.
  assert (He : map (fun x => lineOf (entry (fst x) (snd x))) (e :: l)
               = map (fun x => trim (snd x)) (e :: l)).
  { apply map_ext_in. intros [a b] Hin. destruct (Hl a b Hin) as [Ha Hb].
    unfold lineOf. cbn [fst snd].
    now rewrite (stripTags_entry a b Ha Hb), decodeEntities_id. }
  rewrite He. reflexivity.
Qed.

Lemma timed_text_entries_become_lines_witness :
  extractTranscript
    "<transcript><text start=1> Hello </text><text>world &amp; all</text></transcript>"
  = inr ("Hello" ++ newline ++ "world &amp; all")%string.
Proof.
  apply (timed_text_entries_become_lines "<transcript>" "</transcript>"
           (" start=1", " Hello ") [(EmptyString, "world &amp; all")]).
  - reflexivity.
  - reflexivity.
  - intros a b [H|[H|[]]]; injection H as <- <-; split; reflexivity.
  - intros a b [H|[H|[]]]; injection H as <- <-; reflexivity.
Defined.

End TimedTextEntries.

(** ** The buttons of the popup *)

Section WatchPage.
Import Popup.

(** A text found at a place of another splits it there. *)
Lemma substring_occurs (p : string) :
  forall (m : nat) (s : string),
    substring m (String.length p) s = p ->
    exists pre post : string, s = (pre ++ p ++ post)%string.
Proof.
  assert (H0 : forall q s : string,
             substring 0 (String.length q) s = q ->
             exists post : string, s = (q ++ post)%string).
  { induction q as [|a q IH]; intros s H.
    - now exists s.
    - destruct s as [|c s]; [discriminate|].
      cbn [String.length substring] in H. injection H as -> H.
      destruct (IH s H) as [post ->]. now exists post. }
  induction m as [|m IH]; intros s H.
  - destruct (H0 p s H) as [post ->]. now exists EmptyString, post.
  - destruct s as [|c s].
    + cbn [substring] in H. subst p. now exists EmptyString, EmptyString.
    + cbn [substring] in H. destruct (IH s H) as (pre & post & ->).
      now exists (String c pre), post.
Qed.

(** [hay.includes(needle)] holds exactly when [needle] occurs in [hay]. *)
Lemma includes_occurs (needle hay : string) :
  needle <> EmptyString ->
  includes needle hay = true
  <-> exists pre post : string, hay = (pre ++ needle ++ post)%string.
Proof.
  intros Hne. unfold includes. split.
  - destruct (String.index 0 needle hay) as [m|] eqn:E; [|discriminate].
    intros _. apply (substring_occurs needle m).
    now apply (String.index_correct1 0 m needle hay).
  - intros (pre & post & ->).
    destruct (String.index 0 needle (pre ++ needle ++ post)) as [m|] eqn:E;
      [reflexivity|].
    exfalso.
    apply (String.index_correct3 0 (String.length pre) needle
             (pre ++ needle ++ post) E Hne); [lia|].
    apply substring_app.
Qed.

(** The test of the two click listeners on the active tab. *)
Lemma onWatchPage_spec (tabs : list Tab) (i : nat) :
  onWatchPage tabs = Some i
  <-> exists (t : Tab) (rest : list Tab) (n : nat) (pre post : string),
        tabs = t :: rest /\ tabId t = Some (S n) /\ i = S n
        /\ url t = Some (pre ++ "youtube.com/watch" ++ post)%string.
Proof.
  unfold onWatchPage. split.
  - destruct tabs as [|t rest]; [discriminate|].
    destruct (tabId t) as [[|n]|] eqn:Ei; try discriminate.
    destruct (url t) as [u|] eqn:Eu; [|discriminate].
    destruct (includes "youtube.com/watch" u) eqn:Ec; [|discriminate].
    intros [= <-].
    apply includes_occurs in Ec as (pre & post & ->); [|discriminate].
    now exists t, rest, n, pre, post.
  - intros (t & rest & n & pre & post & -> & Hi & -> & Hu).
    rewrite Hi, Hu.
    assert (Hc : includes "youtube.com/watch"
                   (pre ++ "youtube.com/watch" ++ post) = true).
    { apply includes_occurs; [discriminate|]. now exists pre, post. }
    now rewrite Hc.
Qed.

End WatchPage.

(** X19.  A click on one of the two buttons sends a request to the worker
    exactly when the popup is idle and the active tab has a non-zero id
    and a URL in which [youtube.com/watch] occurs; the request carries that
    id, the popup is then processing, and the request is one that the
    message listener takes up, starting the operation of that button.  A
    click that sends nothing leaves the popup as idle or as busy as it
    was. *)
Theorem click_sends_only_when_idle_on_watch_page
    (tabs : list Popup.Tab) (st : Popup.State) :
  (forall st' request,
     Popup.clickTranscript tabs st = (st', Some request) ->
     Popup.isProcessing st = false
     /\ Popup.isProcessing st' = true
     /\ (exists (t : Popup.Tab) (rest : list Popup.Tab) (n : nat)
                (pre post : string),
           tabs = t :: rest
           /\ Popup.tabId t = Some (S n)
           /\ Popup.url t = Some (pre ++ "youtube.com/watch" ++ post)%string
           /\ request = Router.mkMessage "getTranscript" (Some (S n)) None)
     /\ forall JSON_parse typeErrorMessage fuel w,
          Router.onMessage JSON_parse typeErrorMessage fuel w request
          = (Async.trace (Router.getTranscript w), true))
  /\ (forall st' request,
        Popup.clickComments tabs st = (st', Some request) ->
        Popup.isProcessing st = false
        /\ Popup.isProcessing st' = true
        /\ (exists (t : Popup.Tab) (rest : list Popup.Tab) (n : nat)
                   (pre post : string),
              tabs = t :: rest
              /\ Popup.tabId t = Some (S n)
              /\ Popup.url t = Some (pre ++ "youtube.com/watch" ++ post)%string
              /\ request = Router.mkMessage "analyzeComments" (Some (S n)) None)
        /\ forall JSON_parse typeErrorMessage fuel w,
             Router.onMessage JSON_parse typeErrorMessage fuel w request
             = (Async.trace (Router.analyzeComments JSON_parse fuel w), true))
  /\ (forall (t : Popup.Tab) (rest : list Popup.Tab) (n : nat)
             (pre post : string),
        Popup.isProcessing st = false ->
        tabs = t :: rest ->
        Popup.tabId t = Some (S n) ->
        Popup.url t = Some (pre ++ "youtube.com/watch" ++ post)%string ->
        snd (Popup.clickTranscript tabs st)
        = Some (Router.mkMessage "getTranscript" (Some (S n)) None)
        /\ snd (Popup.clickComments tabs st)
           = Some (Router.mkMessage "analyzeComments" (Some (S n)) None))
  /\ (forall st',
        Popup.clickTranscript tabs st = (st', None) ->
        Popup.isProcessing st' = Popup.isProcessing st)
  /\ (forall st',
        Popup.clickComments tabs st = (st', None) ->
        Popup.isProcessing st' = Popup.isProcessing st).
Proof.
  unfold Popup.clickTranscript, Popup.clickComments.
  destruct (Popup.isProcessing st) eqn:Ep.
  - repeat split; try discriminate; now intros st' [= <-].
  - destruct (Popup.onWatchPage tabs) as [i|] eqn:Ew.
    + pose proof (onWatchPage_truthy tabs i Ew) as Hi.
      pose proof (proj1 (onWatchPage_spec tabs i) Ew)
        as (t & rest & n & pre & post & Ht & Hid & -> & Hu).
      split; [|split; [|split; [|split]]]; try discriminate.
      * intros st' request [= <- <-].
        split; [reflexivity|]. split; [reflexivity|]. split.
        -- now exists t, rest, n, pre, post.
        -- intros. unfold Router.onMessage. cbn [Router.action Router.tabId].
           rewrite Hi. reflexivity.
      * intros st' request [= <- <-].
        split; [reflexivity|]. split; [reflexivity|]. split.
        -- now exists t, rest, n, pre, post.
        -- intros. unfold Router.onMessage. cbn [Router.action Router.tabId].
           rewrite Hi. reflexivity.
      * intros t' rest' n' pre' post' _ Ht' Hid' _.
        rewrite Ht in Ht'. injection Ht' as <- <-.
        rewrite Hid in Hid'. injection Hid' as <-. now split.
    + split; [|split; [|split; [|split]]]; try discriminate;
        try (now intros st' [= <-]).
      intros t rest n pre post _ Ht Hid Hu. exfalso.
      assert (Hs : Popup.onWatchPage tabs = Some (S n)).
      { apply onWatchPage_spec. now exists t, rest, n, pre, post. }
      congruence.
Qed.

Lemma click_sends_only_when_idle_on_watch_page_witness :
  Router.onMessage Json.parse Samples.hostTypeError 1
    (Samples.world [] (Msg.Rejected "offline"))
    (Router.mkMessage "getTranscript" (Some 7) None)
  = (Async.trace (Router.getTranscript (Samples.world [] (Msg.Rejected "offline"))),
     true).
Proof.
  exact (proj2 (proj2 (proj2 (proj1 (click_sends_only_when_idle_on_watch_page
                                       [Popup.mkTab (Some 7)
                                          (Some "https://www.youtube.com/watch?v=abc123")]
                                       Popup.initial)
                                _ (Router.mkMessage "getTranscript" (Some 7) None)
                                eq_refl)))
           Json.parse Samples.hostTypeError 1
           (Samples.world [] (Msg.Rejected "offline"))).
Defined.

(** ** A failed call in the batch loop *)

Section FailedCall.
Import Msg Async Json Worker Observed.

Variable JSON_parse : string -> option json.

Lemma NoDup_app_disjoint {A : Type} (l1 l2 : list A) (a : A) :
  NoDup (l1 ++ l2) -> In a l1 -> ~ In a l2.
Proof.
  induction l1 as [|x l1 IH]; intros Hnd Hin; [contradiction|].
  cbn [app] in Hnd. apply NoDup_cons_iff in Hnd as [Hx Hnd].
  destruct Hin as [->|Hin]; [|now apply IH].
  intros Ha. apply Hx. apply in_or_app. now right.
Qed.

(** What a slice holds lies behind every place up to its start. *)
Lemma In_slice_tail {A : Type} (j i k : nat) (l : list A) (x : A) :
  j <= i -> In x (slice i k l) -> In x (skipn j l).
Proof.
  unfold slice. intros Hj H.
  assert (Hs : In x (skipn i l)).
  { rewrite <- (firstn_skipn (k - i) (skipn i l)). apply in_or_app. now left. }
  replace i with ((i - j) + j) in Hs by lia. rewrite <- skipn_skipn in Hs.
  rewrite <- (firstn_skipn (i - j) (skipn j l)). apply in_or_app. now right.
Qed.

(** In a list without repetition, what a slice holds does not come again
    behind it. *)
Lemma slice_not_behind {A : Type} (i m : nat) (l : list A) (x : A) :
  NoDup l -> In x (slice i (i + m) l) -> ~ In x (skipn (i + m) l).
Proof.
  unfold slice. intros Hnd H.
  replace (i + m - i) with m in H by lia.
  replace (i + m) with (m + i) by lia. rewrite <- skipn_skipn.
  apply (NoDup_app_disjoint (firstn m (skipn i l))); [|exact H].
  rewrite firstn_skipn. apply (NoDup_app_remove_l (firstn i l)).
  now rewrite firstn_skipn.
Qed.

(** From the turn that starts at [i] on, the loop adds to the sample only
    comments that lie at [j] or behind, for every [j] up to [i]. *)
Lemma batchLoop_from_tail (w : World) (key : string)
    (comments pool : list Comment) (j fuel : nat) :
  (forall c, In c (skipn j comments) -> In c pool) ->
  forall i n st st',
    j <= i ->
    sampleFrom pool (fst st) ->
    result (batchLoop JSON_parse fuel w key comments i n st) = Returned st' ->
    sampleFrom pool (fst st').
Proof.
  intros Hpool.
  induction fuel as [|fuel IH]; intros i n st st' Hj H; cbn [batchLoop];
    destruct (Nat.ltb i (length comments)); try discriminate;
    try (intros [= <-]; exact H).
  rewrite result_bind. unfold analyzeBatch at 1.
  destruct (generate w n) as [m|s t e|[m|g]]; cbn [bind emit throw ret result snd];
    try discriminate.
  - apply IH; [lia|exact H].
  - apply IH; [lia|]. apply applyReply_from; [|exact H].
    intros c Hc. apply Hpool. now apply (In_slice_tail j i (i + batchSize)).
Qed.

(** A turn whose call fails is its one request followed by the rest of
    the loop, which starts behind the batch with the state as it was. *)
Lemma batchLoop_failed_turn (w : World) (key : string) (comments : list Comment)
    (fuel i n : nat) (st : BatchState)
    (status : nat) (statusText : string) (errorData : string + json) :
  generate w n = Failed status statusText errorData ->
  i < length comments ->
  batchLoop JSON_parse (S fuel) w key comments i n st
  = (Request (geminiFlashUrl key)
       :: trace (batchLoop JSON_parse fuel w key comments (i + batchSize) (S n) st),
     result (batchLoop JSON_parse fuel w key comments (i + batchSize) (S n) st)).
Proof.
  intros Hg Hi. cbn [batchLoop].
  destruct (Nat.ltb_spec i (length comments)) as [_|Hge]; [|lia].
  unfold analyzeBatch. rewrite Hg.
  cbn [bind emit ret fst snd app].
  now destruct (batchLoop JSON_parse fuel w key comments (i + batchSize) (S n) st).
Qed.

End FailedCall.

(** C6.  A batch whose classifier call answers with a non-success status
    is skipped without a second try.  The turn issues that one request
    and hands on the sample and the counts exactly as it received them;
    the loop goes on with the next call behind the batch, in that same
    state; and what the loop adds to the sample from there on are comments
    that lie behind the batch, so that, the comments being distinct, no
    comment of the batch that was not in the sample before is in the
    sample the loop returns. *)
Theorem failed_call_skips_batch
    (JSON_parse : string -> option Json.json) (w : Msg.World) (key : string)
    (comments : list Msg.Comment) (fuel i n : nat) (st : Worker.BatchState)
    (status : nat) (statusText : string) (errorData : string + Json.json) :
  Msg.generate w n = Msg.Failed status statusText errorData ->
  i < length comments ->
  (forall batch : list Msg.Comment,
     Worker.analyzeBatch JSON_parse w key n batch st
     = ([Msg.Request (Worker.geminiFlashUrl key)], Async.Returned st))
  /\ Worker.batchLoop JSON_parse (S fuel) w key comments i n st
     = (Msg.Request (Worker.geminiFlashUrl key)
          :: Async.trace
               (Worker.batchLoop JSON_parse fuel w key comments
                  (i + Worker.batchSize) (S n) st),
        Async.result
          (Worker.batchLoop JSON_parse fuel w key comments
             (i + Worker.batchSize) (S n) st))
  /\ forall st' : Worker.BatchState,
       Async.result (Worker.batchLoop JSON_parse (S fuel) w key comments i n st)
       = Async.Returned st' ->
       (forall a, In a (fst st') ->
                  In (Msg.comment a)
                    (map Msg.comment (fst st)
                       ++ skipn (i + Worker.batchSize) comments))
       /\ (NoDup comments ->
           forall c,
             In c (Worker.slice i (i + Worker.batchSize) comments) ->
             ~ In c (map Msg.comment (fst st)) ->
             ~ In c (map Msg.comment (fst st'))).
Proof.
  intros Hg Hi.
  pose proof (batchLoop_failed_turn JSON_parse w key comments fuel i n st status
                statusText errorData Hg Hi) as Hturn.
  split; [|split; [exact Hturn|]].
  - intros batch. unfold Worker.analyzeBatch. now rewrite Hg.
  - intros st'. rewrite Hturn. cbn [Async.result snd]. intros Hres.
    assert (Hfrom : forall a, In a (fst st') ->
              In (Msg.comment a)
                (map Msg.comment (fst st) ++ skipn (i + Worker.batchSize) comments)).
    { apply (batchLoop_from_tail JSON_parse w key comments _ (i + Worker.batchSize)
               fuel (fun c Hc => in_or_app _ _ c (or_intror Hc))
               (i + Worker.batchSize) (S n) st st' (Nat.le_refl _)); [|exact Hres].
      intros a Ha. apply in_or_app. left. now apply in_map. }
    split; [exact Hfrom|].
    intros Hnd c Hc Hnot Hin.
    apply in_map_iff in Hin as (a & <- & Ha).
    apply Hfrom, in_app_or in Ha as [Ha|Ha]; [now apply Hnot|].
    now apply (slice_not_behind i Worker.batchSize comments (Msg.comment a) Hnd Hc).
Qed.

Lemma failed_call_skips_batch_witness :
  Async.result
    (Worker.batchLoop Json.parse 11 MoreSamples.failingFirst "gm-key"
       MoreSamples.eleven 0 0 ([], Worker.noCounts))
  = Async.Returned
      ([Msg.mkAnalyzed (Msg.mkComment "11" "comment") "positive"],
       Msg.mkCounts 1 0 0 []).
Proof.
  destruct (failed_call_skips_batch Json.parse MoreSamples.failingFirst "gm-key"
              MoreSamples.eleven 10 0 0 ([], Worker.noCounts)
              503 "Service Unavailable" (inl "no body") eq_refl
              ltac:(vm_compute; lia)) as (_ & Hloop & _).
  rewrite Hloop. reflexivity.
Defined.
